(** * VitalMatrix: the Oura reconciliation engine and the sleep-debt estimator

    A shallow embedding of
      - [backend/app/services/oura_sync.py]   (modules [OuraSync], [Nullable],
                                               [OuraSyncAll]),
      - [backend/app/api/v1/oura.py]          (modules [OuraApi], [OuraReaders]),
      - [backend/app/services/sleep_metrics_service.py]
                                              (modules [SleepMetrics], [SleepSummary]),
      - [backend/app/integrations/oura/client.py]     (module [OuraHttp]),
      - [backend/app/integrations/polar/provider.py]  (module [PolarProvider]),
      - [backend/app/utils/datetime_helper.py]        (module [DatetimeHelper]),
    then the notions the statements need ([SleepDebtSpec], [RoundedDebt],
    [Upsert], [Forced], [ZeroCounts], [Loop], [WellFormed], [Range],
    [Fixtures], [Samples]), then the properties.

    Conventions of the embedding.
      - A Python [int] is a [Z]; a Python [float] is a primitive binary64
        float, so that rounding is the machine's; the functions of NumPy
        are parameters.
      - A [date] is the number of days since 1970-01-01, an aware [datetime]
        is the number of seconds since 1970-01-01T00:00:00Z.
      - A vendor payload (a JSON object) is a record of optional fields at
        the types of the vendor schema; for a member read with [d.get(key)],
        [None] stands for a key that is missing or null.  A member read with
        a default, [d.get(key, dflt)], is a [jfield] where the code then
        meets [None]: the duration of a sleep period in [OuraSync], the
        [contributors] objects in [Nullable].  In the payloads of [OuraSync]
        a [contributors] member is absent or an object.  Strings that the
        code hands to [fromisoformat] are kept raw, so that a parse failure
        is visible.
      - Code that can raise returns a [result]; the exceptions modelled are
        the [ValueError] of [fromisoformat], the [TypeError] of an arithmetic
        operation on [None], the [AttributeError] of [None.get(key)], the
        [IntegrityError] of a unique index and the [MissingGreenlet] of an
        expired attribute read outside a greenlet.
      - [now_hk()] is one instant [now] for a whole pass and [today_hk()] is
        its Hong Kong calendar date. *)

From Stdlib Require Import ZArith QArith Lia List String Ascii Permutation Sorted.
From Stdlib Require Import PrimFloat FloatOps SpecFloat FloatAxioms Uint63.
From stdpp Require Import gmap strings list fin_maps.

Local Open Scope string_scope.
Local Open Scope Z_scope.

(** ** Python values and exceptions *)

Inductive exn := ValueError | TypeError | IntegrityError | AttributeError | MissingGreenlet.

Inductive result (A : Type) :=
  | Ok (a : A)
  | Raise (e : exn).
Arguments Ok {A} a.
Arguments Raise {A} e.

#[global] Instance result_ret : MRet result := fun A a => Ok a.
#[global] Instance result_bind : MBind result := fun A B f m =>
  match m with
  | Ok a => f a
  | Raise e => Raise e
  end.

(** An ISO string handed to [fromisoformat]: the parsed value or [ValueError]. *)
Definition parse {A} (p : string -> option A) (s : string) : result A :=
  match p s with
  | Some a => Ok a
  | None => Raise ValueError
  end.

(** A JSON member whose absence and whose [null] the code tells apart,
    because it is read with [dict.get(key, default)]. *)
Inductive jfield (A : Type) :=
  | Missing
  | Null
  | Val (a : A).
Arguments Missing {A}.
Arguments Null {A}.
Arguments Val {A} a.

(** [d.get(key)] *)
Definition jget {A} (f : jfield A) : option A :=
  match f with
  | Val a => Some a
  | _ => None
  end.

(** [d.get(key, dflt)]: the default replaces a missing key only. *)
Definition jget_default {A} (f : jfield A) (dflt : A) : option A :=
  match f with
  | Missing => Some dflt
  | Null => None
  | Val a => Some a
  end.

(** Values that are only copied from a payload into a column. *)
Inductive scalar :=
  | SInt (z : Z)
  | SNum (x : float)
  | SStr (s : string).

(** Python truth of an optional string and of an optional [int]. *)
Definition truthy_str (o : option string) : bool :=
  match o with
  | Some s => negb (String.eqb s "")
  | None => false
  end.

Definition truthy_int (o : option Z) : bool :=
  match o with
  | Some n => negb (n =? 0)
  | None => false
  end.

(** ** Python floats

    A Python [float] is a binary64 number: the primitive floats, whose
    operations round as Python's do. *)

Module PyFloat.

(** [float(n)], for [|n| < 2^63] *)
Definition float_of_Z (z : Z) : float :=
  if z <? 0 then PrimFloat.opp (of_uint63 (Uint63.of_Z (- z)))
  else of_uint63 (Uint63.of_Z z).

(** [int(x)]: truncation toward zero.  Python raises on a NaN and on an
    infinity; the floats converted in this development are finite, and the
    value given here to the other two is never used. *)
Definition int_of (x : float) : Z :=
  match Prim2SF x with
  | S754_finite s m e =>
      let v := if 0 <=? e then Z.shiftl (Z.pos m) e else Z.shiftr (Z.pos m) (- e) in
      if s then - v else v
  | _ => 0
  end.

(** a sum accumulated from [0.0], left to right *)
Definition fsum (l : list float) : float := foldl PrimFloat.add 0%float l.

End PyFloat.
Export PyFloat.

(** ** Dates and instants *)

Module Datetime.

Definition date := Z.
Definition instant := Z.

(** [dt.astimezone(pytz.timezone("Asia/Hong_Kong")).date()]; Hong Kong has
    been at UTC+8 without daylight saving time since 1979. *)
Definition hk_offset : Z := 8 * 3600.
Definition hk_date (t : instant) : date := (t + hk_offset) / 86400.

(** [s.replace("Z", "+00:00")] *)
Fixpoint replace_Z (s : string) : string :=
  match s with
  | EmptyString => EmptyString
  | String c rest =>
      if Ascii.eqb c "Z"%char then ("+00:00" ++ replace_Z rest)%string
      else String c (replace_Z rest)
  end.

(** The two library parsers the sync code calls.  [None] is [ValueError]. *)
Class IsoParsers := {
  date_fromisoformat : string -> option date;
  datetime_fromisoformat : string -> option instant
}.

(** *** A strict instance: [YYYY-MM-DD] and [YYYY-MM-DDTHH:MM:SS+HH:MM] *)

Definition digit (c : ascii) : option Z :=
  let n := Z.of_N (N_of_ascii c) in
  if (48 <=? n) && (n <=? 57) then Some (n - 48) else None.

Fixpoint digits_acc (acc : Z) (s : string) : option Z :=
  match s with
  | EmptyString => Some acc
  | String c rest =>
      match digit c with
      | Some d => digits_acc (10 * acc + d) rest
      | None => None
      end
  end.

Definition number (s : string) : option Z :=
  match s with
  | EmptyString => None
  | _ => digits_acc 0 s
  end.

Definition is_leap (y : Z) : bool :=
  ((y mod 4 =? 0) && negb (y mod 100 =? 0)) || (y mod 400 =? 0).

Definition days_in_month (y m : Z) : Z :=
  if m =? 2 then (if is_leap y then 29 else 28)
  else if (m =? 4) || (m =? 6) || (m =? 9) || (m =? 11) then 30
  else 31.

(** Days from 1970-01-01 to the civil date [y]-[m]-[d]. *)
Definition days_from_civil (y m d : Z) : Z :=
  let y' := if m <=? 2 then y - 1 else y in
  let era := y' / 400 in
  let yoe := y' - era * 400 in
  let mp := (m + 9) mod 12 in
  let doy := (153 * mp + 2) / 5 + d - 1 in
  let doe := yoe * 365 + yoe / 4 - yoe / 100 + doy in
  era * 146097 + doe - 719468.

Definition civil (y m d : Z) : option date :=
  if (1 <=? y) && (y <=? 9999) && (1 <=? m) && (m <=? 12)
     && (1 <=? d) && (d <=? days_in_month y m)
  then Some (days_from_civil y m d) else None.

Definition strict_date (s : string) : option date :=
  if negb (String.length s =? 10)%nat then None
  else if negb (String.eqb (substring 4 1 s) "-" && String.eqb (substring 7 1 s) "-") then None
  else
    y ← number (substring 0 4 s);
    m ← number (substring 5 2 s);
    d ← number (substring 8 2 s);
    civil y m d.

Definition strict_clock (s : string) : option Z :=
  if negb (String.length s =? 8)%nat then None
  else if negb (String.eqb (substring 2 1 s) ":" && String.eqb (substring 5 1 s) ":") then None
  else
    h ← number (substring 0 2 s);
    mi ← number (substring 3 2 s);
    se ← number (substring 6 2 s);
    if (h <=? 23) && (mi <=? 59) && (se <=? 59) then Some (h * 3600 + mi * 60 + se) else None.

Definition strict_offset (s : string) : option Z :=
  if negb (String.length s =? 6)%nat then None
  else if negb (String.eqb (substring 3 1 s) ":") then None
  else
    h ← number (substring 1 2 s);
    mi ← number (substring 4 2 s);
    if negb ((h <=? 23) && (mi <=? 59)) then None
    else if String.eqb (substring 0 1 s) "+" then Some (h * 3600 + mi * 60)
    else if String.eqb (substring 0 1 s) "-" then Some (- (h * 3600 + mi * 60))
    else None.

Definition strict_datetime (s : string) : option instant :=
  if negb (String.length s =? 25)%nat then None
  else if negb (String.eqb (substring 10 1 s) "T") then None
  else
    d ← strict_date (substring 0 10 s);
    c ← strict_clock (substring 11 8 s);
    o ← strict_offset (substring 19 6 s);
    Some (d * 86400 + c - o).

Definition strict_iso : IsoParsers :=
  {| date_fromisoformat := strict_date; datetime_fromisoformat := strict_datetime |}.

End Datetime.
Export Datetime.


(** ** The vendor payloads and the tables of [app/models/oura.py] *)

Module Model.

(** One element of a [daily_*] collection of the vendor. *)
Record item := {
  item_id : option string;
  item_day : option string;
  item_score : option Z;
  (** the other scalar members, by key *)
  item_fields : gmap string scalar;
  (** the object members ([contributors], [spo2_percentage]), by key; a
      [contributors] that is there is an object, see [Nullable] for [null] *)
  item_objects : gmap string (gmap string scalar)
}.

(** [item.get("contributors", {})], the member being absent or an object *)
Definition contributors_of (i : item) : gmap string scalar :=
  default ∅ (item_objects i !! "contributors").

(** The [readiness] object embedded in a sleep period; a missing, null or
    empty object is [None] in [detail].  Its [contributors] is absent
    ([None]) or an object, see [Nullable] for [null]. *)
Record readiness_obj := {
  rd_score : option Z;
  rd_contributors : option (gmap string scalar);
  rd_fields : gmap string scalar
}.

(** One sleep period of the vendor's [sleep] collection. *)
Record detail := {
  det_id : option string;
  det_day : option string;
  det_type : option string;
  det_total_sleep_duration : jfield Z;
  det_bedtime_start : option string;
  det_bedtime_end : option string;
  det_fields : gmap string scalar;
  det_readiness : option readiness_obj;
  det_sleep_score_delta : option Z;
  det_readiness_score_delta : option Z
}.

(** The answer of [OuraClient.get_all_daily_data]. *)
Record all_data := {
  ad_sleep : list item;
  ad_sleep_details : list detail;
  ad_readiness : list item;
  ad_activity : list item;
  ad_stress : list item;
  ad_spo2 : list item;
  ad_cardiovascular_age : list item;
  ad_resilience : list item;
  ad_vo2_max : list item
}.

(** [class OuraAuth]; the table is keyed by [user_id], which is unique. *)
Record OuraAuth := {
  access_token : option string;
  refresh_token : option string;
  token_expires_at : option instant;
  is_active : bool;
  last_sync_at : option instant;
  auth_updated_at : instant
}.

(** [class OuraSleep].  Columns that the sync fills with [x.get(key)] for a
    list of keys are kept as the list of these values:
    [detail_columns] for [detail_keys], [contributor_columns] for
    [summary_contributor_keys] and [readiness_columns] for
    [readiness_contributor_keys] followed by [readiness_field_keys].  The
    columns [spo2_percentage] and [temperature_deviation], which the sync
    never writes, are left out. *)
Record OuraSleep := {
  user_id : N;
  oura_id : string;
  day : date;
  bedtime_start : option instant;
  bedtime_end : option instant;
  total_sleep_duration : option Z;
  detail_columns : list (option scalar);
  sleep_score : option Z;
  contributor_columns : list (option scalar);
  sleep_type : option string;
  readiness_score_embedded : option Z;
  readiness_columns : list (option scalar);
  sleep_score_delta : option Z;
  readiness_score_delta : option Z;
  raw_json : option item * detail;
  created_at : instant
}.

(** [class OuraDailySleep]; [ds_contributors] for [daily_sleep_keys]. *)
Record OuraDailySleep := {
  ds_user_id : N;
  ds_oura_id : string;
  ds_day : date;
  ds_score : option Z;
  ds_contributors : list (option scalar);
  ds_raw_json : item;
  ds_created_at : instant
}.

(** The seven tables [OuraDailyReadiness], [OuraDailyActivity],
    [OuraDailyStress], [OuraDailySpo2], [OuraCardiovascularAge],
    [OuraResilience] and [OuraVO2Max]: the keys, the day, the columns
    copied from the payload (one list per table, see [OuraSync]) and the
    payload. *)
Record daily_row := {
  dr_user_id : N;
  dr_oura_id : string;
  dr_day : date;
  dr_columns : list (option scalar);
  dr_raw_json : item;
  dr_created_at : instant
}.

Record database := {
  oura_auth : gmap N OuraAuth;
  oura_sleep : gmap string OuraSleep;
  oura_daily_sleep : gmap string OuraDailySleep;
  oura_daily_readiness : gmap string daily_row;
  oura_daily_activity : gmap string daily_row;
  oura_daily_stress : gmap string daily_row;
  oura_daily_spo2 : gmap string daily_row;
  oura_cardiovascular_age : gmap string daily_row;
  oura_resilience : gmap string daily_row;
  oura_vo2_max : gmap string daily_row
}.

(** The rows of one table as a session sees them.  The session factory is
    built with [autoflush=False]: a [select] returns the rows of the
    database, with the attribute changes this session has made to them
    ([rows]), and does not see the objects passed to [db.add] ([added]). *)
Record table (R : Type) := {
  rows : gmap string R;
  added : list R
}.
Arguments rows {R} t.
Arguments added {R} t.

(** [db.commit()] on one table: the pending objects are inserted; the
    unique index on [oura_id] rejects a key that is taken. *)
Definition flush {R} (key : R -> string) (t : table R) : result (gmap string R) :=
  let keys := key <$> added t in
  if bool_decide (NoDup keys ∧ Forall (fun k => rows t !! k = None) keys)
  then Ok (foldl (fun m r => <[key r := r]> m) (rows t) (added t))
  else Raise IntegrityError.

End Model.
Export Model.

(** ** [backend/app/services/oura_sync.py] *)

Module OuraSync.

(** [for x in xs: body], threading the loop's variables; [continue] is
    [Ok] of the unchanged variables, an exception leaves the loop. *)
Fixpoint for_each {A S} (body : S -> A -> result S) (xs : list A) (s : S) : result S :=
  match xs with
  | [] => Ok s
  | x :: rest => s' ← body s x; for_each body rest s'
  end.

(** The vendor, as the sync service uses it. *)
Record token_data := {
  td_access_token : option string;
  td_refresh_token : jfield string;
  td_expires_in : option Z
}.

Class OuraClient := {
  (** [None]: the call, or reading ["access_token"] in its answer, raised *)
  refresh_access_token : string -> option token_data;
  get_all_daily_data : string -> date -> date -> all_data
}.

Inductive outcome :=
  | Returned (stats : gmap string Z)
  | Raised (e : exn).

Section Reconciler.
Context `{IsoParsers}.

(** [date.fromisoformat(day) if day else None] *)
Definition item_date_of (day : option string) : result (option date) :=
  if truthy_str day then d ← parse date_fromisoformat (default "" day); Ok (Some d)
  else Ok None.

(** [datetime.fromisoformat(s.replace("Z", "+00:00"))] under [if s:] *)
Definition bedtime_of (s : option string) : result (option instant) :=
  if truthy_str s then t ← parse datetime_fromisoformat (replace_Z (default "" s)); Ok (Some t)
  else Ok None.

(** [force_recent_date and item_date and item_date >= force_recent_date] *)
Definition is_recent (force_recent_date item_date : option date) : bool :=
  match force_recent_date, item_date with
  | Some f, Some d => f <=? d
  | _, _ => false
  end.

(** [force or (force_today and item_date == today) or (...)] *)
Definition should_force (force force_today : bool) (today : date)
    (force_recent_date item_date : option date) : bool :=
  force || (force_today && bool_decide (item_date = Some today))
  || is_recent force_recent_date item_date.

(** *** The seven plain daily streams *)

Definition new_daily_row (columns : item -> list (option scalar)) (user : N)
    (oura : string) (it : item) (item_date : option date) (now : instant) : daily_row :=
  {| dr_user_id := user; dr_oura_id := oura;
     dr_day := default (hk_date now) item_date;
     dr_columns := columns it; dr_raw_json := it; dr_created_at := now |}.

Definition update_daily_row (columns : item -> list (option scalar))
    (existing : daily_row) (it : item) (item_date : option date) : daily_row :=
  {| dr_user_id := dr_user_id existing; dr_oura_id := dr_oura_id existing;
     dr_day := default (dr_day existing) item_date;
     dr_columns := columns it; dr_raw_json := it;
     dr_created_at := dr_created_at existing |}.

(** The loop body shared by [_sync_readiness_data], [_sync_activity_data],
    [_sync_stress_data], [_sync_spo2_data],
    [_sync_cardiovascular_age_data], [_sync_resilience_data] and
    [_sync_vo2_max_data]; they differ in the columns they copy. *)
Definition daily_step (columns : item -> list (option scalar)) (user : N)
    (force force_today : bool) (today : date) (force_recent_date : option date)
    (now : instant) (acc : Z * table daily_row) (it : item)
    : result (Z * table daily_row) :=
  let '(new_count, t) := acc in
  if negb (truthy_str (item_id it)) then Ok acc
  else
    let oura := default "" (item_id it) in
    let existing := rows t !! oura in
    item_date ← item_date_of (item_day it);
    let forced := should_force force force_today today force_recent_date item_date in
    match existing with
    | Some e =>
        if negb forced then Ok acc
        else Ok (new_count,
                 {| rows := <[oura := update_daily_row columns e it item_date]> (rows t);
                    added := added t |})
    | None =>
        Ok (new_count + 1,
            {| rows := rows t;
               added := added t ++ [new_daily_row columns user oura it item_date now] |})
    end.

Definition sync_daily (columns : item -> list (option scalar)) (user : N)
    (data : list item) (force force_today : bool) (today : date)
    (force_recent_date : option date) (now : instant) (tbl : gmap string daily_row)
    : result (Z * table daily_row) :=
  for_each (daily_step columns user force force_today today force_recent_date now)
    data (0, {| rows := tbl; added := [] |}).

Definition field (k : string) (it : item) : option scalar := item_fields it !! k.
Definition contributor (k : string) (it : item) : option scalar := contributors_of it !! k.
Definition score_column (it : item) : option scalar := SInt <$> item_score it.

Definition readiness_columns_of (it : item) : list (option scalar) :=
  score_column it
  :: ((fun k => field k it) <$> ["temperature_deviation"; "temperature_trend_deviation"])
  ++ ((fun k => contributor k it) <$>
        ["activity_balance"; "sleep_balance"; "previous_night"; "previous_day_activity";
         "recovery_index"; "resting_heart_rate"; "hrv_balance"; "body_temperature";
         "sleep_regularity"]).

Definition activity_columns_of (it : item) : list (option scalar) :=
  score_column it
  :: ((fun k => field k it) <$>
        ["active_calories"; "total_calories"; "steps"; "equivalent_walking_distance";
         "high_activity_time"; "medium_activity_time"; "low_activity_time";
         "sedentary_time"; "resting_time"; "target_calories"; "target_meters"])
  ++ ((fun k => contributor k it) <$>
        ["stay_active"; "recovery_time"; "move_every_hour"; "training_volume";
         "training_frequency"; "meet_daily_targets"])
  ++ ((fun k => field k it) <$>
        ["non_wear_time"; "meters_to_target"; "inactivity_alerts"; "average_met_minutes"]).

Definition stress_columns_of (it : item) : list (option scalar) :=
  (fun k => field k it) <$> ["stress_high"; "recovery_high"; "day_summary"].

(** [spo2_obj.get("average") if spo2_obj else None] first *)
Definition spo2_columns_of (it : item) : list (option scalar) :=
  (item_objects it !! "spo2_percentage" ≫= fun o => o !! "average")
  :: ((fun k => field k it) <$> ["breathing_disturbance_index"; "breathing_regularity"]).

Definition cardiovascular_age_columns_of (it : item) : list (option scalar) :=
  [field "vascular_age" it].

Definition resilience_columns_of (it : item) : list (option scalar) :=
  field "level" it
  :: ((fun k => contributor k it) <$> ["sleep_recovery"; "daytime_recovery"; "stress"]).

Definition vo2_max_columns_of (it : item) : list (option scalar) :=
  [field "vo2_max" it].

Definition _sync_readiness_data := sync_daily readiness_columns_of.
Definition _sync_activity_data := sync_daily activity_columns_of.
Definition _sync_stress_data := sync_daily stress_columns_of.
Definition _sync_spo2_data := sync_daily spo2_columns_of.
Definition _sync_cardiovascular_age_data := sync_daily cardiovascular_age_columns_of.
Definition _sync_resilience_data := sync_daily resilience_columns_of.
Definition _sync_vo2_max_data := sync_daily vo2_max_columns_of.

(** *** The daily sleep score *)

Definition daily_sleep_keys : list string :=
  ["deep_sleep"; "efficiency"; "latency"; "rem_sleep"; "restfulness"; "timing";
   "total_sleep"].

Definition daily_sleep_contributors (it : item) : list (option scalar) :=
  (fun k => contributor k it) <$> daily_sleep_keys.

Definition new_daily_sleep (user : N) (oura : string) (it : item)
    (item_date : option date) (now : instant) : OuraDailySleep :=
  {| ds_user_id := user; ds_oura_id := oura;
     ds_day := default (hk_date now) item_date;
     ds_score := item_score it;
     ds_contributors := daily_sleep_contributors it;
     ds_raw_json := it; ds_created_at := now |}.

Definition update_daily_sleep (existing : OuraDailySleep) (it : item)
    (item_date : option date) : OuraDailySleep :=
  {| ds_user_id := ds_user_id existing; ds_oura_id := ds_oura_id existing;
     ds_day := default (ds_day existing) item_date;
     ds_score := item_score it;
     ds_contributors := daily_sleep_contributors it;
     ds_raw_json := it; ds_created_at := ds_created_at existing |}.

(** [old_score is not None and new_score is not None and
    abs(new_score - old_score) >= 3] *)
Definition score_changed (old_score new_score : option Z) : bool :=
  match old_score, new_score with
  | Some o, Some n => 3 <=? Z.abs (n - o)
  | _, _ => false
  end.

Definition daily_sleep_step (user : N) (force force_today : bool) (today : date)
    (force_recent_date : option date) (now : instant)
    (acc : Z * bool * table OuraDailySleep) (it : item)
    : result (Z * bool * table OuraDailySleep) :=
  let '(new_count, has_significant_change, t) := acc in
  if negb (truthy_str (item_id it)) then Ok acc
  else
    let oura := default "" (item_id it) in
    let existing := rows t !! oura in
    item_date ← item_date_of (item_day it);
    let forced := should_force force force_today today force_recent_date item_date in
    match existing with
    | Some e =>
        if negb forced then Ok acc
        else Ok (new_count + 1,
                 has_significant_change || score_changed (ds_score e) (item_score it),
                 {| rows := <[oura := update_daily_sleep e it item_date]> (rows t);
                    added := added t |})
    | None =>
        Ok (new_count + 1, true,
            {| rows := rows t;
               added := added t ++ [new_daily_sleep user oura it item_date now] |})
    end.

Definition _sync_daily_sleep_data (user : N) (sleep_data : list item)
    (force force_today : bool) (today : date) (force_recent_date : option date)
    (now : instant) (tbl : gmap string OuraDailySleep)
    : result (Z * bool * table OuraDailySleep) :=
  for_each (daily_sleep_step user force force_today today force_recent_date now)
    sleep_data (0, false, {| rows := tbl; added := [] |}).

(** *** The sleep periods *)

Definition detail_keys : list string :=
  ["deep_sleep_duration"; "light_sleep_duration"; "rem_sleep_duration"; "awake_time";
   "average_heart_rate"; "lowest_heart_rate"; "average_hrv"; "average_breath";
   "efficiency"; "time_in_bed"; "latency"; "restless_periods"].

Definition summary_contributor_keys : list string :=
  ["total_sleep"; "efficiency"; "restfulness"; "rem_sleep"; "deep_sleep"; "latency";
   "timing"].

Definition readiness_contributor_keys : list string :=
  ["sleep_balance"; "previous_night"; "recovery_index"; "activity_balance";
   "body_temperature"; "resting_heart_rate"; "hrv_balance"; "previous_day_activity"].

Definition readiness_field_keys : list string :=
  ["temperature_deviation"; "temperature_trend_deviation"].

(** [summary_map[day] = item] for every summary with a day *)
Definition summary_map_of (sleep_data : list item) : gmap string item :=
  foldl (fun m it => if truthy_str (item_day it)
                     then <[default "" (item_day it) := it]> m else m)
    ∅ sleep_data.

Definition is_long_sleep (sleep_type : option string) : bool :=
  bool_decide (sleep_type = Some "long_sleep").

(** [summary_map.get(day, {}) if sleep_type == "long_sleep" else {}];
    the empty dictionary is [None]. *)
Definition summary_of (summary_map : gmap string item) (d : detail) : option item :=
  if is_long_sleep (det_type d) then det_day d ≫= fun k => summary_map !! k else None.

Definition summary_score (summary : option item) : option Z := summary ≫= item_score.

(** [summary.get("contributors", {}).get(k)] for the summary keys *)
Definition summary_contributors (summary : option item) : list (option scalar) :=
  (fun k => summary ≫= contributor k) <$> summary_contributor_keys.

Definition detail_values (d : detail) : list (option scalar) :=
  (fun k => det_fields d !! k) <$> detail_keys.

(** [readiness.get("contributors", {}).get(k)], the member being absent or
    an object, then the two deviations; with no readiness object every
    value is [None]. *)
Definition readiness_values (r : option readiness_obj) : list (option scalar) :=
  ((fun k => r ≫= fun o => default ∅ (rd_contributors o) !! k) <$> readiness_contributor_keys)
  ++ ((fun k => r ≫= fun o => rd_fields o !! k) <$> readiness_field_keys).

(** The block under [if existing and not force] for a row whose stored
    duration is not [None]: [(needs_update, item_has_change)]. *)
Definition change_check (force_today : bool) (today : date)
    (force_recent_date item_date : option date) (summary : option item)
    (d : detail) (existing : OuraSleep) : bool * bool :=
  match total_sleep_duration existing with
  | None => (true, false)
  | Some old =>
      let policy :=
        (force_today && bool_decide (item_date = Some today))
        || is_recent force_recent_date item_date in
      let new_duration := jget (det_total_sleep_duration d) in
      let duration_change :=
        truthy_int new_duration && truthy_int (Some old)
        && (300 <=? Z.abs (default 0 new_duration - old)) in
      let score_change :=
        if is_long_sleep (det_type d) then
          truthy_int (summary_score summary) && truthy_int (sleep_score existing)
          && negb (bool_decide (summary_score summary = sleep_score existing))
        else
          match det_sleep_score_delta d, sleep_score_delta existing with
          | Some n, Some o => negb (n =? o)
          | _, _ => false
          end in
      (policy || duration_change || score_change, duration_change || score_change)
  end.

(** [sleep_score]: the summary's score for the main sleep, else the
    embedded readiness score, else [keep]. *)
Definition pick_sleep_score (d : detail) (summary : option item) (keep : option Z)
    : option Z :=
  if is_long_sleep (det_type d) && truthy_int (summary_score summary)
  then summary_score summary
  else match det_readiness d with
       | Some r => rd_score r
       | None => keep
       end.

Definition new_sleep (user : N) (detail_id : string) (d : detail)
    (summary : option item) (sleep_day : date) (start finish : option instant)
    (now : instant) : OuraSleep :=
  {| user_id := user; oura_id := detail_id; day := sleep_day;
     bedtime_start := start; bedtime_end := finish;
     total_sleep_duration := jget (det_total_sleep_duration d);
     detail_columns := detail_values d;
     sleep_score := pick_sleep_score d summary None;
     contributor_columns := summary_contributors summary;
     sleep_type := det_type d;
     readiness_score_embedded := det_readiness d ≫= rd_score;
     readiness_columns := readiness_values (det_readiness d);
     sleep_score_delta := det_sleep_score_delta d;
     readiness_score_delta := det_readiness_score_delta d;
     raw_json := (summary, d);
     created_at := now |}.

Definition update_sleep (existing : OuraSleep) (d : detail) (summary : option item)
    (sleep_day : date) (start finish : option instant) : OuraSleep :=
  {| user_id := user_id existing; oura_id := oura_id existing; day := sleep_day;
     bedtime_start := start; bedtime_end := finish;
     total_sleep_duration := jget (det_total_sleep_duration d);
     detail_columns := detail_values d;
     sleep_score := pick_sleep_score d summary (sleep_score existing);
     contributor_columns := summary_contributors summary;
     sleep_type := det_type d;
     readiness_score_embedded :=
       match det_readiness d with
       | Some r => rd_score r
       | None => readiness_score_embedded existing
       end;
     readiness_columns :=
       match det_readiness d with
       | Some r => readiness_values (Some r)
       | None => readiness_columns existing
       end;
     sleep_score_delta := det_sleep_score_delta d;
     readiness_score_delta := det_readiness_score_delta d;
     raw_json := (summary, d);
     created_at := created_at existing |}.

(** [detail.get("total_sleep_duration", 0)] used as a number, in
    [new_duration >= 300] and in the [// 60] of the log lines: a null
    duration raises [TypeError]. *)
Definition duration_or_zero (d : detail) : result Z :=
  match jget_default (det_total_sleep_duration d) 0 with
  | Some n => Ok n
  | None => Raise TypeError
  end.

Definition sleep_step (user : N) (summary_map : gmap string item)
    (force force_today : bool) (today : date) (force_recent_date : option date)
    (now : instant) (acc : Z * bool * table OuraSleep) (d : detail)
    : result (Z * bool * table OuraSleep) :=
  let '(new_count, has_significant_change, t) := acc in
  if negb (truthy_str (det_id d)) then Ok acc
  else
    let detail_id := default "" (det_id d) in
    let existing := rows t !! detail_id in
    let summary := summary_of summary_map d in
    item_date ← item_date_of (det_day d);
    let '(needs_update, item_has_change) :=
      match existing with
      | Some e =>
          if negb force
          then change_check force_today today force_recent_date item_date summary d e
          else (false, false)
      | None => (false, false)
      end in
    if bool_decide (is_Some existing) && negb force && negb needs_update then Ok acc
    else
      start ← bedtime_of (det_bedtime_start d);
      finish ← bedtime_of (det_bedtime_end d);
      let sleep_day :=
        match finish with
        | Some e => hk_date e
        | None => default (hk_date now) item_date
        end in
      match existing with
      | Some e =>
          if force || needs_update then
            let t' := {| rows := <[detail_id := update_sleep e d summary sleep_day start finish]>
                                   (rows t);
                         added := added t |} in
            if needs_update then
              if item_has_change then
                _ ← duration_or_zero d; Ok (new_count + 1, true, t')
              else Ok (new_count + 1, has_significant_change, t')
            else Ok (new_count, has_significant_change, t')
          else Ok acc
      | None =>
          let t' := {| rows := rows t;
                       added := added t ++ [new_sleep user detail_id d summary sleep_day
                                              start finish now] |} in
          new_duration ← duration_or_zero d;
          Ok (new_count + 1, has_significant_change || (300 <=? new_duration), t')
      end.

Definition _sync_sleep_data (user : N) (sleep_data : list item)
    (sleep_details : list detail) (force force_today : bool) (today : date)
    (force_recent_date : option date) (now : instant) (tbl : gmap string OuraSleep)
    : result (Z * bool * table OuraSleep) :=
  for_each (sleep_step user (summary_map_of sleep_data) force force_today today
              force_recent_date now)
    sleep_details (0, false, {| rows := tbl; added := [] |}).

(** *** The pass of one user *)

Context `{OuraClient}.

Definition set_oura_auth (db : database) (a : gmap N OuraAuth) : database :=
  {| oura_auth := a; oura_sleep := oura_sleep db;
     oura_daily_sleep := oura_daily_sleep db;
     oura_daily_readiness := oura_daily_readiness db;
     oura_daily_activity := oura_daily_activity db;
     oura_daily_stress := oura_daily_stress db;
     oura_daily_spo2 := oura_daily_spo2 db;
     oura_cardiovascular_age := oura_cardiovascular_age db;
     oura_resilience := oura_resilience db;
     oura_vo2_max := oura_vo2_max db |}.

(** [auth.token_expires_at and auth.token_expires_at < now_hk()] *)
Definition token_expired (auth : OuraAuth) (now : instant) : bool :=
  match token_expires_at auth with
  | Some e => e <? now
  | None => false
  end.

Definition refreshed_auth (auth : OuraAuth) (td : token_data) (now : instant) : OuraAuth :=
  {| access_token := td_access_token td;
     refresh_token := match td_refresh_token td with
                      | Missing => refresh_token auth
                      | Null => None
                      | Val r => Some r
                      end;
     token_expires_at := Some (now + default 86400 (td_expires_in td));
     is_active := is_active auth;
     last_sync_at := last_sync_at auth;
     auth_updated_at := now |}.

(** The token handed to the vendor calls and the database after the
    [commit] of a refresh. *)
Definition get_access_token (user : N) (now : instant) (db : database)
    : option string * database :=
  match oura_auth db !! user with
  | Some auth =>
      if negb (is_active auth && truthy_str (access_token auth)) then (None, db)
      else if token_expired auth now then
        if truthy_str (refresh_token auth) then
          match refresh_access_token (default "" (refresh_token auth)) with
          | Some td =>
              let auth' := refreshed_auth auth td now in
              (access_token auth', set_oura_auth db (<[user := auth']> (oura_auth db)))
          | None => (None, db)
          end
        else (None, db)
      else (access_token auth, db)
  | None => (None, db)
  end.

Definition synced_auth (now : instant) (auth : OuraAuth) : OuraAuth :=
  {| access_token := access_token auth; refresh_token := refresh_token auth;
     token_expires_at := token_expires_at auth; is_active := is_active auth;
     last_sync_at := Some now; auth_updated_at := now |}.

(** The body of the [try] of [sync_user_data] once the vendor has
    answered: the nine streams, the sync time, the [commit].  The
    significance of the two sleep streams is only logged there; it is
    returned here with the statistics. *)
Definition reconcile (user : N) (data : all_data) (force force_today : bool)
    (force_recent_days : Z) (now : instant) (db : database)
    : result (gmap string Z * bool * database) :=
  let today := hk_date now in
  let force_recent_date :=
    if 0 <? force_recent_days then Some (today - (force_recent_days - 1)) else None in
  '(n_sleep, sleep_change, t_sleep) ←
    _sync_sleep_data user (ad_sleep data) (ad_sleep_details data) force force_today
      today force_recent_date now (oura_sleep db);
  '(n_daily_sleep, daily_change, t_daily_sleep) ←
    _sync_daily_sleep_data user (ad_sleep data) force force_today today
      force_recent_date now (oura_daily_sleep db);
  '(n_readiness, t_readiness) ←
    _sync_readiness_data user (ad_readiness data) force force_today today
      force_recent_date now (oura_daily_readiness db);
  '(n_activity, t_activity) ←
    _sync_activity_data user (ad_activity data) force force_today today
      force_recent_date now (oura_daily_activity db);
  '(n_stress, t_stress) ←
    _sync_stress_data user (ad_stress data) force force_today today
      force_recent_date now (oura_daily_stress db);
  '(n_spo2, t_spo2) ←
    _sync_spo2_data user (ad_spo2 data) force force_today today
      force_recent_date now (oura_daily_spo2 db);
  '(n_cardiovascular_age, t_cardiovascular_age) ←
    _sync_cardiovascular_age_data user (ad_cardiovascular_age data) force force_today
      today force_recent_date now (oura_cardiovascular_age db);
  '(n_resilience, t_resilience) ←
    _sync_resilience_data user (ad_resilience data) force force_today today
      force_recent_date now (oura_resilience db);
  '(n_vo2_max, t_vo2_max) ←
    _sync_vo2_max_data user (ad_vo2_max data) force force_today today
      force_recent_date now (oura_vo2_max db);
  let stats : gmap string Z :=
    list_to_map
      [("sleep", n_sleep); ("daily_sleep", n_daily_sleep); ("readiness", n_readiness);
       ("activity", n_activity); ("stress", n_stress); ("spo2", n_spo2);
       ("cardiovascular_age", n_cardiovascular_age); ("resilience", n_resilience);
       ("vo2_max", n_vo2_max)] in
  sleep' ← flush oura_id t_sleep;
  daily_sleep' ← flush ds_oura_id t_daily_sleep;
  readiness' ← flush dr_oura_id t_readiness;
  activity' ← flush dr_oura_id t_activity;
  stress' ← flush dr_oura_id t_stress;
  spo2' ← flush dr_oura_id t_spo2;
  cardiovascular_age' ← flush dr_oura_id t_cardiovascular_age;
  resilience' ← flush dr_oura_id t_resilience;
  vo2_max' ← flush dr_oura_id t_vo2_max;
  Ok (stats, sleep_change || daily_change,
      {| oura_auth := alter (synced_auth now) user (oura_auth db);
         oura_sleep := sleep'; oura_daily_sleep := daily_sleep';
         oura_daily_readiness := readiness'; oura_daily_activity := activity';
         oura_daily_stress := stress'; oura_daily_spo2 := spo2';
         oura_cardiovascular_age := cardiovascular_age';
         oura_resilience := resilience'; oura_vo2_max := vo2_max' |}).

(** [sync_user_data]: what the caller gets and the committed database.
    An exception of the [try] body is logged, the session is rolled back
    and the exception is raised again. *)
Definition sync_user_data (user : N) (days : Z) (force force_today : bool)
    (force_recent_days : Z) (now : instant) (db : database) : outcome * database :=
  let '(token, db1) := get_access_token user now db in
  if negb (truthy_str token) then (Returned ∅, db1)
  else
    let end_date := hk_date now + 1 in
    let start_date := hk_date now - (days - 1) in
    let data := get_all_daily_data (default "" token) start_date end_date in
    match reconcile user data force force_today force_recent_days now db1 with
    | Ok (stats, _, db2) => (Returned stats, db2)
    | Raise e => (Raised e, db1)
    end.

End Reconciler.

End OuraSync.

(** ** Queries on the [oura_sleep] table

    The readers below take the rows of the table in the order the database
    scans them; [ORDER BY] is a stable sort of that scan. *)

Module Query.

Fixpoint insert_by {A} (le : A -> A -> bool) (x : A) (l : list A) : list A :=
  match l with
  | [] => [x]
  | y :: rest => if le x y then x :: y :: rest else y :: insert_by le x rest
  end.

(** A stable sort: of two elements that compare equal the one that comes
    first in [l] comes first in the result (Python's [list.sort]). *)
Definition sort_by {A} (le : A -> A -> bool) (l : list A) : list A :=
  foldr (insert_by le) [] l.

(** [.order_by(OuraSleep.day.desc())] *)
Definition day_desc (a b : OuraSleep) : bool := day b <=? day a.

End Query.

(** ** [backend/app/api/v1/oura.py]: [get_grouped_sleep_data] *)

Module OuraApi.

Record SleepSegmentResponse := {
  seg_sleep_type : string;
  seg_score : option Z;
  seg_sleep_score_delta : option Z;
  (** the row the other members are copied from *)
  seg_record : OuraSleep
}.

Record DailySleepResponse := {
  resp_day : date;
  summary_score : option Z;
  base_score : option Z;
  total_duration : Z;
  total_duration_minutes : Z;
  segments_count : nat;
  segments : list SleepSegmentResponse
}.

Definition is_long_sleep (r : OuraSleep) : bool :=
  bool_decide (sleep_type r = Some "long_sleep").

(** [desc(OuraSleep.day), desc(OuraSleep.total_sleep_duration)], a null
    duration first as in PostgreSQL *)
Definition query_order (a b : OuraSleep) : bool :=
  if day a =? day b then
    match total_sleep_duration a, total_sleep_duration b with
    | None, _ => true
    | Some _, None => false
    | Some x, Some y => y <=? x
    end
  else day b <? day a.

(** the key [(0 if x.sleep_type == 'long_sleep' else 1,
    -(x.total_sleep_duration or 0))] of [day_records.sort] *)
Definition segment_order (a b : OuraSleep) : bool :=
  let rank r := if is_long_sleep r then 0 else 1 in
  let neg r := - default 0 (total_sleep_duration r) in
  (rank a <? rank b) || ((rank a =? rank b) && (neg a <=? neg b)).

(** the [for r in day_records] loop that stops at the first main sleep
    with a score *)
Fixpoint find_summary_score (day_records : list OuraSleep) : option Z :=
  match day_records with
  | [] => None
  | r :: rest =>
      if is_long_sleep r && truthy_int (sleep_score r) then sleep_score r
      else find_summary_score rest
  end.

(** [sum(r.sleep_score_delta or 0 for r in day_records)] *)
Definition total_delta (day_records : list OuraSleep) : Z :=
  foldr Z.add 0 ((fun r => default 0 (sleep_score_delta r)) <$> day_records).

Definition segment_of (base : option Z) (r : OuraSleep) : SleepSegmentResponse :=
  let sleep_type' :=
    if truthy_str (sleep_type r) then default "" (sleep_type r) else "unknown" in
  {| seg_sleep_type := sleep_type';
     seg_score := if String.eqb sleep_type' "long_sleep" && bool_decide (is_Some base)
                  then base else sleep_score r;
     seg_sleep_score_delta := sleep_score_delta r;
     seg_record := r |}.

(** The body of the loop over the days, for the records of one day. *)
Definition daily_response (d : date) (group : list OuraSleep) : DailySleepResponse :=
  let day_records := Query.sort_by segment_order group in
  let total := foldr Z.add 0 ((fun r => default 0 (total_sleep_duration r)) <$> day_records) in
  let summary := find_summary_score day_records in
  let base := if truthy_int summary then (fun s => s - total_delta day_records) <$> summary
              else None in
  {| resp_day := d;
     summary_score := summary;
     base_score := base;
     total_duration := total;
     (* int(total_duration / 60 + 0.5) if total_duration else 0 *)
     total_duration_minutes :=
       if total =? 0 then 0
       else int_of (PrimFloat.add (PrimFloat.div (float_of_Z total) 60%float) 0.5%float);
     segments_count := length day_records;
     segments := segment_of base <$> day_records |}.

(** [sorted(day_groups.keys(), reverse=True)] of records already in
    descending day order: the distinct days, first occurrence first. *)
Fixpoint distinct_days (records : list OuraSleep) : list date :=
  match records with
  | [] => []
  | r :: rest => day r :: List.filter (fun d => negb (d =? day r)) (distinct_days rest)
  end.

Definition get_grouped_sleep_data (table : list OuraSleep) (current_user : N)
    (days : Z) (now : instant) : list DailySleepResponse :=
  let start_date := hk_date now - days in
  let records :=
    Query.sort_by query_order
      (List.filter (fun r => bool_decide (user_id r = current_user) && (start_date <=? day r))
         table) in
  (fun d => daily_response d (List.filter (fun r => day r =? d) records))
    <$> distinct_days records.

End OuraApi.

(** ** [backend/app/services/sleep_metrics_service.py] *)

Module SleepMetrics.

Local Open Scope float_scope.

(** The two functions of NumPy that the service calls. *)
Class NumPy := {
  np_mean : list float -> float;
  np_percentile : list float -> Z -> float
}.

(** [row.total_sleep_duration / 60] *)
Definition minutes_of (r : OuraSleep) : float :=
  float_of_Z (default 0%Z (total_sleep_duration r)) / 60.

(** [weight = 1.0 - (i * 0.5 / 13)] *)
Definition weight (i : Z) : float := 1 - (float_of_Z i * 0.5 / 13).

(** the [for i, record in enumerate(sleep_records)] loop:
    [(weighted_debt, total_weight)] *)
Fixpoint debt_loop (baseline_minutes : Z) (i : Z) (sleep_records : list OuraSleep)
    (weighted_debt total_weight : float) : float * float :=
  match sleep_records with
  | [] => (weighted_debt, total_weight)
  | record :: rest =>
      let actual_minutes := minutes_of record in
      let daily_debt := float_of_Z baseline_minutes - actual_minutes in
      debt_loop baseline_minutes (i + 1) rest
        (weighted_debt + daily_debt * weight i) (total_weight + weight i)
  end.

(** the [WHERE] of [_calculate_baseline_sleep] *)
Definition baseline_where (user : N) (target_date : date) (r : OuraSleep) : bool :=
  bool_decide (user_id r = user)
  && (target_date - 89 <=? day r)%Z && (day r <=? target_date)%Z
  && match total_sleep_duration r with
     | Some s => (180 * 60 <=? s)%Z && (s <=? 720 * 60)%Z
     | None => false
     end.

Definition baseline_rows (table : list OuraSleep) (user : N) (target_date : date)
    : list OuraSleep :=
  List.filter (baseline_where user target_date) table.

(** the [WHERE] and [ORDER BY] of [calculate_sleep_debt] *)
Definition debt_where (user : N) (target_date : date) (r : OuraSleep) : bool :=
  bool_decide (user_id r = user)
  && (target_date - 13 <=? day r)%Z && (day r <=? target_date)%Z
  && bool_decide (is_Some (total_sleep_duration r)).

Definition debt_rows (table : list OuraSleep) (user : N) (target_date : date)
    : list OuraSleep :=
  Query.sort_by Query.day_desc (List.filter (debt_where user target_date) table).

Definition balance_of (debt : Z) : Z :=
  if (debt <=? -60)%Z then 100%Z
  else if (120 <=? debt)%Z then 0%Z
  else if (debt <=? 0)%Z
    then (85 + int_of (float_of_Z (Z.abs debt) / 60 * 15))%Z
    else Z.max 0 (85 - int_of (float_of_Z debt / 120 * 85)).

Definition quality_of (n : nat) : string :=
  if (12 <=? n)%nat then "good" else if (8 <=? n)%nat then "moderate" else "limited".

Record debt_report := {
  sleep_debt_minutes : option Z;
  baseline_sleep_minutes : Z;
  recent_14d_avg_minutes : option Z;
  debt_trend : string;
  sleep_balance_score : option Z;
  data_quality : string
}.

Section Metrics.
Context `{NumPy}.

(** the quartile filter: [[d for d in durations if lower_bound <= d <= upper_bound]] *)
Definition iqr_filter (durations : list float) : list float :=
  let q1 := np_percentile durations 25 in
  let q3 := np_percentile durations 75 in
  let iqr := q3 - q1 in
  let lower_bound := q1 - 1.5 * iqr in
  let upper_bound := q3 + 1.5 * iqr in
  List.filter (fun d => (lower_bound <=? d) && (d <=? upper_bound)) durations.

Definition _calculate_baseline_sleep (table : list OuraSleep) (user : N)
    (target_date : date) : option Z :=
  let durations := minutes_of <$> baseline_rows table user target_date in
  if (length durations <? 30)%nat then None
  else
    let filtered_durations := iqr_filter durations in
    let filtered_durations :=
      if (length filtered_durations <? 20)%nat then durations else filtered_durations in
    Some (int_of (np_mean filtered_durations)).

Definition trend_of (sleep_records : list OuraSleep) : string :=
  if (7 <=? length sleep_records)%nat then
    let recent_avg := np_mean (minutes_of <$> take 3 sleep_records) in
    let previous_avg := np_mean (minutes_of <$> take 4 (drop 3 sleep_records)) in
    if previous_avg + 15 <? recent_avg then "improving"
    else if recent_avg <? previous_avg - 15 then "worsening"
    else "stable"
  else "stable".

Definition calculate_sleep_debt (table : list OuraSleep) (user : N)
    (target_date : option date) (now : instant) : option debt_report :=
  let target_date := default (hk_date now) target_date in
  match _calculate_baseline_sleep table user target_date with
  | None => None
  | Some baseline_minutes =>
      let sleep_records := debt_rows table user target_date in
      if (length sleep_records <? 5)%nat then
        Some {| sleep_debt_minutes := None;
                baseline_sleep_minutes := baseline_minutes;
                recent_14d_avg_minutes := None;
                debt_trend := "unknown";
                sleep_balance_score := None;
                data_quality := "insufficient" |}
      else
        let '(weighted_debt, total_weight) :=
          debt_loop baseline_minutes 0 sleep_records 0 0 in
        let debt := if 0 <? total_weight then int_of (weighted_debt / total_weight)
                    else 0%Z in
        Some {| sleep_debt_minutes := Some debt;
                baseline_sleep_minutes := baseline_minutes;
                recent_14d_avg_minutes := Some (int_of (np_mean (minutes_of <$> sleep_records)));
                debt_trend := trend_of sleep_records;
                sleep_balance_score := Some (balance_of debt);
                data_quality := quality_of (length sleep_records) |}
  end.

End Metrics.

(** An implementation of the two NumPy functions, for the examples: the
    mean as the sum from left to right over the length, the percentile by
    linear interpolation between the two nearest ranks of the sorted
    sample. *)
Definition plain_numpy : NumPy :=
  {| np_mean := fun l => fsum l / float_of_Z (Z.of_nat (length l));
     np_percentile := fun l q =>
       let a := Query.sort_by PrimFloat.leb l in
       let pos := float_of_Z q / 100 * float_of_Z (Z.of_nat (length l) - 1) in
       let lo := int_of pos in
       let at_ i := nth (Z.to_nat (Z.min i (Z.of_nat (length l) - 1))) a 0 in
       at_ lo + (pos - float_of_Z lo) * (at_ (lo + 1)%Z - at_ lo) |}.

End SleepMetrics.

(** ** [backend/app/integrations/polar/provider.py]: [_get_access_token] *)

Module PolarProvider.

Record PolarAuth := {
  polar_access_token : option string;
  polar_token_expires_at : option instant
}.

(** [refresh] is [self.refresh_token(user_id)]: the new token of a
    successful [AuthResult], else [None]. *)
Definition _get_access_token (refresh : option (option string)) (auth : option PolarAuth)
    (now : instant) : result (option string) :=
  match auth with
  | None => Raise ValueError
  | Some polar_auth =>
      match polar_token_expires_at polar_auth with
      | Some e =>
          if e - 5 * 60 <? now then
            match refresh with
            | Some token => Ok token
            | None => Raise ValueError
            end
          else Ok (polar_access_token polar_auth)
      | None => Ok (polar_access_token polar_auth)
      end
  end.

End PolarProvider.

(** ** The debt formula: as the specification words it, and as the code
       evaluates it *)

Module SleepDebtSpec.

(** *** In the words of the specification, over the rationals *)

(** weight [= 1.0 - (i * 0.5/13)] of the night of index [i] *)
Definition exact_weight (i : Z) : Q := (1 - (inject_Z i * (1 # 2) / 13))%Q.

(** the sum of the terms [f i a_i] of the nights, the first one at index [i] *)
Fixpoint exact_sum (f : Z -> Q -> Q) (i : Z) (actual : list Q) : Q :=
  match actual with
  | [] => 0%Q
  | a :: rest => (f i a + exact_sum f (i + 1) rest)%Q
  end.

(** [Σ(weight_i × (baseline − actual_i)) / Σ(weight_i)], the nights in
    minutes *)
Definition exact_debt (baseline : Z) (actual : list Q) : Q :=
  (exact_sum (fun i a => exact_weight i * (inject_Z baseline - a)) 0 actual
   / exact_sum (fun i _ => exact_weight i) 0 actual)%Q.

(** [z] is [q] rounded to an integer, whatever the rule (to the nearest,
    down, up, toward zero): the two differ by less than one *)
Definition rounds_to (q : Q) (z : Z) : Prop :=
  (inject_Z z - 1 < q)%Q /\ (q < inject_Z z + 1)%Q.

(** *** As the code evaluates it, in binary64 *)

Local Open Scope float_scope.

(** weight [= 1.0 - (i * 0.5/13)] of the night of index [i] *)
Definition spec_weight (i : Z) : float := 1 - (float_of_Z i * 0.5 / 13).

(** the terms [f i a_i] of the nights, the first one at index [i] *)
Fixpoint indexed (f : Z -> float -> float) (i : Z) (actual : list float) : list float :=
  match actual with
  | [] => []
  | a :: rest => f i a :: indexed f (i + 1) rest
  end.

(** the total weight of [n] nights from index [i], added to [tw] *)
Fixpoint total_weight_from (i : Z) (n : nat) (tw : float) : float :=
  match n with
  | O => tw
  | S k => total_weight_from (i + 1) k (tw + spec_weight i)
  end.

(** [int(Σ(weight_i × (baseline − actual_i)) / Σ(weight_i))]: the two sums
    taken in binary64 in the order of the nights, the quotient cut toward
    zero *)
Definition truncated_debt (baseline : Z) (actual : list float) : Z :=
  int_of
    (fsum (indexed (fun i a => spec_weight i * (float_of_Z baseline - a)) 0 actual)
     / fsum (indexed (fun i _ => spec_weight i) 0 actual)).

(** the figure of the report: [... if total_weight > 0 else 0] *)
Definition guarded_debt (baseline : Z) (actual : list float) : Z :=
  if 0 <? fsum (indexed (fun i _ => spec_weight i) 0 actual)
  then truncated_debt baseline actual
  else 0%Z.

End SleepDebtSpec.

(** ** The debt figure, read as the rounded quotient of the specification *)

Module RoundedDebt.
Import SleepMetrics SleepDebtSpec.

(** a night in minutes, as a rational *)
Definition exact_minutes (r : OuraSleep) : Q :=
  (inject_Z (default 0%Z (total_sleep_duration r)) / 60)%Q.

(** With a baseline and at least five nights in the 14 days, the figure of
    the report is the quotient of the specification, over the nights most
    recent first, rounded to an integer. *)
Definition debt_is_the_rounded_quotient `{NumPy} (table : list OuraSleep) (user : N)
    (target_date : date) : Prop :=
  forall now b debt,
    _calculate_baseline_sleep table user target_date = Some b ->
    (5 <= length (debt_rows table user target_date))%nat ->
    sleep_debt_minutes <$> calculate_sleep_debt table user (Some target_date) now
    = Some (Some debt) ->
    rounds_to (exact_debt b (exact_minutes <$> debt_rows table user target_date)) debt.

End RoundedDebt.

(** ** Fixtures *)

Module Fixtures.

Definition no_detail : detail :=
  {| det_id := None; det_day := None; det_type := None;
     det_total_sleep_duration := Missing; det_bedtime_start := None;
     det_bedtime_end := None; det_fields := ∅; det_readiness := None;
     det_sleep_score_delta := None; det_readiness_score_delta := None |}.

(** a stored sleep period of user [1] *)
Definition segment (oid : string) (d : date) (secs : option Z) (ty : string)
    (score delta : option Z) : OuraSleep :=
  {| user_id := 1%N; oura_id := oid; day := d; bedtime_start := None;
     bedtime_end := None; total_sleep_duration := secs; detail_columns := [];
     sleep_score := score; contributor_columns := []; sleep_type := Some ty;
     readiness_score_embedded := None; readiness_columns := [];
     sleep_score_delta := delta; readiness_score_delta := None;
     raw_json := (None, no_detail); created_at := 0 |}.

(** one main sleep of [secs] seconds on each of the [n] days that end on
    day [last] *)
Fixpoint nights (n : nat) (last : date) (secs : Z) : list OuraSleep :=
  match n with
  | O => []
  | S k => segment "night" last (Some secs) "long_sleep" None None
           :: nights k (last - 1) secs
  end.

Definition table29 : list OuraSleep := nights 29 100 25200.
Definition table30 : list OuraSleep := nights 30 100 25200.

(** 7 nights of 3 h, 16 of 7 h and 7 of 12 h: both quartiles are 7 h and the
    filter keeps the 16 middle nights only *)
Definition table_outliers : list OuraSleep :=
  nights 7 100 10800 ++ nights 16 93 25200 ++ nights 7 77 43200.

(** [k] nights of 6.5 h in the last 14 days and [30 - k] nights of 7 h
    before them *)
Definition table_recent (k : nat) : list OuraSleep :=
  nights k 100 23400 ++ nights (30 - k) 80 25200.

(** 30 nights of 7 h and a nap of 20 minutes on the last day *)
Definition table_nap : list OuraSleep :=
  segment "nap" 100 (Some 1200) "sleep" None (Some 3) :: table30.


Definition no_data : all_data :=
  {| ad_sleep := []; ad_sleep_details := []; ad_readiness := []; ad_activity := [];
     ad_stress := []; ad_spo2 := []; ad_cardiovascular_age := []; ad_resilience := [];
     ad_vo2_max := [] |}.

(** a daily sleep score of the vendor *)
Definition daily (oid : string) (d : string) (score : Z) : item :=
  {| item_id := Some oid; item_day := Some d; item_score := Some score;
     item_fields := ∅; item_objects := ∅ |}.

(** a sleep period of the vendor *)
Definition period (oid : string) (d : string) (ty : string) (secs : Z)
    (finish : option string) : detail :=
  {| det_id := Some oid; det_day := Some d; det_type := Some ty;
     det_total_sleep_duration := Val secs; det_bedtime_start := None;
     det_bedtime_end := finish; det_fields := ∅; det_readiness := None;
     det_sleep_score_delta := None; det_readiness_score_delta := None |}.

(** a vendor that answers with [data] whatever the token and the range *)
Definition vendor (data : all_data) : OuraSync.OuraClient :=
  {| OuraSync.refresh_access_token := fun _ =>
       Some {| OuraSync.td_access_token := Some "fresh"; OuraSync.td_refresh_token := Missing;
               OuraSync.td_expires_in := None |};
     OuraSync.get_all_daily_data := fun _ _ _ => data |}.

(** user [1] is authorised, with a token that expires at [expires] *)
Definition authorised (expires : instant) : database :=
  {| oura_auth := {[ 1%N := {| access_token := Some "stored"; refresh_token := Some "refresh";
                               token_expires_at := Some expires; is_active := true;
                               last_sync_at := None; auth_updated_at := 0 |} ]};
     oura_sleep := ∅; oura_daily_sleep := ∅; oura_daily_readiness := ∅;
     oura_daily_activity := ∅; oura_daily_stress := ∅; oura_daily_spo2 := ∅;
     oura_cardiovascular_age := ∅; oura_resilience := ∅; oura_vo2_max := ∅ |}.

(** the answer of a vendor that has daily sleep scores only *)
Definition scores (l : list item) : all_data :=
  {| ad_sleep := l; ad_sleep_details := []; ad_readiness := []; ad_activity := [];
     ad_stress := []; ad_spo2 := []; ad_cardiovascular_age := []; ad_resilience := [];
     ad_vo2_max := [] |}.

(** one main sleep, its daily score and one readiness record *)
Definition one_day : all_data :=
  {| ad_sleep := [daily "d1" "2024-03-10" 80];
     ad_sleep_details :=
       [period "p1" "2024-03-10" "long_sleep" 25200 (Some "2024-03-10T07:00:00+08:00")];
     ad_readiness := [daily "r1" "2024-03-10" 75]; ad_activity := [];
     ad_stress := []; ad_spo2 := []; ad_cardiovascular_age := []; ad_resilience := [];
     ad_vo2_max := [] |}.

(** 2024-03-10T12:00:00+08:00 *)
Definition noon : instant := 19792 * 86400 + 4 * 3600.

End Fixtures.

(** ** A pass under [force], as a function of the stream

    Under [force=True] the three loops of the reconciler have one shape: a
    record that is processed under the key [k] rewrites the row of [k] when
    the table has one, and is added otherwise.  The functions below describe
    the rows and the additions of such a pass. *)

Module Upsert.
Section Upsert.
Context {Item Row : Type}.
Variable key : Item -> option string.
Variable upd : Item -> Row -> Row.
Variable mk : Item -> Row.
Variable rkey : Row -> string.

Definition run_rows (data : list Item) (m : gmap string Row) : gmap string Row :=
  foldl (fun m x =>
           match key x with
           | Some k => match m !! k with
                       | Some e => <[k := upd x e]> m
                       | None => m
                       end
           | None => m
           end) m data.

Definition run_added (data : list Item) (m : gmap string Row) : list Row :=
  omap (fun x =>
          match key x with
          | Some k => match m !! k with
                      | Some _ => None
                      | None => Some (mk x)
                      end
          | None => None
          end) data.

(** the insertions of [flush] *)
Definition commit (m : gmap string Row) (news : list Row) : gmap string Row :=
  foldl (fun m r => <[rkey r := r]> m) m news.

(** what the records of key [k] do, in turn, to the row of [k] *)
Definition row_run (k : string) (data : list Item) (e : Row) : Row :=
  foldl (fun e x => if decide (key x = Some k) then upd x e else e) e data.

End Upsert.
End Upsert.

(** ** The three loops of the reconciler as forced passes

    For each loop: the key under which a record is processed, the row it
    makes, the update it applies, and this update as a patch. *)

Module Forced.
Import OuraSync.
Section Forced.
Context `{IsoParsers}.

(** the value of a parse that did not raise *)
Definition value {A} (r : result (option A)) : option A :=
  match r with
  | Ok a => a
  | Raise _ => None
  end.

Definition parses {A} (r : result A) : bool :=
  match r with
  | Ok _ => true
  | Raise _ => false
  end.

(** *** daily records *)

Definition item_key (it : item) : option string :=
  if truthy_str (item_id it) then item_id it else None.

Definition item_date (it : item) : option date := value (item_date_of (item_day it)).

(** a record without id is skipped before its day is parsed *)
Definition item_ok (it : item) : bool :=
  negb (truthy_str (item_id it)) || parses (item_date_of (item_day it)).

Definition daily_patch : Type := option date * list (option scalar) * item.

Definition daily_apply (p : daily_patch) (e : daily_row) : daily_row :=
  {| dr_user_id := dr_user_id e; dr_oura_id := dr_oura_id e;
     dr_day := default (dr_day e) p.1.1;
     dr_columns := p.1.2; dr_raw_json := p.2; dr_created_at := dr_created_at e |}.

Definition later {A} (q p : option A) : option A :=
  match q with
  | Some _ => q
  | None => p
  end.

Definition daily_comp (q p : daily_patch) : daily_patch := (later q.1.1 p.1.1, q.1.2, q.2).

Definition daily_upd (columns : item -> list (option scalar)) (it : item) (e : daily_row)
    : daily_row :=
  update_daily_row columns e it (item_date it).

Definition daily_mk (columns : item -> list (option scalar)) (user : N) (now : instant)
    (it : item) : daily_row :=
  new_daily_row columns user (default "" (item_id it)) it (item_date it) now.

Definition daily_sleep_patch : Type := option date * option Z * list (option scalar) * item.

Definition daily_sleep_apply (p : daily_sleep_patch) (e : OuraDailySleep) : OuraDailySleep :=
  {| ds_user_id := ds_user_id e; ds_oura_id := ds_oura_id e;
     ds_day := default (ds_day e) p.1.1.1;
     ds_score := p.1.1.2; ds_contributors := p.1.2; ds_raw_json := p.2;
     ds_created_at := ds_created_at e |}.

Definition daily_sleep_comp (q p : daily_sleep_patch) : daily_sleep_patch :=
  (later q.1.1.1 p.1.1.1, q.1.1.2, q.1.2, q.2).

Definition daily_sleep_upd (it : item) (e : OuraDailySleep) : OuraDailySleep :=
  update_daily_sleep e it (item_date it).

Definition daily_sleep_mk (user : N) (now : instant) (it : item) : OuraDailySleep :=
  new_daily_sleep user (default "" (item_id it)) it (item_date it) now.

(** *** sleep periods *)

Definition detail_key (d : detail) : option string :=
  if truthy_str (det_id d) then det_id d else None.

Definition detail_ok (d : detail) : bool :=
  negb (truthy_str (det_id d))
  || (parses (item_date_of (det_day d)) && parses (bedtime_of (det_bedtime_start d))
      && parses (bedtime_of (det_bedtime_end d))).

Definition start_of (d : detail) : option instant := value (bedtime_of (det_bedtime_start d)).
Definition finish_of (d : detail) : option instant := value (bedtime_of (det_bedtime_end d)).

Definition sleep_day_of (today : date) (d : detail) : date :=
  match finish_of d with
  | Some e => hk_date e
  | None => default today (value (item_date_of (det_day d)))
  end.

Record sleep_patch := {
  p_day : date;
  p_start : option instant;
  p_finish : option instant;
  p_duration : option Z;
  p_detail : list (option scalar);
  p_score : option (option Z);
  p_contributors : list (option scalar);
  p_type : option string;
  p_readiness : option (option Z * list (option scalar));
  p_delta : option Z;
  p_readiness_delta : option Z;
  p_raw : option item * detail
}.

Definition sleep_apply (p : sleep_patch) (e : OuraSleep) : OuraSleep :=
  {| user_id := user_id e; oura_id := oura_id e; day := p_day p;
     bedtime_start := p_start p; bedtime_end := p_finish p;
     total_sleep_duration := p_duration p; detail_columns := p_detail p;
     sleep_score := default (sleep_score e) (p_score p);
     contributor_columns := p_contributors p; sleep_type := p_type p;
     readiness_score_embedded := default (readiness_score_embedded e) (fst <$> p_readiness p);
     readiness_columns := default (readiness_columns e) (snd <$> p_readiness p);
     sleep_score_delta := p_delta p; readiness_score_delta := p_readiness_delta p;
     raw_json := p_raw p; created_at := created_at e |}.

Definition sleep_comp (q p : sleep_patch) : sleep_patch :=
  {| p_day := p_day q; p_start := p_start q; p_finish := p_finish q;
     p_duration := p_duration q; p_detail := p_detail q;
     p_score := later (p_score q) (p_score p);
     p_contributors := p_contributors q; p_type := p_type q;
     p_readiness := later (p_readiness q) (p_readiness p);
     p_delta := p_delta q; p_readiness_delta := p_readiness_delta q; p_raw := p_raw q |}.

Definition sleep_patch_of (sm : gmap string item) (today : date) (d : detail) : sleep_patch :=
  let summary := summary_of sm d in
  {| p_day := sleep_day_of today d; p_start := start_of d; p_finish := finish_of d;
     p_duration := jget (det_total_sleep_duration d); p_detail := detail_values d;
     p_score := if is_long_sleep (det_type d) && truthy_int (summary_score summary)
                then Some (summary_score summary) else rd_score <$> det_readiness d;
     p_contributors := summary_contributors summary; p_type := det_type d;
     p_readiness := (fun r => (rd_score r, readiness_values (Some r))) <$> det_readiness d;
     p_delta := det_sleep_score_delta d;
     p_readiness_delta := det_readiness_score_delta d;
     p_raw := (summary, d) |}.

Definition sleep_upd (sm : gmap string item) (today : date) (d : detail) (e : OuraSleep)
    : OuraSleep :=
  update_sleep e d (summary_of sm d) (sleep_day_of today d) (start_of d) (finish_of d).

Definition sleep_mk (sm : gmap string item) (user : N) (now : instant) (d : detail)
    : OuraSleep :=
  new_sleep user (default "" (det_id d)) d (summary_of sm d) (sleep_day_of (hk_date now) d)
    (start_of d) (finish_of d) now.

(** the nine entity tables, without the authorisations *)
Definition entities (db : database) : database := set_oura_auth db ∅.

(** the records of a stream that carry an id *)
Definition processed (data : list item) : Z :=
  Z.of_nat (length (List.filter (fun it => truthy_str (item_id it)) data)).

(** the statistics of a second forced pass: the daily sleep stream counts
    the rows it rewrites, the other streams count additions only *)
Definition forced_stats (data : all_data) : gmap string Z :=
  list_to_map
    [("sleep", 0);
     ("daily_sleep", processed (ad_sleep data));
     ("readiness", 0); ("activity", 0); ("stress", 0); ("spo2", 0);
     ("cardiovascular_age", 0); ("resilience", 0); ("vo2_max", 0)].

End Forced.
End Forced.

(** ** The idempotence of a forced pass, read with every count at zero *)

Module ZeroCounts.
Import OuraSync Forced.

(** Two forced passes from [db] at the instant [now]: when the first
    returns, the second returns, stores the same entity rows and reports 0
    in every count. *)
Definition idempotent_with_zero_counts `{IsoParsers} `{OuraClient} (user : N) (days : Z)
    (now : instant) (db : database) : Prop :=
  let first := sync_user_data user days true false 0 now db in
  let second := sync_user_data user days true false 0 now first.2 in
  forall stats1, first.1 = Returned stats1 ->
    entities second.2 = entities first.2
    /\ exists stats2, second.1 = Returned stats2
                      /\ forall k n, stats2 !! k = Some n -> n = 0.

End ZeroCounts.

(** ** [backend/app/integrations/oura/client.py]: the nine collections *)

Module OuraHttp.
Import OuraSync.

(** What [_make_request] gives for the nine collections, as the list under
    ["data"]; [None] is the [OuraAPIError] it raises. *)
Record endpoints := {
  ep_daily_sleep : string -> date -> date -> option (list item);
  ep_sleep : string -> date -> date -> option (list detail);
  ep_daily_readiness : string -> date -> date -> option (list item);
  ep_daily_activity : string -> date -> date -> option (list item);
  ep_daily_stress : string -> date -> date -> option (list item);
  ep_daily_spo2 : string -> date -> date -> option (list item);
  ep_daily_cardiovascular_age : string -> date -> date -> option (list item);
  ep_daily_resilience : string -> date -> date -> option (list item);
  ep_vo2_max : string -> date -> date -> option (list item)
}.

(** [try: ... return data / except OuraAPIError: return []] *)
Definition or_empty {A} (answer : option (list A)) : list A := default [] answer.

Section Client.
Variable e : endpoints.

Definition get_daily_sleep (token : string) (s f : date) := or_empty (ep_daily_sleep e token s f).
Definition get_sleep_details (token : string) (s f : date) := or_empty (ep_sleep e token s f).
Definition get_daily_readiness (token : string) (s f : date) :=
  or_empty (ep_daily_readiness e token s f).
Definition get_daily_activity (token : string) (s f : date) :=
  or_empty (ep_daily_activity e token s f).
Definition get_daily_stress (token : string) (s f : date) :=
  or_empty (ep_daily_stress e token s f).
Definition get_daily_spo2 (token : string) (s f : date) := or_empty (ep_daily_spo2 e token s f).
Definition get_daily_cardiovascular_age (token : string) (s f : date) :=
  or_empty (ep_daily_cardiovascular_age e token s f).
Definition get_daily_resilience (token : string) (s f : date) :=
  or_empty (ep_daily_resilience e token s f).
Definition get_vo2_max (token : string) (s f : date) := or_empty (ep_vo2_max e token s f).

(** [get_all_daily_data]: the nine answers under their keys *)
Definition get_all_daily_data (token : string) (s f : date) : all_data :=
  {| ad_sleep := get_daily_sleep token s f;
     ad_sleep_details := get_sleep_details token s f;
     ad_readiness := get_daily_readiness token s f;
     ad_activity := get_daily_activity token s f;
     ad_stress := get_daily_stress token s f;
     ad_spo2 := get_daily_spo2 token s f;
     ad_cardiovascular_age := get_daily_cardiovascular_age token s f;
     ad_resilience := get_daily_resilience token s f;
     ad_vo2_max := get_vo2_max token s f |}.

End Client.

(** The client of the sync service over these endpoints. *)
Definition client (e : endpoints) (refresh : string -> option token_data) : OuraClient :=
  {| refresh_access_token := refresh;
     OuraSync.get_all_daily_data := get_all_daily_data e |}.

End OuraHttp.

(** ** [backend/app/services/oura_sync.py]: payloads with a null [contributors]

    The loops of [OuraSync] are those of payloads whose [contributors]
    member is absent or an object.  The vendor may also send the member as
    [null]: [item.get("contributors", {})] is then [None], and the first
    [contributors.get(key)] of the branch that writes the record raises
    [AttributeError].  This module has the payloads with that member as a
    [jfield], and the loops and the pass over them. *)

Module Nullable.
Import OuraSync.

(** One element of [daily_sleep], [daily_readiness], [daily_activity] or
    [daily_resilience]. *)
Record raw_item := {
  raw_id : option string;
  raw_day : option string;
  raw_score : option Z;
  raw_fields : gmap string scalar;
  raw_contributors : jfield (gmap string scalar)
}.

(** the payload without the distinction between absent and null *)
Definition item_of (x : raw_item) : item :=
  {| item_id := raw_id x; item_day := raw_day x; item_score := raw_score x;
     item_fields := raw_fields x;
     item_objects := match raw_contributors x with
                     | Val c => {[ "contributors" := c ]}
                     | _ => ∅
                     end |}.

(** The [readiness] object embedded in a sleep period. *)
Record raw_readiness := {
  rr_score : option Z;
  rr_contributors : jfield (gmap string scalar);
  rr_fields : gmap string scalar
}.

Definition readiness_of (r : raw_readiness) : readiness_obj :=
  {| rd_score := rr_score r; rd_contributors := jget (rr_contributors r);
     rd_fields := rr_fields r |}.

(** One sleep period of the vendor's [sleep] collection. *)
Record raw_detail := {
  rdet_id : option string;
  rdet_day : option string;
  rdet_type : option string;
  rdet_total_sleep_duration : jfield Z;
  rdet_bedtime_start : option string;
  rdet_bedtime_end : option string;
  rdet_fields : gmap string scalar;
  rdet_readiness : option raw_readiness;
  rdet_sleep_score_delta : option Z;
  rdet_readiness_score_delta : option Z
}.

Definition detail_of (x : raw_detail) : detail :=
  {| det_id := rdet_id x; det_day := rdet_day x; det_type := rdet_type x;
     det_total_sleep_duration := rdet_total_sleep_duration x;
     det_bedtime_start := rdet_bedtime_start x; det_bedtime_end := rdet_bedtime_end x;
     det_fields := rdet_fields x; det_readiness := readiness_of <$> rdet_readiness x;
     det_sleep_score_delta := rdet_sleep_score_delta x;
     det_readiness_score_delta := rdet_readiness_score_delta x |}.

(** The answer of [OuraClient.get_all_daily_data]; the four collections
    whose loops read no [contributors] are those of [OuraSync]. *)
Record raw_all_data := {
  rad_sleep : list raw_item;
  rad_sleep_details : list raw_detail;
  rad_readiness : list raw_item;
  rad_activity : list raw_item;
  rad_stress : list item;
  rad_spo2 : list item;
  rad_cardiovascular_age : list item;
  rad_resilience : list raw_item;
  rad_vo2_max : list item
}.

Definition data_of (a : raw_all_data) : all_data :=
  {| ad_sleep := item_of <$> rad_sleep a;
     ad_sleep_details := detail_of <$> rad_sleep_details a;
     ad_readiness := item_of <$> rad_readiness a;
     ad_activity := item_of <$> rad_activity a;
     ad_stress := rad_stress a; ad_spo2 := rad_spo2 a;
     ad_cardiovascular_age := rad_cardiovascular_age a;
     ad_resilience := item_of <$> rad_resilience a;
     ad_vo2_max := rad_vo2_max a |}.

(** [contributors = item.get("contributors", {})], as the
    [contributors.get(key)] that follow read it: [AttributeError] on
    [None]. *)
Definition contributors_read (c : jfield (gmap string scalar))
    : result (gmap string scalar) :=
  match jget_default c ∅ with
  | Some m => Ok m
  | None => Raise AttributeError
  end.

(** [summary.get("contributors", {})]; [summary] is [{}] for a period
    without summary. *)
Definition summary_contributors_read (summary : option raw_item)
    : result (gmap string scalar) :=
  match summary with
  | Some s => contributors_read (raw_contributors s)
  | None => Ok ∅
  end.

(** [readiness.get("contributors", {}) if readiness else {}] *)
Definition readiness_contributors_read (readiness : option raw_readiness)
    : result (gmap string scalar) :=
  match readiness with
  | Some r => contributors_read (rr_contributors r)
  | None => Ok ∅
  end.

Definition is_null {A} (f : jfield A) : bool :=
  match f with
  | Null => true
  | _ => false
  end.

Section Reconciler.
Context `{IsoParsers}.

(** *** [_sync_readiness_data], [_sync_activity_data], [_sync_resilience_data] *)

(** The loop body of the three plain streams that read [contributors]:
    the member is read once the record is known to be written. *)
Definition daily_step_raw (columns : item -> list (option scalar)) (user : N)
    (force force_today : bool) (today : date) (force_recent_date : option date)
    (now : instant) (acc : Z * table daily_row) (x : raw_item)
    : result (Z * table daily_row) :=
  let '(new_count, t) := acc in
  if negb (truthy_str (raw_id x)) then Ok acc
  else
    let oura := default "" (raw_id x) in
    let existing := rows t !! oura in
    item_date ← item_date_of (raw_day x);
    let forced := should_force force force_today today force_recent_date item_date in
    match existing with
    | Some e =>
        if negb forced then Ok acc
        else
          _ ← contributors_read (raw_contributors x);
          Ok (new_count,
              {| rows := <[oura := update_daily_row columns e (item_of x) item_date]> (rows t);
                 added := added t |})
    | None =>
        _ ← contributors_read (raw_contributors x);
        Ok (new_count + 1,
            {| rows := rows t;
               added := added t
                        ++ [new_daily_row columns user oura (item_of x) item_date now] |})
    end.

Definition sync_daily_raw (columns : item -> list (option scalar)) (user : N)
    (data : list raw_item) (force force_today : bool) (today : date)
    (force_recent_date : option date) (now : instant) (tbl : gmap string daily_row)
    : result (Z * table daily_row) :=
  for_each (daily_step_raw columns user force force_today today force_recent_date now)
    data (0, {| rows := tbl; added := [] |}).

Definition _sync_readiness_data_raw := sync_daily_raw readiness_columns_of.
Definition _sync_activity_data_raw := sync_daily_raw activity_columns_of.
Definition _sync_resilience_data_raw := sync_daily_raw resilience_columns_of.

(** *** [_sync_daily_sleep_data] *)

Definition daily_sleep_step_raw (user : N) (force force_today : bool) (today : date)
    (force_recent_date : option date) (now : instant)
    (acc : Z * bool * table OuraDailySleep) (x : raw_item)
    : result (Z * bool * table OuraDailySleep) :=
  let '(new_count, has_significant_change, t) := acc in
  if negb (truthy_str (raw_id x)) then Ok acc
  else
    let oura := default "" (raw_id x) in
    let existing := rows t !! oura in
    item_date ← item_date_of (raw_day x);
    let forced := should_force force force_today today force_recent_date item_date in
    match existing with
    | Some e =>
        if negb forced then Ok acc
        else
          _ ← contributors_read (raw_contributors x);
          Ok (new_count + 1,
              has_significant_change || score_changed (ds_score e) (raw_score x),
              {| rows := <[oura := update_daily_sleep e (item_of x) item_date]> (rows t);
                 added := added t |})
    | None =>
        _ ← contributors_read (raw_contributors x);
        Ok (new_count + 1, true,
            {| rows := rows t;
               added := added t ++ [new_daily_sleep user oura (item_of x) item_date now] |})
    end.

Definition _sync_daily_sleep_data_raw (user : N) (sleep_data : list raw_item)
    (force force_today : bool) (today : date) (force_recent_date : option date)
    (now : instant) (tbl : gmap string OuraDailySleep)
    : result (Z * bool * table OuraDailySleep) :=
  for_each (daily_sleep_step_raw user force force_today today force_recent_date now)
    sleep_data (0, false, {| rows := tbl; added := [] |}).

(** *** [_sync_sleep_data] *)

(** [summary_map[day] = item] for every summary with a day *)
Definition summary_map_of_raw (sleep_data : list raw_item) : gmap string raw_item :=
  foldl (fun m x => if truthy_str (raw_day x)
                    then <[default "" (raw_day x) := x]> m else m)
    ∅ sleep_data.

(** [summary_map.get(day, {}) if sleep_type == "long_sleep" else {}] *)
Definition summary_of_raw (summary_map : gmap string raw_item) (x : raw_detail)
    : option raw_item :=
  if is_long_sleep (rdet_type x) then rdet_day x ≫= fun k => summary_map !! k else None.

(** The loop body: the two [contributors] are read where the row is
    written, before the duration is used as a number. *)
Definition sleep_step_raw (user : N) (summary_map : gmap string raw_item)
    (force force_today : bool) (today : date) (force_recent_date : option date)
    (now : instant) (acc : Z * bool * table OuraSleep) (x : raw_detail)
    : result (Z * bool * table OuraSleep) :=
  let d := detail_of x in
  let '(new_count, has_significant_change, t) := acc in
  if negb (truthy_str (rdet_id x)) then Ok acc
  else
    let detail_id := default "" (rdet_id x) in
    let existing := rows t !! detail_id in
    let raw_summary := summary_of_raw summary_map x in
    let summary := item_of <$> raw_summary in
    item_date ← item_date_of (rdet_day x);
    let '(needs_update, item_has_change) :=
      match existing with
      | Some e =>
          if negb force
          then change_check force_today today force_recent_date item_date summary d e
          else (false, false)
      | None => (false, false)
      end in
    if bool_decide (is_Some existing) && negb force && negb needs_update then Ok acc
    else
      start ← bedtime_of (rdet_bedtime_start x);
      finish ← bedtime_of (rdet_bedtime_end x);
      let sleep_day :=
        match finish with
        | Some e => hk_date e
        | None => default (hk_date now) item_date
        end in
      match existing with
      | Some e =>
          if force || needs_update then
            _ ← summary_contributors_read raw_summary;
            _ ← readiness_contributors_read (rdet_readiness x);
            let t' := {| rows := <[detail_id := update_sleep e d summary sleep_day start finish]>
                                   (rows t);
                         added := added t |} in
            if needs_update then
              if item_has_change then
                _ ← duration_or_zero d; Ok (new_count + 1, true, t')
              else Ok (new_count + 1, has_significant_change, t')
            else Ok (new_count, has_significant_change, t')
          else Ok acc
      | None =>
          _ ← summary_contributors_read raw_summary;
          _ ← readiness_contributors_read (rdet_readiness x);
          let t' := {| rows := rows t;
                       added := added t ++ [new_sleep user detail_id d summary sleep_day
                                              start finish now] |} in
          new_duration ← duration_or_zero d;
          Ok (new_count + 1, has_significant_change || (300 <=? new_duration), t')
      end.

Definition _sync_sleep_data_raw (user : N) (sleep_data : list raw_item)
    (sleep_details : list raw_detail) (force force_today : bool) (today : date)
    (force_recent_date : option date) (now : instant) (tbl : gmap string OuraSleep)
    : result (Z * bool * table OuraSleep) :=
  for_each (sleep_step_raw user (summary_map_of_raw sleep_data) force force_today today
              force_recent_date now)
    sleep_details (0, false, {| rows := tbl; added := [] |}).

(** *** The pass of one user *)

(** The body of the [try] of [sync_user_data] once the vendor has
    answered, as [OuraSync.reconcile]. *)
Definition reconcile_raw (user : N) (data : raw_all_data) (force force_today : bool)
    (force_recent_days : Z) (now : instant) (db : database)
    : result (gmap string Z * bool * database) :=
  let today := hk_date now in
  let force_recent_date :=
    if 0 <? force_recent_days then Some (today - (force_recent_days - 1)) else None in
  '(n_sleep, sleep_change, t_sleep) ←
    _sync_sleep_data_raw user (rad_sleep data) (rad_sleep_details data) force force_today
      today force_recent_date now (oura_sleep db);
  '(n_daily_sleep, daily_change, t_daily_sleep) ←
    _sync_daily_sleep_data_raw user (rad_sleep data) force force_today today
      force_recent_date now (oura_daily_sleep db);
  '(n_readiness, t_readiness) ←
    _sync_readiness_data_raw user (rad_readiness data) force force_today today
      force_recent_date now (oura_daily_readiness db);
  '(n_activity, t_activity) ←
    _sync_activity_data_raw user (rad_activity data) force force_today today
      force_recent_date now (oura_daily_activity db);
  '(n_stress, t_stress) ←
    _sync_stress_data user (rad_stress data) force force_today today
      force_recent_date now (oura_daily_stress db);
  '(n_spo2, t_spo2) ←
    _sync_spo2_data user (rad_spo2 data) force force_today today
      force_recent_date now (oura_daily_spo2 db);
  '(n_cardiovascular_age, t_cardiovascular_age) ←
    _sync_cardiovascular_age_data user (rad_cardiovascular_age data) force force_today
      today force_recent_date now (oura_cardiovascular_age db);
  '(n_resilience, t_resilience) ←
    _sync_resilience_data_raw user (rad_resilience data) force force_today today
      force_recent_date now (oura_resilience db);
  '(n_vo2_max, t_vo2_max) ←
    _sync_vo2_max_data user (rad_vo2_max data) force force_today today
      force_recent_date now (oura_vo2_max db);
  let stats : gmap string Z :=
    list_to_map
      [("sleep", n_sleep); ("daily_sleep", n_daily_sleep); ("readiness", n_readiness);
       ("activity", n_activity); ("stress", n_stress); ("spo2", n_spo2);
       ("cardiovascular_age", n_cardiovascular_age); ("resilience", n_resilience);
       ("vo2_max", n_vo2_max)] in
  sleep' ← flush oura_id t_sleep;
  daily_sleep' ← flush ds_oura_id t_daily_sleep;
  readiness' ← flush dr_oura_id t_readiness;
  activity' ← flush dr_oura_id t_activity;
  stress' ← flush dr_oura_id t_stress;
  spo2' ← flush dr_oura_id t_spo2;
  cardiovascular_age' ← flush dr_oura_id t_cardiovascular_age;
  resilience' ← flush dr_oura_id t_resilience;
  vo2_max' ← flush dr_oura_id t_vo2_max;
  Ok (stats, sleep_change || daily_change,
      {| oura_auth := alter (synced_auth now) user (oura_auth db);
         oura_sleep := sleep'; oura_daily_sleep := daily_sleep';
         oura_daily_readiness := readiness'; oura_daily_activity := activity';
         oura_daily_stress := stress'; oura_daily_spo2 := spo2';
         oura_cardiovascular_age := cardiovascular_age';
         oura_resilience := resilience'; oura_vo2_max := vo2_max' |}).

End Reconciler.

(** The vendor: the answer of the token endpoint and the nine collections. *)
Record raw_vendor := {
  token_answer : string -> option token_data;
  data_answer : string -> date -> date -> raw_all_data
}.

(** the same vendor for the loops of [OuraSync] *)
Definition client_of (v : raw_vendor) : OuraClient :=
  {| refresh_access_token := token_answer v;
     get_all_daily_data := fun token start_date end_date =>
       data_of (data_answer v token start_date end_date) |}.

(** [sync_user_data], as [OuraSync.sync_user_data] *)
Definition sync_user_data_raw `{IsoParsers} (v : raw_vendor) (user : N) (days : Z)
    (force force_today : bool) (force_recent_days : Z) (now : instant) (db : database)
    : outcome * database :=
  let '(token, db1) := @get_access_token (client_of v) user now db in
  if negb (truthy_str token) then (Returned ∅, db1)
  else
    let end_date := hk_date now + 1 in
    let start_date := hk_date now - (days - 1) in
    let data := data_answer v (default "" token) start_date end_date in
    match reconcile_raw user data force force_today force_recent_days now db1 with
    | Ok (stats, _, db2) => (Returned stats, db2)
    | Raise e => (Raised e, db1)
    end.

(** *** What the statements say of a payload *)

(** a record that is read (it has an id) and whose [contributors] is null *)
Definition null_item (x : raw_item) : bool :=
  truthy_str (raw_id x) && is_null (raw_contributors x).

(** the readiness of a period has a null [contributors] *)
Definition null_readiness_of (x : raw_detail) : bool :=
  match rdet_readiness x with
  | Some r => is_null (rr_contributors r)
  | None => false
  end.

(** a period that is read and whose readiness has a null [contributors] *)
Definition null_readiness (x : raw_detail) : bool :=
  truthy_str (rdet_id x) && null_readiness_of x.

(** a daily sleep score whose [contributors] is null, with or without id *)
Definition null_summary (x : raw_item) : bool := is_null (raw_contributors x).

(** the summary of a period has a null [contributors] *)
Definition null_summary_of (summary_map : gmap string raw_item) (x : raw_detail) : bool :=
  match summary_of_raw summary_map x with
  | Some s => null_summary s
  | None => false
  end.

(** no [contributors] of the answer is null *)
Definition objects_present (a : raw_all_data) : Prop :=
  Forall (fun x => null_summary x = false) (rad_sleep a)
  /\ Forall (fun x => null_readiness x = false) (rad_sleep_details a)
  /\ Forall (fun x => null_item x = false) (rad_readiness a)
  /\ Forall (fun x => null_item x = false) (rad_activity a)
  /\ Forall (fun x => null_item x = false) (rad_resilience a).

End Nullable.

(** ** [backend/app/services/oura_sync.py]: [sync_all_active_users]

    When a pass raises, [sync_user_data] has rolled the session back, and a
    rollback expires every object of the session, the users of the scan
    among them.  The handler of the loop formats [user.id] into its log
    line: the expired attribute has to be loaded again, which outside a
    greenlet raises [MissingGreenlet]; the entry [{"error": ...}] is not
    written, the outer handler logs the exception and raises it again. *)

Module OuraSyncAll.
Import OuraSync.

Section All.
Context `{IsoParsers} `{OuraClient}.

(** the users joined to an authorisation with [is_active=True], in the
    order of the scan *)
Definition active_users (db : database) : list N :=
  (List.filter (fun ua => is_active ua.2) (map_to_list (oura_auth db))).*1.

(** [for user in users]; the pass of [user] runs at the instant
    [clock user] *)
Fixpoint sync_users (days : Z) (clock : N -> instant) (users : list N)
    (sync_stats : gmap N (gmap string Z)) (db : database)
    : result (gmap N (gmap string Z)) * database :=
  match users with
  | [] => (Ok sync_stats, db)
  | user :: rest =>
      match sync_user_data user days false false 0 (clock user) db with
      | (Returned stats, db') =>
          sync_users days clock rest (<[user := stats]> sync_stats) db'
      | (Raised _, db') => (Raise MissingGreenlet, db')
      end
  end.

Definition sync_all_active_users (days : Z) (clock : N -> instant) (db : database)
    : result (gmap N (gmap string Z)) * database :=
  sync_users days clock (active_users db) ∅ db.

End All.
End OuraSyncAll.

(** ** [backend/app/api/v1/oura.py]: the other readers and the sync endpoint *)

Module OuraReaders.
Import OuraSync.

(** [int(seconds / 60 + 0.5) if seconds is not None else None] *)
Definition sec_to_min (seconds : option Z) : option Z :=
  (fun s => int_of (PrimFloat.add (PrimFloat.div (float_of_Z s) 60%float) 0.5%float))
    <$> seconds.

(** What an endpoint answers: its response model or an [HTTPException]. *)
Inductive http (A : Type) :=
  | Response (a : A)
  | HTTPException (status : Z).
Arguments Response {A} a.
Arguments HTTPException {A} status.

Record SyncResponse := {
  success : bool;
  sync_stats : gmap string Z;
  (** the number in [message] *)
  total_new : Z
}.

(** [POST /sync]; [days] is declared [Query(7, ge=1, le=30)], which the
    framework checks before the body runs. *)
Definition sync_oura_data `{IsoParsers} `{OuraClient} (days : Z) (force : bool)
    (current_user : N) (now : instant) (db : database) : http SyncResponse * database :=
  if negb ((1 <=? days) && (days <=? 30)) then (HTTPException 422, db)
  else
    match sync_user_data current_user days force false 0 now db with
    | (Returned stats, db') =>
        (Response {| success := true; sync_stats := stats;
                     total_new := map_fold (fun _ n total => total + n) 0 stats |}, db')
    | (Raised _, db') => (HTTPException 500, db')
    end.

(** *** [get_readiness_data] *)

Record ReadinessRecordResponse := {
  rr_day : date;
  rr_score : option Z;
  rr_base_score : option Z;
  rr_nap_boost : option Z;
  (** the row the other members are copied from *)
  rr_record : daily_row
}.

(** the column [OuraDailyReadiness.score], the first one that
    [_sync_readiness_data] copies *)
Definition readiness_score (r : daily_row) : option Z :=
  match dr_columns r with
  | Some (SInt z) :: _ => Some z
  | _ => None
  end.

(** the [defaultdict(int)] filled by
    [if sleep.readiness_score_delta: nap_boost_by_day[sleep.day] += ...] *)
Definition nap_boost_by_day (sleep_records : list OuraSleep) : gmap Z Z :=
  foldl (fun m s =>
           if truthy_int (readiness_score_delta s)
           then <[day s := default 0 (m !! day s) + default 0 (readiness_score_delta s)]> m
           else m)
    ∅ sleep_records.

Definition readiness_response (boost : gmap Z Z) (r : daily_row) : ReadinessRecordResponse :=
  (* nap_boost_by_day.get(r.day, 0) or 0 *)
  let nap_boost := default 0 (boost !! dr_day r) in
  {| rr_day := dr_day r;
     rr_score := readiness_score r;
     rr_base_score := (fun s => s - nap_boost) <$> readiness_score r;
     rr_nap_boost := if 0 <? nap_boost then Some nap_boost else None;
     rr_record := r |}.

Definition get_readiness_data (readiness_table : list daily_row)
    (sleep_table : list OuraSleep) (current_user : N) (days : Z) (now : instant)
    : list ReadinessRecordResponse :=
  let start_date := hk_date now - days in
  let readiness_records :=
    Query.sort_by (fun a b => dr_day b <=? dr_day a)
      (List.filter (fun r => bool_decide (dr_user_id r = current_user)
                             && (start_date <=? dr_day r)) readiness_table) in
  let sleep_records :=
    List.filter (fun r => bool_decide (user_id r = current_user) && (start_date <=? day r))
      sleep_table in
  readiness_response (nap_boost_by_day sleep_records) <$> readiness_records.

End OuraReaders.

(** ** [backend/app/services/sleep_metrics_service.py]: [get_sleep_summary] *)

Module SleepSummary.
Import SleepMetrics.

(** [OuraSleep.total_sleep_hours] of [app/models/oura.py] *)
Definition total_sleep_hours (r : OuraSleep) : float :=
  if truthy_int (total_sleep_duration r)
  then PrimFloat.div (float_of_Z (default 0 (total_sleep_duration r))) 3600%float
  else 0%float.

(** [float(x) if x else None] of a numeric column *)
Definition float_if_truthy (c : option scalar) : option float :=
  match c with
  | Some (SNum x) => if PrimFloat.eqb x 0%float then None else Some x
  | Some (SInt z) => if z =? 0 then None else Some (float_of_Z z)
  | _ => None
  end.

Record sleep_summary := {
  ss_date : date;
  ss_total_sleep_hours : float;
  ss_sleep_score : option Z;
  ss_sleep_debt : option debt_report;
  (** the seven contributors, in the order of [summary_contributor_keys] *)
  ss_contributors : list (option scalar);
  ss_readiness_score : option Z;
  (** the eight contributors, in the order of [readiness_contributor_keys] *)
  ss_readiness_contributors : list (option scalar);
  ss_temperature_deviation : option float;
  ss_temperature_trend_deviation : option float
}.

(** What the call gives: [None], the dictionary, or the
    [MultipleResultsFound] of [scalar_one_or_none]. *)
Inductive summary_outcome :=
  | ReturnsNone
  | Returns (s : sleep_summary)
  | MultipleResultsFound.

Section Summary.
Context `{NumPy}.

Definition get_sleep_summary (table : list OuraSleep) (user : N)
    (target_date : option date) (now : instant) : summary_outcome :=
  let target_date := default (hk_date now) target_date in
  match List.filter (fun r => bool_decide (user_id r = user) && (day r =? target_date)) table
  with
  | [] => ReturnsNone
  | [sleep] =>
      Returns
        {| ss_date := target_date;
           ss_total_sleep_hours := total_sleep_hours sleep;
           ss_sleep_score := sleep_score sleep;
           ss_sleep_debt := calculate_sleep_debt table user (Some target_date) now;
           ss_contributors := contributor_columns sleep;
           ss_readiness_score := readiness_score_embedded sleep;
           ss_readiness_contributors := take 8 (readiness_columns sleep);
           ss_temperature_deviation := float_if_truthy (mjoin (readiness_columns sleep !! 8%nat));
           ss_temperature_trend_deviation :=
             float_if_truthy (mjoin (readiness_columns sleep !! 9%nat)) |}
  | _ => MultipleResultsFound
  end.

End Summary.
End SleepSummary.

(** ** [backend/app/utils/datetime_helper.py] *)

Module DatetimeHelper.

(** [date.weekday()]: Monday is 0; 1970-01-01 was a Thursday. *)
Definition weekday (dt : date) : Z := (dt + 3) mod 7.

(** [dt - timedelta(days=dt.weekday())] *)
Definition get_week_start (dt : date) : date := dt - weekday dt.

(** [dt + timedelta(days=6 - dt.weekday())] *)
Definition get_week_end (dt : date) : date := dt + (6 - weekday dt).

End DatetimeHelper.

(** ** Ranges of integers, for the checks by computation *)

Module Range.

(** [lo], [lo + 1], ..., [n] numbers *)
Fixpoint Zrange (lo : Z) (n : nat) : list Z :=
  match n with
  | O => []
  | S k => lo :: Zrange (lo + 1) k
  end.

End Range.

(** ** The three loops of the reconciler, turn by turn

    Whatever the policy, one turn of a loop leaves the table as it is,
    rewrites the row that has the id of the record, or adds a row for an id
    that the table lacks. *)

Module Loop.
Section Loop.
Context {Item Row : Type}.
Variable key : Item -> option string.
Variable rkey : Row -> string.
(** what a rewrite keeps of a row, and what holds of an added row *)
Variable same : Row -> Row -> Prop.
Variable fresh : Row -> Prop.

Inductive turn (t : table Row) (x : Item) : table Row -> Prop :=
  | turn_skip :
      (forall k, key x = Some k -> is_Some (rows t !! k)) -> turn t x t
  | turn_update k e e' :
      key x = Some k -> rows t !! k = Some e -> same e e' ->
      turn t x {| rows := <[k := e']> (rows t); added := added t |}
  | turn_insert k r :
      key x = Some k -> rows t !! k = None -> rkey r = k -> fresh r ->
      turn t x {| rows := rows t; added := added t ++ [r] |}.

(** the ids of the records whose id the table [m] lacks, in the order of
    the stream *)
Definition new_keys (m : gmap string Row) (data : list Item) : list string :=
  omap (fun x => match key x with
                 | Some k => match m !! k with
                             | Some _ => None
                             | None => Some k
                             end
                 | None => None
                 end) data.

End Loop.

(** what a rewrite keeps in the three kinds of table *)
Definition same_daily (e e' : daily_row) : Prop :=
  dr_user_id e' = dr_user_id e /\ dr_oura_id e' = dr_oura_id e
  /\ dr_created_at e' = dr_created_at e.

Definition same_daily_sleep (e e' : OuraDailySleep) : Prop :=
  ds_user_id e' = ds_user_id e /\ ds_oura_id e' = ds_oura_id e
  /\ ds_created_at e' = ds_created_at e.

Definition same_sleep (e e' : OuraSleep) : Prop :=
  user_id e' = user_id e /\ oura_id e' = oura_id e /\ created_at e' = created_at e.

End Loop.

(** ** More fixtures *)

Module Samples.
Import OuraSync Fixtures.

(** the rows of a database that has seen the records of [one_day] before,
    with other scores *)
Definition stored_sleeps : gmap string OuraSleep :=
  {[ "p1" := segment "p1" 19792 (Some 25200) "long_sleep" (Some 70) None ]}.

Definition stored_daily_sleeps : gmap string OuraDailySleep :=
  {[ "d1" := {| ds_user_id := 1%N; ds_oura_id := "d1"; ds_day := 19792;
                ds_score := Some 70; ds_contributors := [];
                ds_raw_json := daily "d1" "2024-03-10" 70; ds_created_at := 0 |} ]}.

Definition stored_row (oid : string) (d : date) (score : Z) : daily_row :=
  {| dr_user_id := 1%N; dr_oura_id := oid; dr_day := d;
     dr_columns := [Some (SInt score)]; dr_raw_json := daily oid "2024-03-10" score;
     dr_created_at := 0 |}.

Definition stored_dailies : gmap string daily_row := {[ "r1" := stored_row "r1" 19792 70 ]}.

(** a nap of user [1] that raised the readiness of its day by [boost] *)
Definition boosting_nap (oid : string) (d : date) (boost : Z) : OuraSleep :=
  {| user_id := 1%N; oura_id := oid; day := d; bedtime_start := None;
     bedtime_end := None; total_sleep_duration := Some 1800; detail_columns := [];
     sleep_score := None; contributor_columns := []; sleep_type := Some "sleep";
     readiness_score_embedded := None; readiness_columns := [];
     sleep_score_delta := None; readiness_score_delta := Some boost;
     raw_json := (None, no_detail); created_at := 0 |}.

(** the result of a call that has not raised *)
Definition got {A} (dflt : A) (r : result A) : A :=
  match r with
  | Ok a => a
  | Raise _ => dflt
  end.

Definition no_rows {R} : table R := {| rows := ∅; added := [] |}.

(** a vendor whose readiness collection cannot be fetched *)
Definition without_readiness : OuraHttp.endpoints :=
  {| OuraHttp.ep_daily_sleep := fun _ _ _ => Some (ad_sleep one_day);
     OuraHttp.ep_sleep := fun _ _ _ => Some (ad_sleep_details one_day);
     OuraHttp.ep_daily_readiness := fun _ _ _ => None;
     OuraHttp.ep_daily_activity := fun _ _ _ => Some [];
     OuraHttp.ep_daily_stress := fun _ _ _ => Some [];
     OuraHttp.ep_daily_spo2 := fun _ _ _ => Some [];
     OuraHttp.ep_daily_cardiovascular_age := fun _ _ _ => Some [];
     OuraHttp.ep_daily_resilience := fun _ _ _ => Some [];
     OuraHttp.ep_vo2_max := fun _ _ _ => Some [] |}.

(** a daily record of the vendor with its [contributors] member *)
Definition daily_with (oid d : string) (score : Z) (c : jfield (gmap string scalar))
    : Nullable.raw_item :=
  {| Nullable.raw_id := Some oid; Nullable.raw_day := Some d;
     Nullable.raw_score := Some score; Nullable.raw_fields := ∅;
     Nullable.raw_contributors := c |}.

(** a main sleep of the vendor with an embedded readiness *)
Definition period_with (oid d : string) (secs : Z) (c : jfield (gmap string scalar))
    : Nullable.raw_detail :=
  {| Nullable.rdet_id := Some oid; Nullable.rdet_day := Some d;
     Nullable.rdet_type := Some "long_sleep";
     Nullable.rdet_total_sleep_duration := Val secs;
     Nullable.rdet_bedtime_start := None; Nullable.rdet_bedtime_end := None;
     Nullable.rdet_fields := ∅;
     Nullable.rdet_readiness :=
       Some {| Nullable.rr_score := Some 70; Nullable.rr_contributors := c;
               Nullable.rr_fields := ∅ |};
     Nullable.rdet_sleep_score_delta := None;
     Nullable.rdet_readiness_score_delta := None |}.

Definition balance : gmap string scalar := {[ "sleep_balance" := SInt 80 ]}.

(** one main sleep, its daily score with [c] for [contributors], and one
    readiness record *)
Definition one_day_with (c : jfield (gmap string scalar)) : Nullable.raw_all_data :=
  {| Nullable.rad_sleep := [daily_with "d1" "2024-03-10" 80 c];
     Nullable.rad_sleep_details := [period_with "p1" "2024-03-10" 25200 (Val balance)];
     Nullable.rad_readiness := [daily_with "r1" "2024-03-10" 75 (Val balance)];
     Nullable.rad_activity := []; Nullable.rad_stress := []; Nullable.rad_spo2 := [];
     Nullable.rad_cardiovascular_age := []; Nullable.rad_resilience := [];
     Nullable.rad_vo2_max := [] |}.

(** a vendor that answers with [a] whatever the token and the range *)
Definition json_vendor (a : Nullable.raw_all_data) : Nullable.raw_vendor :=
  {| Nullable.token_answer := fun _ =>
       Some {| td_access_token := Some "fresh"; td_refresh_token := Missing;
               td_expires_in := None |};
     Nullable.data_answer := fun _ _ _ => a |}.

(** a vendor whose answer to the token ["broken"] has a malformed day *)
Definition vendor_by_token : OuraClient :=
  {| refresh_access_token := fun _ => None;
     get_all_daily_data := fun token _ _ =>
       if String.eqb token "broken" then scores [daily "d0" "2024-03-XX" 70] else one_day |}.

Definition auth_with (token : string) (active : bool) : OuraAuth :=
  {| access_token := Some token; refresh_token := None; token_expires_at := None;
     is_active := active; last_sync_at := None; auth_updated_at := 0 |}.

(** four users, scanned in the order 2, 3, 1: the answer to the token of
    user [3] is malformed, and the authorisation of user [4] is not active *)
Definition four_users : database :=
  set_oura_auth (authorised (noon + 86400))
    (list_to_map [(1%N, auth_with "fine" true); (2%N, auth_with "good" true);
                  (3%N, auth_with "broken" true); (4%N, auth_with "old" false)]).

(** a main sleep and two naps on day 100 *)
Definition day_with_naps : list OuraSleep :=
  [segment "nap1" 100 (Some 1800) "sleep" None (Some 3);
   segment "main" 100 (Some 25200) "long_sleep" (Some 85) None;
   segment "nap2" 100 (Some 900) "sleep" None (Some 2)].

End Samples.

(** ** Answers of the vendor that a pass accepts *)

Module WellFormed.
Import OuraSync Loop Forced.
Section WellFormed.
Context `{IsoParsers}.

(** The daily records of a stream: the day of every record that has an id
    parses, and no id that the table lacks comes twice. *)
Definition stream_ok {R} (tbl : gmap string R) (data : list item) : Prop :=
  Forall (fun x => item_ok x = true) data /\ NoDup (new_keys item_key tbl data).

(** The sleep periods: moreover the bedtimes parse and no duration is
    null. *)
Definition periods_ok (tbl : gmap string OuraSleep) (details : list detail) : Prop :=
  Forall (fun d => detail_ok d = true /\ det_total_sleep_duration d <> Null) details
  /\ NoDup (new_keys detail_key tbl details).

Definition well_formed (data : all_data) (db : database) : Prop :=
  periods_ok (oura_sleep db) (ad_sleep_details data)
  /\ stream_ok (oura_daily_sleep db) (ad_sleep data)
  /\ stream_ok (oura_daily_readiness db) (ad_readiness data)
  /\ stream_ok (oura_daily_activity db) (ad_activity data)
  /\ stream_ok (oura_daily_stress db) (ad_stress data)
  /\ stream_ok (oura_daily_spo2 db) (ad_spo2 data)
  /\ stream_ok (oura_cardiovascular_age db) (ad_cardiovascular_age data)
  /\ stream_ok (oura_resilience db) (ad_resilience data)
  /\ stream_ok (oura_vo2_max db) (ad_vo2_max data).

End WellFormed.
End WellFormed.

(** ** A pass without policy after a pass *)

Module Quiet.
Import OuraSync Forced.

(** the statistics of a pass that finds nothing to do *)
Definition quiet_stats : gmap string Z :=
  list_to_map
    [("sleep", 0); ("daily_sleep", 0); ("readiness", 0); ("activity", 0); ("stress", 0);
     ("spo2", 0); ("cardiovascular_age", 0); ("resilience", 0); ("vo2_max", 0)].

(** The sleep periods of an answer: each id once, and a duration in every
    period that has an id. *)
Definition periods_settle (details : list detail) : Prop :=
  NoDup (omap detail_key details)
  /\ Forall (fun d => truthy_str (det_id d) = true ->
                      exists dur, det_total_sleep_duration d = Val dur) details.

End Quiet.

(** * Properties *)

(** ** The sleep-debt estimator *)

Section SleepMetricsFacts.
Import SleepMetrics SleepDebtSpec.
Local Open Scope float_scope.
Context `{NumPy}.

Lemma SFmul_comm prec emax x y : SFmul prec emax x y = SFmul prec emax y x.
Proof.
  destruct x as [sx|sx| |sx mx ex], y as [sy|sy| |sy my ey]; simpl; try reflexivity;
    try (by rewrite xorb_comm).
  by rewrite xorb_comm, Pos.mul_comm, Z.add_comm.
Qed.

Lemma float_mul_comm (x y : float) : x * y = y * x.
Proof. apply Prim2SF_inj. rewrite !FloatAxioms.mul_spec. apply SFmul_comm. Qed.

(** The loop adds, to what it starts from and in the order of the nights,
    the terms of the two sums of the specification. *)
Lemma debt_loop_sums (b : Z) (records : list OuraSleep) :
  forall i wd tw,
    debt_loop b i records wd tw
    = (foldl PrimFloat.add wd
         (indexed (fun i a => spec_weight i * (float_of_Z b - a)) i (minutes_of <$> records)),
       foldl PrimFloat.add tw
         (indexed (fun i _ => spec_weight i) i (minutes_of <$> records))).
Proof.
  induction records as [|r rest IH]; intros i wd tw; [done|].
  rewrite fmap_cons. cbn [debt_loop indexed foldl]. rewrite IH.
  by rewrite (float_mul_comm (spec_weight i)).
Qed.

(** The total weight depends on the number of nights only. *)
Lemma total_weight_length (actual : list float) :
  forall i tw,
    foldl PrimFloat.add tw (indexed (fun i _ => spec_weight i) i actual)
    = total_weight_from i (length actual) tw.
Proof.
  induction actual as [|a rest IH]; intros i tw; [done|].
  cbn [indexed foldl length total_weight_from]. apply IH.
Qed.

(** It is positive up to 52 nights. *)
Lemma total_weight_positive (n : nat) :
  (5 <= n < 53)%nat -> (0 <? total_weight_from 0 n 0) = true.
Proof.
  intros Hn.
  assert (Hall : forallb (fun n => 0 <? total_weight_from 0 n 0) (seq 5 48) = true)
    by (vm_compute; reflexivity).
  rewrite forallb_forall in Hall. apply Hall. apply in_seq. lia.
Qed.

Lemma mem_filter {A} (f : A -> bool) (l : list A) (x : A) :
  x ∈ List.filter f l <-> x ∈ l /\ f x = true.
Proof. rewrite !list_elem_of_In. apply filter_In. Qed.

Lemma insert_by_perm {A} (le : A -> A -> bool) (x : A) (l : list A) :
  Query.insert_by le x l ≡ₚ x :: l.
Proof.
  induction l as [|y l IH]; simpl; [done|].
  destruct (le x y); [done|]. rewrite IH. apply perm_swap.
Qed.

Lemma sort_by_perm {A} (le : A -> A -> bool) (l : list A) : Query.sort_by le l ≡ₚ l.
Proof.
  induction l as [|x l IH]; simpl; [done|].
  unfold Query.sort_by in *. simpl. by rewrite insert_by_perm, IH.
Qed.

Lemma insert_by_sorted {A} (le : A -> A -> bool) (x : A) (l : list A) :
  (forall a b, le a b = false -> le b a = true) ->
  Sorted (fun a b => le a b = true) l ->
  Sorted (fun a b => le a b = true) (Query.insert_by le x l).
Proof.
  intros Htotal. induction 1 as [|y l Hs IH Hhd]; simpl.
  - by repeat constructor.
  - destruct (le x y) eqn:Exy.
    + constructor; [by constructor | by constructor].
    + constructor; [done|].
      destruct l as [|z l]; simpl.
      * constructor. by apply Htotal.
      * destruct (le x z); constructor; [by apply Htotal | by inversion Hhd].
Qed.

Lemma sort_by_sorted {A} (le : A -> A -> bool) (l : list A) :
  (forall a b, le a b = false -> le b a = true) ->
  Sorted (fun a b => le a b = true) (Query.sort_by le l).
Proof.
  intros Htotal. induction l as [|x l IH]; [constructor|].
  by apply insert_by_sorted.
Qed.

(** The nights of the debt estimate come most recent first. *)
Lemma debt_rows_most_recent_first table user target_date :
  Sorted (fun a b => (day b <= day a)%Z) (debt_rows table user target_date).
Proof.
  unfold debt_rows.
  eapply Sorted_ind with (P := Sorted (fun a b => (day b <= day a)%Z));
    [constructor | | apply (sort_by_sorted Query.day_desc)].
  - intros a l _ IH Hhd. constructor; [done|].
    destruct Hhd as [|b l Hab]; constructor.
    unfold Query.day_desc in Hab. by apply Z.leb_le.
  - intros a b. unfold Query.day_desc. rewrite Z.leb_gt, Z.leb_le. lia.
Qed.

Lemma baseline_threshold table user target_date :
  _calculate_baseline_sleep table user target_date = None
  <-> (length (baseline_rows table user target_date) < 30)%nat.
Proof.
  unfold _calculate_baseline_sleep. rewrite length_fmap.
  destruct (Nat.ltb_spec (length (baseline_rows table user target_date)) 30);
    split; intros; try done; lia.
Qed.

(** C7.  With exactly 29 qualifying nights in the 90 days the baseline is
    [None], with exactly 30 it is a number, and when the quartile filter
    keeps fewer than 20 of at least 30 nights the baseline is the
    truncated mean of the unfiltered sample. *)
Theorem baseline_boundary_and_fallback table user target_date :
  let durations := minutes_of <$> baseline_rows table user target_date in
  (length durations = 29%nat -> _calculate_baseline_sleep table user target_date = None)
  /\ (length durations = 30%nat ->
      exists b, _calculate_baseline_sleep table user target_date = Some b)
  /\ ((30 <= length durations)%nat -> (length (iqr_filter durations) < 20)%nat ->
      _calculate_baseline_sleep table user target_date = Some (int_of (np_mean durations))).
Proof.
  intros durations. unfold _calculate_baseline_sleep. fold durations.
  repeat split.
  - intros ->. reflexivity.
  - intros ->. simpl. eauto.
  - intros H30 H20.
    destruct (Nat.ltb_spec (length durations) 30); [lia|].
    destruct (Nat.ltb_spec (length (iqr_filter durations)) 20); [done | lia].
Qed.

(** C8, as amended.  Given a baseline, four nights in the 14 days give no
    debt figure and five or more give one: with the nights most recent
    first and the index from 0, the figure is the quotient of the two
    weighted sums as binary64 evaluates them in that order, cut toward zero
    by [int()], and 0 when the total weight is not positive.  From 5 up to
    52 nights the total weight is positive, and the figure is the truncated
    quotient. *)
Theorem debt_window_and_formula table user target_date now b :
  let target := default (hk_date now) target_date in
  let nights := debt_rows table user target in
  _calculate_baseline_sleep table user target = Some b ->
  (length nights = 4%nat ->
   sleep_debt_minutes <$> calculate_sleep_debt table user target_date now = Some None)
  /\ ((5 <= length nights)%nat ->
      Sorted (fun a b => (day b <= day a)%Z) nights
      /\ sleep_debt_minutes <$> calculate_sleep_debt table user target_date now
         = Some (Some (guarded_debt b (minutes_of <$> nights))))
  /\ ((5 <= length nights < 53)%nat ->
      guarded_debt b (minutes_of <$> nights) = truncated_debt b (minutes_of <$> nights)).
Proof.
  intros target nights Hb. unfold calculate_sleep_debt. fold target. rewrite Hb.
  fold nights. split; [|split].
  - intros ->. reflexivity.
  - intros Hn. split; [apply debt_rows_most_recent_first|].
    destruct (Nat.ltb_spec (length nights) 5); [lia|].
    rewrite debt_loop_sums. reflexivity.
  - intros Hn. unfold guarded_debt, fsum.
    rewrite total_weight_length, length_fmap, total_weight_positive by done. reflexivity.
Qed.

(** Fewer than five nights never give a debt figure, with or without a
    baseline. *)
Lemma debt_needs_five_nights table user target_date now :
  (length (debt_rows table user (default (hk_date now) target_date)) < 5)%nat ->
  calculate_sleep_debt table user target_date now ≫= sleep_debt_minutes = None.
Proof.
  intros Hn. unfold calculate_sleep_debt.
  destruct (_calculate_baseline_sleep _ _ _); [|done].
  destruct (Nat.ltb_spec (length (debt_rows table user (default (hk_date now) target_date))) 5);
    [done | lia].
Qed.

(** C10.  A stored row is one of the debt estimator's nights exactly when
    it is a row of the user, of the 14 days, with a duration; and one of
    the baseline's nights exactly when it is a row of the user, of the 90
    days, with a duration from 3 to 12 hours.  Its segment type plays no
    part, and each row of the 14 days adds its own term
    [weight * (baseline - duration)] to the weighted debt. *)
Theorem nights_are_segment_rows table user target_date (r : OuraSleep) :
  (r ∈ debt_rows table user target_date
   <-> r ∈ table /\ user_id r = user
       /\ (target_date - 13 <= day r <= target_date)%Z
       /\ is_Some (total_sleep_duration r))
  /\ (r ∈ baseline_rows table user target_date
      <-> r ∈ table /\ user_id r = user
          /\ (target_date - 89 <= day r <= target_date)%Z
          /\ exists s, total_sleep_duration r = Some s /\ (10800 <= s <= 43200)%Z)
  /\ forall b,
       fst (debt_loop b 0 (debt_rows table user target_date) 0 0)
       = fsum (indexed (fun i a => spec_weight i * (float_of_Z b - a)) 0
                 (minutes_of <$> debt_rows table user target_date)).
Proof.
  split; [|split].
  - unfold debt_rows. rewrite sort_by_perm, mem_filter. unfold debt_where.
    rewrite !andb_true_iff, !bool_decide_eq_true, !Z.leb_le. tauto.
  - unfold baseline_rows. rewrite mem_filter. unfold baseline_where.
    rewrite !andb_true_iff, !bool_decide_eq_true, !Z.leb_le.
    destruct (total_sleep_duration r) as [s|].
    + rewrite !andb_true_iff, !Z.leb_le. split.
      * intros (?&[[? ?] ?]&?). repeat split; try done. exists s. split; [done | lia].
      * intros (?&?&?&s'&[= <-]&?). repeat split; try done; lia.
    + split; [intros (?&?&?); done | intros (?&?&?&s&?&?); done].
  - intros b. by rewrite debt_loop_sums.
Qed.

End SleepMetricsFacts.

(** ** The estimator on concrete tables *)

Section SleepMetricsExamples.
Import SleepMetrics SleepDebtSpec Fixtures.

Lemma baseline_boundary_and_fallback_witness :
  @_calculate_baseline_sleep plain_numpy table29 1 100 = None
  /\ (exists b, @_calculate_baseline_sleep plain_numpy table30 1 100 = Some b)
  /\ @_calculate_baseline_sleep plain_numpy table_outliers 1 100
     = Some (int_of (@np_mean plain_numpy (minutes_of <$> baseline_rows table_outliers 1 100))).
Proof.
  split; [|split].
  - apply (@baseline_boundary_and_fallback plain_numpy table29 1 100). vm_compute. reflexivity.
  - apply (@baseline_boundary_and_fallback plain_numpy table30 1 100). vm_compute. reflexivity.
  - apply (@baseline_boundary_and_fallback plain_numpy table_outliers 1 100).
    + vm_compute. lia.
    + vm_compute. lia.
Defined.

Example baseline_fallback_value :
  @_calculate_baseline_sleep plain_numpy table_outliers 1 100 = Some 434
  /\ length (@iqr_filter plain_numpy (minutes_of <$> baseline_rows table_outliers 1 100))
     = 16%nat.
Proof. split; vm_compute; reflexivity. Qed.

Lemma debt_window_and_formula_witness :
  sleep_debt_minutes <$> @calculate_sleep_debt plain_numpy (table_recent 4) 1 (Some 100) 0
  = Some None
  /\ (Sorted (fun a b => day b <= day a) (debt_rows (table_recent 5) 1 100)
      /\ sleep_debt_minutes <$> @calculate_sleep_debt plain_numpy (table_recent 5) 1 (Some 100) 0
         = Some (Some (guarded_debt 420 (minutes_of <$> debt_rows (table_recent 5) 1 100))))
  /\ guarded_debt 420 (minutes_of <$> debt_rows (table_recent 5) 1 100)
     = truncated_debt 420 (minutes_of <$> debt_rows (table_recent 5) 1 100).
Proof.
  split; [|split].
  - apply (@debt_window_and_formula plain_numpy (table_recent 4) 1 (Some 100) 0 420);
      vm_compute; reflexivity.
  - apply (@debt_window_and_formula plain_numpy (table_recent 5) 1 (Some 100) 0 420).
    + vm_compute. reflexivity.
    + vm_compute. lia.
  - apply (@debt_window_and_formula plain_numpy (table_recent 5) 1 (Some 100) 0 420).
    + vm_compute. reflexivity.
    + vm_compute. lia.
Defined.

(** Five nights of 6.5 h against a baseline of 7 h: every night is 30
    minutes short and the quotient of the specification is 30; the quotient
    of the two float sums is just under 30, and the report says 29. *)
Example debt_five_nights_value :
  sleep_debt_minutes <$> @calculate_sleep_debt plain_numpy (table_recent 5) 1 (Some 100) 0
  = Some (Some 29)
  /\ Qeq (exact_debt 420 (RoundedDebt.exact_minutes <$> debt_rows (table_recent 5) 1 100))
         30%Q.
Proof. split; vm_compute; reflexivity. Qed.

(** The reading of C8 with the figure rounded fails on these five nights:
    29 is not 30 rounded, under any rule. *)
Lemma five_short_nights_give_29 :
  ~ @RoundedDebt.debt_is_the_rounded_quotient plain_numpy (table_recent 5) 1 100.
Proof.
  intros Hall. destruct (Hall 0 420 29) as [_ Hlt].
  - vm_compute. reflexivity.
  - vm_compute. lia.
  - vm_compute. reflexivity.
  - vm_compute in Hlt. discriminate.
Qed.

(** A nap of 20 minutes beside the main sleep of the same day is a night of
    its own: alone it moves the debt from 0 to 36 minutes. *)
Example nap_counts_as_a_night :
  length (debt_rows table30 1 100) = 14%nat
  /\ length (debt_rows table_nap 1 100) = 15%nat
  /\ sleep_debt_minutes <$> @calculate_sleep_debt plain_numpy table30 1 (Some 100) 0
     = Some (Some 0)
  /\ sleep_debt_minutes <$> @calculate_sleep_debt plain_numpy table_nap 1 (Some 100) 0
     = Some (Some 36).
Proof. repeat split; vm_compute; reflexivity. Qed.

End SleepMetricsExamples.

(** ** The grouped sleep response *)

Section OuraApiFacts.
Import OuraApi.

Lemma total_delta_perm (l l' : list OuraSleep) : l ≡ₚ l' -> total_delta l = total_delta l'.
Proof.
  unfold total_delta. induction 1; rewrite ?fmap_cons; cbn [foldr]; lia.
Qed.

(** The loop finds the score of the only main sleep of the day. *)
Lemma find_summary_score_primary (primary : OuraSleep) (l : list OuraSleep) :
  is_long_sleep primary = true -> truthy_int (sleep_score primary) = true ->
  (forall r, r ∈ l -> is_long_sleep r = true -> r = primary) ->
  primary ∈ l ->
  find_summary_score l = sleep_score primary.
Proof.
  intros Hlong Hscore. induction l as [|r l IH]; intros Honly Hin.
  - by apply elem_of_nil in Hin.
  - simpl. destruct (is_long_sleep r) eqn:Er; simpl.
    + rewrite (Honly r) by (done || left). by rewrite Hscore.
    + apply IH.
      * intros r' ?. apply Honly. by right.
      * apply elem_of_cons in Hin as [->|]; [congruence | done].
Qed.

(** The base score is the summary score less the deltas of all the rows
    of the day. *)
Lemma base_score_all_segments (d : date) (group : list OuraSleep) :
  base_score (daily_response d group)
  = if truthy_int (summary_score (daily_response d group))
    then (fun s => s - total_delta group) <$> summary_score (daily_response d group)
    else None.
Proof.
  unfold daily_response. cbn [base_score summary_score].
  by rewrite (total_delta_perm _ _ (sort_by_perm segment_order group)).
Qed.

(** C3.  For a day made of one main sleep with the cumulative score [s],
    carrying no delta of its own, and of naps with their deltas, the base
    score is [s] less the sum of the naps' deltas, so [s] is the base score
    plus these deltas, and the main sleep is displayed with the base
    score. *)
Theorem score_decomposition_round_trip (d : date) (group naps : list OuraSleep)
    (primary : OuraSleep) (s : Z) :
  group ≡ₚ primary :: naps ->
  sleep_type primary = Some "long_sleep" ->
  sleep_score primary = Some s -> s <> 0 ->
  default 0 (sleep_score_delta primary) = 0 ->
  Forall (fun r => sleep_type r <> Some "long_sleep") naps ->
  let resp := daily_response d group in
  let deltas := (fun r => default 0 (sleep_score_delta r)) <$> naps in
  summary_score resp = Some s
  /\ base_score resp = Some (s - foldr Z.add 0 deltas)
  /\ (forall b, base_score resp = Some b -> s = b + foldr Z.add 0 deltas)
  /\ (forall seg, seg ∈ segments resp -> seg_sleep_type seg = "long_sleep" ->
      seg_score seg = base_score resp).
Proof.
  intros Hperm Htype Hscore Hs Hdelta Hnaps resp deltas.
  assert (Hsorted : Query.sort_by segment_order group ≡ₚ primary :: naps)
    by (by rewrite sort_by_perm).
  assert (Hlong : is_long_sleep primary = true)
    by (unfold is_long_sleep; by rewrite bool_decide_eq_true).
  assert (Htruthy : truthy_int (sleep_score primary) = true).
  { rewrite Hscore. simpl. by apply negb_true_iff, Z.eqb_neq. }
  assert (Hsummary : summary_score resp = Some s).
  { unfold resp, daily_response. cbn [summary_score]. rewrite <- Hscore.
    apply find_summary_score_primary; try done.
    - intros r Hr Hl. rewrite Hsorted in Hr.
      apply elem_of_cons in Hr as [->|Hr]; [done|].
      rewrite Forall_forall in Hnaps. apply Hnaps in Hr.
      unfold is_long_sleep in Hl. by rewrite bool_decide_eq_true in Hl.
    - rewrite Hsorted. left. }
  assert (Hbase : base_score resp = Some (s - foldr Z.add 0 deltas)).
  { unfold resp. rewrite base_score_all_segments. fold resp. rewrite Hsummary.
    rewrite Hscore in Htruthy. rewrite Htruthy. simpl. f_equal.
    rewrite (total_delta_perm _ _ Hperm). unfold total_delta.
    rewrite fmap_cons. cbn [foldr]. fold deltas. lia. }
  repeat split; try done.
  - intros b Hb. rewrite Hbase in Hb. injection Hb as <-. lia.
  - intros seg Hseg Hty. rewrite Hbase.
    unfold resp, daily_response in Hseg. cbn [segments] in Hseg.
    apply list_elem_of_fmap in Hseg as (r & -> & _).
    change (if truthy_int (find_summary_score (Query.sort_by segment_order group))
            then (fun s0 => s0 - total_delta (Query.sort_by segment_order group))
                   <$> find_summary_score (Query.sort_by segment_order group)
            else None) with (base_score resp) in *.
    rewrite Hbase in *. unfold segment_of in *. cbn [seg_score seg_sleep_type] in *.
    rewrite Hty. reflexivity.
Qed.

(** Every day of the response is the body of the loop run on the records of
    that day. *)
Lemma grouped_responses table user days now (r : DailySleepResponse) :
  r ∈ get_grouped_sleep_data table user days now ->
  exists d records,
    r = daily_response d (List.filter (fun x => day x =? d) records)
    /\ forall x, x ∈ records -> x ∈ table /\ user_id x = user.
Proof.
  unfold get_grouped_sleep_data. intros Hr.
  apply list_elem_of_fmap in Hr as (d & -> & _). do 2 eexists. split; [reflexivity|].
  intros x Hx. rewrite sort_by_perm, mem_filter in Hx. destruct Hx as [Hx Hu].
  apply andb_true_iff in Hu as [Hu _]. by apply bool_decide_eq_true in Hu.
Qed.

Lemma score_decomposition_round_trip_witness :
  let primary := Fixtures.segment "main" 100 (Some 25200) "long_sleep" (Some 85) None in
  let naps := [Fixtures.segment "nap1" 100 (Some 1800) "sleep" None (Some 3);
               Fixtures.segment "nap2" 100 (Some 900) "sleep" None (Some 2)] in
  let resp := daily_response 100 (naps ++ [primary]) in
  summary_score resp = Some 85
  /\ base_score resp = Some (85 - (3 + (2 + 0)))
  /\ (forall b, base_score resp = Some b -> 85 = b + (3 + (2 + 0)))
  /\ (forall seg, seg ∈ segments resp -> seg_sleep_type seg = "long_sleep" ->
      seg_score seg = base_score resp).
Proof.
  intros primary naps.
  apply (score_decomposition_round_trip 100 (naps ++ [primary]) naps primary 85).
  - symmetry. apply Permutation_cons_append.
  - reflexivity.
  - reflexivity.
  - lia.
  - reflexivity.
  - repeat constructor; discriminate.
Defined.

Example grouped_response_of_the_day :
  (fun r => (summary_score r, base_score r, seg_score <$> segments r))
    <$> get_grouped_sleep_data
          [Fixtures.segment "nap1" 100 (Some 1800) "sleep" None (Some 3);
           Fixtures.segment "main" 100 (Some 25200) "long_sleep" (Some 85) None;
           Fixtures.segment "nap2" 100 (Some 900) "sleep" None (Some 2)]
          1 7 (100 * 86400)
  = [(Some 85, Some 80, [Some 80; None; None])].
Proof. vm_compute. reflexivity. Qed.

End OuraApiFacts.

(** ** The reconciler, one record at a time *)

Section ReconcilerFacts.
Import OuraSync.
Context `{IsoParsers}.

Lemma truthy_str_Some (o : option string) (s : string) :
  o = Some s -> s <> "" -> truthy_str o = true.
Proof. intros -> Hs. simpl. apply negb_true_iff. by apply String.eqb_neq. Qed.





End ReconcilerFacts.

(** ** The reconciler on concrete payloads, with the strict ISO parsers *)

Section ReconcilerExamples.
Import OuraSync Fixtures.




(** C6 at a stream of two daily sleep scores, the first with a day that is
    not a date: the pass raises [ValueError], nothing is stored and the
    second record is not processed; the second record alone is stored. *)
Theorem malformed_day_aborts_the_pass :
  let bad := daily "d0" "2024-03-XX" 70 in
  let good := daily "d1" "2024-03-09" 80 in
  let db := authorised (noon + 86400) in
  @sync_user_data strict_iso (vendor (scores [bad; good])) 1 3 false false 0 noon db
  = (Raised ValueError, db)
  /\ fst (@sync_user_data strict_iso (vendor (scores [good])) 1 3 false false 0 noon db)
     = Returned (list_to_map
                   [("sleep", 0); ("daily_sleep", 1); ("readiness", 0); ("activity", 0);
                    ("stress", 0); ("spo2", 0); ("cardiovascular_age", 0);
                    ("resilience", 0); ("vo2_max", 0)])
  /\ ds_day <$> oura_daily_sleep
                  (snd (@sync_user_data strict_iso (vendor (scores [good])) 1 3 false false
                          0 noon db)) !! "d1"
     = Some 19791.
Proof. repeat split; vm_compute; reflexivity. Qed.

(** A token that is still valid at the check is handed out as it is. *)
Lemma valid_token_is_reused `{OuraClient} (user : N) (now : instant) (db : database)
    (auth : OuraAuth) (e : instant) :
  oura_auth db !! user = Some auth -> is_active auth = true ->
  truthy_str (access_token auth) = true ->
  token_expires_at auth = Some e -> now <= e ->
  get_access_token user now db = (access_token auth, db).
Proof.
  intros Hauth Hactive Htoken He Hle. unfold get_access_token.
  rewrite Hauth, Hactive, Htoken. simpl. unfold token_expired. rewrite He.
  destruct (Z.ltb_spec e now); [lia | done].
Qed.

(** C9 at a token that expires 60 seconds after the check: the Oura sync
    hands out the stored token and refreshes nothing, where the Polar
    provider, at the same expiry, refreshes. *)
Theorem token_near_expiry_is_not_refreshed :
  let db := authorised (noon + 60) in
  @get_access_token (vendor no_data) 1 noon db = (Some "stored", db)
  /\ PolarProvider._get_access_token (Some (Some "fresh"))
       (Some {| PolarProvider.polar_access_token := Some "stored";
                PolarProvider.polar_token_expires_at := Some (noon + 60) |}) noon
     = Ok (Some "fresh").
Proof. split; vm_compute; reflexivity. Qed.

End ReconcilerExamples.

(** ** A pass under [force] is idempotent *)

Section UpsertFacts.
Import Upsert.
Context {Item Row Patch : Type}.
Variable key : Item -> option string.
Variable upd : Item -> Row -> Row.
Variable mk : Item -> Row.
Variable rkey : Row -> string.
(** An update assigns some columns and keeps the others: it applies a
    patch, and patches compose. *)
Variable apply : Patch -> Row -> Row.
Variable comp : Patch -> Patch -> Patch.
Variable patch_of : Item -> Patch.
Hypothesis upd_apply : forall x e, upd x e = apply (patch_of x) e.
Hypothesis apply_comp : forall q p e, apply q (apply p e) = apply (comp q p) e.
Hypothesis apply_idem : forall p e, apply p (apply p e) = apply p e.
Hypothesis mk_key : forall x k, key x = Some k -> rkey (mk x) = k.
Hypothesis upd_mk : forall x, upd x (mk x) = mk x.

Lemma run_rows_cons x (l : list Item) (m : gmap string Row) :
  run_rows key upd (x :: l) m
  = run_rows key upd l
      (match key x with
       | Some k => match m !! k with
                   | Some e => <[k := upd x e]> m
                   | None => m
                   end
       | None => m
       end).
Proof. reflexivity. Qed.

Lemma row_run_cons k x (l : list Item) e :
  row_run key upd k (x :: l) e
  = row_run key upd k l (if decide (key x = Some k) then upd x e else e).
Proof. reflexivity. Qed.

Lemma commit_cons r0 (l : list Row) (m : gmap string Row) :
  commit rkey m (r0 :: l) = commit rkey (<[rkey r0 := r0]> m) l.
Proof. reflexivity. Qed.

Lemma lookup_run_rows (data : list Item) :
  forall (m : gmap string Row) k,
    run_rows key upd data m !! k = row_run key upd k data <$> m !! k.
Proof.
  induction data as [|x l IH]; intros m k.
  - simpl. by destruct (m !! k).
  - rewrite run_rows_cons, IH. destruct (key x) as [k0|] eqn:Ek.
    + destruct (m !! k0) as [e0|] eqn:E0.
      * destruct (decide (k0 = k)) as [->|Hne].
        -- rewrite lookup_insert_eq, E0. cbn [fmap option_fmap option_map].
           rewrite row_run_cons, Ek, decide_True by done. done.
        -- rewrite lookup_insert_ne by done.
           destruct (m !! k); cbn [fmap option_fmap option_map]; [|done].
           rewrite row_run_cons, decide_False by congruence. done.
      * destruct (m !! k) eqn:Em; cbn [fmap option_fmap option_map]; [|done].
        rewrite row_run_cons, decide_False; [done|]. rewrite Ek. intros [= ->]. congruence.
    + destruct (m !! k); cbn [fmap option_fmap option_map]; [|done].
      rewrite row_run_cons, Ek, decide_False by done. done.
Qed.

Lemma row_run_patch k (data : list Item) :
  (forall e, row_run key upd k data e = e)
  \/ (exists P, forall e, row_run key upd k data e = apply P e).
Proof.
  induction data as [|x l IH]; [by left|].
  setoid_rewrite row_run_cons.
  destruct (decide (key x = Some k)) as [Hk|Hk].
  - right. destruct IH as [Hid|[P HP]].
    + exists (patch_of x). intros e0. by rewrite Hid, upd_apply.
    + exists (comp P (patch_of x)). intros e0. by rewrite HP, upd_apply, apply_comp.
  - destruct IH as [Hid|[P HP]]; [left | right; exists P]; done.
Qed.

Lemma row_run_idem k (data : list Item) e :
  row_run key upd k data (row_run key upd k data e) = row_run key upd k data e.
Proof.
  destruct (row_run_patch k data) as [Hid|[P HP]].
  - by rewrite !Hid.
  - by rewrite !HP, apply_idem.
Qed.

Lemma row_run_fixed k (data : list Item) r :
  (forall x, x ∈ data -> key x = Some k -> upd x r = r) ->
  row_run key upd k data r = r.
Proof.
  induction data as [|x l IH]; intros Hfix; [done|].
  rewrite row_run_cons.
  destruct (decide (key x = Some k)).
  - rewrite Hfix by (done || left). apply IH. intros. apply Hfix; [by right | done].
  - apply IH. intros. apply Hfix; [by right | done].
Qed.

Lemma lookup_commit_other (news : list Row) :
  forall (m : gmap string Row) k,
    (forall r, r ∈ news -> rkey r <> k) -> commit rkey m news !! k = m !! k.
Proof.
  induction news as [|r0 l IH]; intros m k Hk; [done|].
  rewrite commit_cons.
  rewrite IH by (intros; apply Hk; by right).
  apply lookup_insert_ne, Hk. left.
Qed.

Lemma lookup_commit_Some (news : list Row) :
  forall (m : gmap string Row) k r,
    commit rkey m news !! k = Some r -> m !! k = Some r \/ (r ∈ news /\ rkey r = k).
Proof.
  induction news as [|r0 l IH]; intros m k r Hr; [by left|].
  rewrite commit_cons in Hr.
  apply IH in Hr as [Hr|[Hr Hk]].
  - destruct (decide (rkey r0 = k)) as [<-|Hne].
    + rewrite lookup_insert_eq in Hr. injection Hr as <-. right. split; [left | done].
    + rewrite lookup_insert_ne in Hr by done. by left.
  - right. split; [by right | done].
Qed.

Lemma lookup_commit_added (news : list Row) :
  forall (m : gmap string Row) r,
    NoDup (rkey <$> news) -> r ∈ news -> commit rkey m news !! rkey r = Some r.
Proof.
  induction news as [|r0 l IH]; intros m r Hnd Hr; [by apply elem_of_nil in Hr|].
  rewrite fmap_cons in Hnd. apply NoDup_cons in Hnd as [Hnotin Hnd].
  rewrite commit_cons.
  apply elem_of_cons in Hr as [->|Hr].
  - rewrite lookup_commit_other; [apply lookup_insert_eq|].
    intros r' Hr' Heq. apply Hnotin. rewrite <- Heq. by apply list_elem_of_fmap_2.
  - by apply IH.
Qed.

Lemma NoDup_fmap_inj_on {A B} (f : A -> B) (l : list A) a b :
  NoDup (f <$> l) -> a ∈ l -> b ∈ l -> f a = f b -> a = b.
Proof.
  induction l as [|x l IH]; intros Hnd Ha Hb Hf; [by apply elem_of_nil in Ha|].
  rewrite fmap_cons in Hnd. apply NoDup_cons in Hnd as [Hnotin Hnd].
  apply elem_of_cons in Ha as [->|Ha]; apply elem_of_cons in Hb as [->|Hb].
  - done.
  - exfalso. apply Hnotin. rewrite Hf. by apply list_elem_of_fmap_2.
  - exfalso. apply Hnotin. rewrite <- Hf. by apply list_elem_of_fmap_2.
  - by apply IH.
Qed.

Lemma elem_of_run_added (data : list Item) (m : gmap string Row) r :
  r ∈ run_added key mk data m
  <-> exists x k, x ∈ data /\ key x = Some k /\ m !! k = None /\ r = mk x.
Proof.
  unfold run_added. rewrite list_elem_of_omap. split.
  - intros (x & Hx & Hr). destruct (key x) as [k|] eqn:Ek; [|done].
    destruct (m !! k) eqn:Em; [done|]. injection Hr as <-. by exists x, k.
  - intros (x & k & Hx & Ek & Em & ->). exists x. split; [done|]. by rewrite Ek, Em.
Qed.

Lemma run_added_cons x (l : list Item) (m : gmap string Row) :
  run_added key mk (x :: l) m
  = match key x with
    | Some k => match m !! k with
                | Some _ => run_added key mk l m
                | None => mk x :: run_added key mk l m
                end
    | None => run_added key mk l m
    end.
Proof.
  unfold run_added. cbn [omap list_omap]. destruct (key x) as [k|]; [|done].
  by destruct (m !! k).
Qed.

Lemma run_added_insert (l : list Item) (m : gmap string Row) k e v :
  m !! k = Some e -> run_added key mk l (<[k := v]> m) = run_added key mk l m.
Proof.
  intros Hk. induction l as [|x l IH]; [done|].
  rewrite !run_added_cons, IH. destruct (key x) as [k'|]; [|done].
  destruct (decide (k = k')) as [<-|Hne].
  - by rewrite lookup_insert_eq, Hk.
  - by rewrite lookup_insert_ne.
Qed.

Lemma run_added_nil (data : list Item) (m : gmap string Row) :
  (forall x k, x ∈ data -> key x = Some k -> is_Some (m !! k)) ->
  run_added key mk data m = [].
Proof.
  intros Hall. destruct (run_added key mk data m) as [|r l] eqn:E; [done|].
  assert (Hr : r ∈ run_added key mk data m) by (rewrite E; left).
  apply elem_of_run_added in Hr as (x & k & Hx & Ek & Em & _).
  destruct (Hall x k Hx Ek) as [e He]. congruence.
Qed.

(** The rows that a forced pass commits are left as they are by a second
    forced pass over the same stream, which adds nothing. *)
Theorem forced_pass_fixpoint (data : list Item) (m : gmap string Row) :
  NoDup (rkey <$> run_added key mk data m) ->
  let C := commit rkey (run_rows key upd data m) (run_added key mk data m) in
  run_rows key upd data C = C
  /\ (forall x k, x ∈ data -> key x = Some k -> is_Some (C !! k)).
Proof.
  intros Hnd C.
  assert (Hold : forall k e, m !! k = Some e ->
                   C !! k = Some (row_run key upd k data e)).
  { intros k e He. unfold C. rewrite lookup_commit_other.
    - by rewrite lookup_run_rows, He.
    - intros r Hr Hk. apply elem_of_run_added in Hr as (x & k' & _ & Ek & Em & ->).
      rewrite (mk_key _ _ Ek) in Hk. congruence. }
  split.
  - apply map_eq. intros k. rewrite lookup_run_rows.
    destruct (C !! k) as [r|] eqn:EC; [|done]. simpl. f_equal.
    destruct (m !! k) as [e|] eqn:Em.
    + rewrite (Hold _ _ Em) in EC. injection EC as <-. apply row_run_idem.
    + unfold C in EC. apply lookup_commit_Some in EC as [EC|[Hr Hk]].
      { rewrite lookup_run_rows, Em in EC. done. }
      apply row_run_fixed. intros x Hx Ek.
      assert (Hmk : mk x ∈ run_added key mk data m)
        by (apply elem_of_run_added; by exists x, k).
      assert (mk x = r) as <-.
      { apply (NoDup_fmap_inj_on rkey (run_added key mk data m)); try done.
        by rewrite (mk_key _ _ Ek). }
      apply upd_mk.
  - intros x k Hx Ek. destruct (m !! k) as [e|] eqn:Em.
    + rewrite (Hold _ _ Em). eauto.
    + exists (mk x). unfold C. rewrite <- (mk_key _ _ Ek) at 1.
      apply lookup_commit_added; [done|]. apply elem_of_run_added. by exists x, k.
Qed.

End UpsertFacts.

(** ** The loops of the reconciler under [force] *)

Section ForcedFacts.
Import OuraSync Upsert Forced.
Local Open Scope list_scope.
Context `{IsoParsers}.

Lemma truthy_str_inv (o : option string) :
  truthy_str o = true -> exists s, o = Some s /\ s <> "".
Proof.
  destruct o as [s|]; [|done]. simpl. intros Hs. exists s. split; [done|].
  apply negb_true_iff in Hs. by apply String.eqb_neq.
Qed.

Lemma should_force_true force_today today frd item_date :
  should_force true force_today today frd item_date = true.
Proof. reflexivity. Qed.

Lemma for_each_cons {A S} (body : S -> A -> result S) x l s :
  for_each body (x :: l) s = s' ← body s x; for_each body l s'.
Proof. reflexivity. Qed.

Lemma table_eta {R} (t : table R) : {| rows := rows t; added := added t |} = t.
Proof. by destruct t. Qed.

(** *** the plain daily streams *)

Lemma daily_apply_laws columns :
  (forall x e, daily_upd columns x e = daily_apply (item_date x, columns x, x) e)
  /\ (forall q p e, daily_apply q (daily_apply p e) = daily_apply (daily_comp q p) e)
  /\ (forall p e, daily_apply p (daily_apply p e) = daily_apply p e)
  /\ (forall user now x, daily_upd columns x (daily_mk columns user now x)
                         = daily_mk columns user now x).
Proof.
  repeat split.
  - intros [[[d|] c] r] [[[d'|] c'] r'] e; reflexivity.
  - intros [[[d|] c] r] e; reflexivity.
  - intros user now x. unfold daily_upd, daily_mk, update_daily_row, new_daily_row. simpl.
    by destruct (item_date x).
Qed.

Lemma daily_mk_key columns user now x k :
  item_key x = Some k -> dr_oura_id (daily_mk columns user now x) = k.
Proof.
  unfold item_key. destruct (truthy_str (item_id x)); [|done].
  intros Hk. unfold daily_mk. simpl. by rewrite Hk.
Qed.

Lemma item_ok_alt x :
  item_ok x = match item_key x with
              | Some _ => parses (item_date_of (item_day x))
              | None => true
              end.
Proof.
  unfold item_ok, item_key. destruct (truthy_str (item_id x)) eqn:E; [|done].
  by apply truthy_str_inv in E as (s & -> & _).
Qed.

Lemma item_key_default x k : item_key x = Some k -> default "" (item_id x) = k.
Proof.
  unfold item_key. destruct (truthy_str (item_id x)); [|done]. by intros ->.
Qed.

Lemma daily_step_forced columns user force_today today frd now n t x :
  daily_step columns user true force_today today frd now (n, t) x
  = match item_key x with
    | None => Ok (n, t)
    | Some k =>
        match item_date_of (item_day x) with
        | Raise e => Raise e
        | Ok _ =>
            match rows t !! k with
            | Some e => Ok (n, {| rows := <[k := daily_upd columns x e]> (rows t);
                                  added := added t |})
            | None => Ok (n + 1, {| rows := rows t;
                                    added := added t ++ [daily_mk columns user now x] |})
            end
        end
    end.
Proof.
  unfold daily_step, daily_upd, daily_mk, item_date.
  destruct (item_key x) as [k|] eqn:Ek.
  - rewrite (item_key_default _ _ Ek). unfold item_key in Ek.
    destruct (truthy_str (item_id x)); [|done]. cbn [negb].
    destruct (item_date_of (item_day x)); [|done]. cbn [mbind result_bind value].
    by destruct (rows t !! k).
  - unfold item_key in Ek. destruct (truthy_str (item_id x)) eqn:E; [|done].
    apply truthy_str_inv in E as (s & E & _). congruence.
Qed.

Lemma daily_run columns user force_today today frd now (data : list item) :
  forall n t n' t',
    for_each (daily_step columns user true force_today today frd now) data (n, t)
    = Ok (n', t') ->
    forallb item_ok data = true
    /\ rows t' = run_rows item_key (daily_upd columns) data (rows t)
    /\ added t' = added t ++ run_added item_key (daily_mk columns user now) data (rows t).
Proof.
  induction data as [|x l IH]; intros n t n' t' Hrun.
  - injection Hrun as <- <-. simpl. by rewrite app_nil_r.
  - rewrite for_each_cons, daily_step_forced in Hrun.
    rewrite run_rows_cons, run_added_cons. cbn [forallb]. rewrite item_ok_alt.
    destruct (item_key x) as [k|]; [|by apply IH in Hrun].
    destruct (item_date_of (item_day x)) as [idate|]; [|done].
    destruct (rows t !! k) as [e|] eqn:Er;
      apply IH in Hrun as (Hok & Hrows & Hadded); cbn [rows added parses andb] in *;
      rewrite Hrows, Hadded.
    + repeat split; [done|]. by erewrite run_added_insert.
    + by rewrite <- app_assoc.
Qed.

Lemma daily_again columns user force_today today frd now (data : list item) :
  forall n t,
    forallb item_ok data = true ->
    (forall x k, x ∈ data -> item_key x = Some k -> is_Some (rows t !! k)) ->
    for_each (daily_step columns user true force_today today frd now) data (n, t)
    = Ok (n, {| rows := run_rows item_key (daily_upd columns) data (rows t);
                added := added t |}).
Proof.
  induction data as [|x l IH]; intros n t Hok Hkeys.
  - simpl. by rewrite table_eta.
  - rewrite for_each_cons, daily_step_forced, run_rows_cons.
    cbn [forallb] in Hok. apply andb_true_iff in Hok as [Hx Hok].
    rewrite item_ok_alt in Hx. assert (Hkx := Hkeys x).
    destruct (item_key x) as [k|].
    + destruct (item_date_of (item_day x)) as [idate|]; [|done].
      destruct (Hkx k) as [e Er]; [left | done |]. rewrite Er.
      cbn [mbind result_bind]. rewrite IH; cbn [rows added]; try done.
      intros y k' Hy Hk. apply lookup_insert_is_Some'. right.
      apply (Hkeys y); [by right | done].
    + cbn [mbind result_bind]. apply IH; [done|]. intros y k' Hy. apply Hkeys. by right.
Qed.

Lemma flush_inv {R} (key : R -> string) (t : table R) m :
  flush key t = Ok m ->
  NoDup (key <$> added t) /\ m = commit key (rows t) (added t).
Proof.
  unfold flush. case_bool_decide as Hd; [|done]. intros [= <-]. by destruct Hd.
Qed.

Lemma flush_nil {R} (key : R -> string) (m : gmap string R) :
  flush key {| rows := m; added := [] |} = Ok m.
Proof.
  unfold flush. cbn [added rows]. rewrite bool_decide_eq_true_2; [done|].
  split; constructor.
Qed.

(** A plain daily stream: the rows committed by a forced pass are the rows
    after a second forced pass over the same records, which adds and counts
    nothing. *)
Lemma sync_daily_twice columns user user' (data : list item) force_today force_today'
    today today' frd frd' now now' tbl n1 t1 tbl1 :
  sync_daily columns user data true force_today today frd now tbl = Ok (n1, t1) ->
  flush dr_oura_id t1 = Ok tbl1 ->
  sync_daily columns user' data true force_today' today' frd' now' tbl1
  = Ok (0, {| rows := tbl1; added := [] |}).
Proof.
  unfold sync_daily. intros Hrun Hflush.
  apply daily_run in Hrun as (Hok & Hrows & Hadded). cbn [rows added app] in *.
  apply flush_inv in Hflush as [Hnd ->]. rewrite Hrows, Hadded in *.
  destruct (daily_apply_laws columns) as (L1 & L2 & L3 & L4).
  destruct (forced_pass_fixpoint item_key (daily_upd columns) (daily_mk columns user now)
              dr_oura_id daily_apply daily_comp (fun x => (item_date x, columns x, x))
              L1 L2 L3 (daily_mk_key columns user now) (L4 user now) data tbl Hnd)
    as [Hfix Hkeys].
  rewrite daily_again by done. cbn [rows added]. by rewrite Hfix.
Qed.

(** *** the daily sleep scores *)

Lemma daily_sleep_apply_laws :
  (forall x e, daily_sleep_upd x e
               = daily_sleep_apply (item_date x, item_score x, daily_sleep_contributors x, x) e)
  /\ (forall q p e, daily_sleep_apply q (daily_sleep_apply p e)
                    = daily_sleep_apply (daily_sleep_comp q p) e)
  /\ (forall p e, daily_sleep_apply p (daily_sleep_apply p e) = daily_sleep_apply p e)
  /\ (forall user now x, daily_sleep_upd x (daily_sleep_mk user now x)
                         = daily_sleep_mk user now x).
Proof.
  repeat split.
  - intros [[[[d|] sc] c] r] [[[[d'|] sc'] c'] r'] e; reflexivity.
  - intros [[[[d|] sc] c] r] e; reflexivity.
  - intros user now x.
    unfold daily_sleep_upd, daily_sleep_mk, update_daily_sleep, new_daily_sleep. simpl.
    by destruct (item_date x).
Qed.

Lemma daily_sleep_mk_key user now x k :
  item_key x = Some k -> ds_oura_id (daily_sleep_mk user now x) = k.
Proof. intros Hk. unfold daily_sleep_mk. simpl. by apply item_key_default. Qed.

Lemma daily_sleep_step_forced user force_today today frd now n flag t x :
  daily_sleep_step user true force_today today frd now (n, flag, t) x
  = match item_key x with
    | None => Ok (n, flag, t)
    | Some k =>
        match item_date_of (item_day x) with
        | Raise e => Raise e
        | Ok _ =>
            match rows t !! k with
            | Some e => Ok (n + 1, flag || score_changed (ds_score e) (item_score x),
                            {| rows := <[k := daily_sleep_upd x e]> (rows t);
                               added := added t |})
            | None => Ok (n + 1, true,
                          {| rows := rows t;
                             added := added t ++ [daily_sleep_mk user now x] |})
            end
        end
    end.
Proof.
  unfold daily_sleep_step, daily_sleep_upd, daily_sleep_mk, item_date.
  destruct (item_key x) as [k|] eqn:Ek.
  - rewrite (item_key_default _ _ Ek). unfold item_key in Ek.
    destruct (truthy_str (item_id x)); [|done]. cbn [negb].
    destruct (item_date_of (item_day x)); [|done]. cbn [mbind result_bind value].
    by destruct (rows t !! k).
  - unfold item_key in Ek. destruct (truthy_str (item_id x)) eqn:E; [|done].
    apply truthy_str_inv in E as (s & E & _). congruence.
Qed.

Lemma daily_sleep_run user force_today today frd now (data : list item) :
  forall n flag t n' flag' t',
    for_each (daily_sleep_step user true force_today today frd now) data (n, flag, t)
    = Ok (n', flag', t') ->
    forallb item_ok data = true
    /\ rows t' = run_rows item_key daily_sleep_upd data (rows t)
    /\ added t' = added t ++ run_added item_key (daily_sleep_mk user now) data (rows t).
Proof.
  induction data as [|x l IH]; intros n flag t n' flag' t' Hrun.
  - injection Hrun as <- <- <-. simpl. by rewrite app_nil_r.
  - rewrite for_each_cons, daily_sleep_step_forced in Hrun.
    rewrite run_rows_cons, run_added_cons. cbn [forallb]. rewrite item_ok_alt.
    destruct (item_key x) as [k|]; [|by apply IH in Hrun].
    destruct (item_date_of (item_day x)) as [idate|]; [|done].
    destruct (rows t !! k) as [e|] eqn:Er;
      apply IH in Hrun as (Hok & Hrows & Hadded); cbn [rows added parses andb] in *;
      rewrite Hrows, Hadded.
    + repeat split; [done|]. by erewrite run_added_insert.
    + by rewrite <- app_assoc.
Qed.

Lemma processed_cons x l :
  processed (x :: l) = match item_key x with
                       | Some _ => 1 + processed l
                       | None => processed l
                       end.
Proof.
  unfold processed, item_key. cbn [List.filter].
  destruct (truthy_str (item_id x)) eqn:E.
  - apply truthy_str_inv in E as (s & -> & _). cbn [length]. lia.
  - done.
Qed.

Lemma daily_sleep_again user force_today today frd now (data : list item) :
  forall n flag t,
    forallb item_ok data = true ->
    (forall x k, x ∈ data -> item_key x = Some k -> is_Some (rows t !! k)) ->
    exists flag',
      for_each (daily_sleep_step user true force_today today frd now) data (n, flag, t)
      = Ok (n + processed data, flag',
            {| rows := run_rows item_key daily_sleep_upd data (rows t);
               added := added t |}).
Proof.
  induction data as [|x l IH]; intros n flag t Hok Hkeys.
  - exists flag. simpl. rewrite table_eta. unfold processed. simpl. by rewrite Z.add_0_r.
  - rewrite for_each_cons, daily_sleep_step_forced, run_rows_cons, processed_cons.
    cbn [forallb] in Hok. apply andb_true_iff in Hok as [Hx Hok].
    rewrite item_ok_alt in Hx. assert (Hkx := Hkeys x).
    destruct (item_key x) as [k|].
    + destruct (item_date_of (item_day x)) as [idate|]; [|done].
      destruct (Hkx k) as [e Er]; [left | done |]. rewrite Er.
      cbn [mbind result_bind].
      edestruct (IH (n + 1) (flag || score_changed (ds_score e) (item_score x))
                   {| rows := <[k := daily_sleep_upd x e]> (rows t); added := added t |})
        as [flag' Hrun]; [done | |].
      { intros y k' Hy Hk. apply lookup_insert_is_Some'. right.
        apply (Hkeys y); [by right | done]. }
      exists flag'. rewrite Hrun. cbn [rows added]. by rewrite Z.add_assoc.
    + cbn [mbind result_bind]. apply IH; [done|]. intros y k' Hy. apply Hkeys. by right.
Qed.

Lemma sync_daily_sleep_twice user user' (data : list item) force_today force_today'
    today today' frd frd' now now' tbl n1 flag1 t1 tbl1 :
  _sync_daily_sleep_data user data true force_today today frd now tbl = Ok (n1, flag1, t1) ->
  flush ds_oura_id t1 = Ok tbl1 ->
  exists flag2,
    _sync_daily_sleep_data user' data true force_today' today' frd' now' tbl1
    = Ok (processed data, flag2, {| rows := tbl1; added := [] |}).
Proof.
  unfold _sync_daily_sleep_data. intros Hrun Hflush.
  apply daily_sleep_run in Hrun as (Hok & Hrows & Hadded). cbn [rows added app] in *.
  apply flush_inv in Hflush as [Hnd ->]. rewrite Hrows, Hadded in *.
  destruct daily_sleep_apply_laws as (L1 & L2 & L3 & L4).
  destruct (forced_pass_fixpoint item_key daily_sleep_upd (daily_sleep_mk user now)
              ds_oura_id daily_sleep_apply daily_sleep_comp
              (fun x => (item_date x, item_score x, daily_sleep_contributors x, x))
              L1 L2 L3 (daily_sleep_mk_key user now) (L4 user now) data tbl Hnd)
    as [Hfix Hkeys].
  edestruct (daily_sleep_again user' force_today' today' frd' now' data 0 false
               {| rows := commit ds_oura_id (run_rows item_key daily_sleep_upd data tbl)
                            (run_added item_key (daily_sleep_mk user now) data tbl);
                  added := [] |}) as [flag2 Hagain]; [done | done |].
  exists flag2. rewrite Hagain. cbn [rows added]. by rewrite Hfix.
Qed.

(** *** the sleep periods *)

Lemma pick_sleep_score_patch sm today d keep :
  pick_sleep_score d (summary_of sm d) keep
  = default keep (p_score (sleep_patch_of sm today d)).
Proof.
  unfold pick_sleep_score, sleep_patch_of. cbn [p_score].
  destruct (is_long_sleep (det_type d) && truthy_int (summary_score (summary_of sm d)));
    [done|]. by destruct (det_readiness d).
Qed.

Lemma sleep_apply_laws sm today :
  (forall x e, sleep_upd sm today x e = sleep_apply (sleep_patch_of sm today x) e)
  /\ (forall q p e, sleep_apply q (sleep_apply p e) = sleep_apply (sleep_comp q p) e)
  /\ (forall p e, sleep_apply p (sleep_apply p e) = sleep_apply p e).
Proof.
  repeat split.
  - intros x e. unfold sleep_upd, update_sleep, sleep_apply.
    rewrite (pick_sleep_score_patch sm today). unfold sleep_patch_of. simpl.
    by destruct (det_readiness x).
  - intros q p e. unfold sleep_apply, sleep_comp. simpl.
    by destruct (p_score q), (p_readiness q).
  - intros p e. unfold sleep_apply. simpl.
    by destruct (p_score p), (p_readiness p).
Qed.

Lemma sleep_upd_mk sm user now x :
  sleep_upd sm (hk_date now) x (sleep_mk sm user now x) = sleep_mk sm user now x.
Proof.
  unfold sleep_upd, sleep_mk, update_sleep, new_sleep. simpl. f_equal.
  - unfold pick_sleep_score.
    destruct (is_long_sleep (det_type x) && truthy_int (summary_score (summary_of sm x)));
      [done|]. by destruct (det_readiness x).
  - by destruct (det_readiness x).
  - by destruct (det_readiness x).
Qed.

Lemma detail_key_default x k : detail_key x = Some k -> default "" (det_id x) = k.
Proof.
  unfold detail_key. destruct (truthy_str (det_id x)); [|done]. by intros ->.
Qed.

Lemma sleep_mk_key sm user now x k :
  detail_key x = Some k -> oura_id (sleep_mk sm user now x) = k.
Proof. intros Hk. unfold sleep_mk. simpl. by apply detail_key_default. Qed.

Lemma detail_ok_alt x :
  detail_ok x = match detail_key x with
                | Some _ => parses (item_date_of (det_day x))
                            && parses (bedtime_of (det_bedtime_start x))
                            && parses (bedtime_of (det_bedtime_end x))
                | None => true
                end.
Proof.
  unfold detail_ok, detail_key. destruct (truthy_str (det_id x)) eqn:E; [|done].
  by apply truthy_str_inv in E as (s & -> & _).
Qed.

Lemma sleep_step_forced user sm force_today today frd now n flag t x :
  sleep_step user sm true force_today today frd now (n, flag, t) x
  = match detail_key x with
    | None => Ok (n, flag, t)
    | Some k =>
        _ ← item_date_of (det_day x);
        _ ← bedtime_of (det_bedtime_start x);
        _ ← bedtime_of (det_bedtime_end x);
        match rows t !! k with
        | Some e => Ok (n, flag, {| rows := <[k := sleep_upd sm (hk_date now) x e]> (rows t);
                                    added := added t |})
        | None =>
            dur ← duration_or_zero x;
            Ok (n + 1, flag || (300 <=? dur),
                {| rows := rows t; added := added t ++ [sleep_mk sm user now x] |})
        end
    end.
Proof.
  unfold sleep_step, sleep_upd, sleep_mk, sleep_day_of, start_of, finish_of.
  destruct (detail_key x) as [k|] eqn:Ek.
  - rewrite (detail_key_default _ _ Ek). unfold detail_key in Ek.
    destruct (truthy_str (det_id x)); [|done]. cbn [negb].
    destruct (item_date_of (det_day x)) as [idate|]; [|done].
    cbn [mbind result_bind value].
    destruct (rows t !! k) as [e|].
    + rewrite bool_decide_eq_true_2 by eauto. cbn [negb andb orb].
      destruct (bedtime_of (det_bedtime_start x)); [|done]. cbn [mbind result_bind value].
      by destruct (bedtime_of (det_bedtime_end x)).
    + rewrite bool_decide_eq_false_2 by (by intros [? ?]). cbn [andb].
      destruct (bedtime_of (det_bedtime_start x)); [|done]. cbn [mbind result_bind value].
      by destruct (bedtime_of (det_bedtime_end x)).
  - unfold detail_key in Ek. destruct (truthy_str (det_id x)) eqn:E; [|done].
    apply truthy_str_inv in E as (s & E & _). congruence.
Qed.

Lemma sleep_run user sm force_today today frd now (data : list detail) :
  forall n flag t n' flag' t',
    for_each (sleep_step user sm true force_today today frd now) data (n, flag, t)
    = Ok (n', flag', t') ->
    forallb detail_ok data = true
    /\ rows t' = run_rows detail_key (sleep_upd sm (hk_date now)) data (rows t)
    /\ added t' = added t ++ run_added detail_key (sleep_mk sm user now) data (rows t).
Proof.
  induction data as [|x l IH]; intros n flag t n' flag' t' Hrun.
  - injection Hrun as <- <- <-. simpl. by rewrite app_nil_r.
  - rewrite for_each_cons, sleep_step_forced in Hrun.
    rewrite run_rows_cons, run_added_cons. cbn [forallb]. rewrite detail_ok_alt.
    destruct (detail_key x) as [k|]; [|by apply IH in Hrun].
    destruct (item_date_of (det_day x)) as [idate|]; [|done].
    destruct (bedtime_of (det_bedtime_start x)) as [start|]; [|done].
    destruct (bedtime_of (det_bedtime_end x)) as [finish|]; [|done].
    cbn [mbind result_bind] in Hrun.
    destruct (rows t !! k) as [e|] eqn:Er.
    + apply IH in Hrun as (Hok & Hrows & Hadded). cbn [rows added parses andb] in *.
      rewrite Hrows, Hadded. repeat split; [done|]. by erewrite run_added_insert.
    + destruct (duration_or_zero x) as [dur|]; [|done]. cbn [mbind result_bind] in Hrun.
      apply IH in Hrun as (Hok & Hrows & Hadded). cbn [rows added parses andb] in *.
      rewrite Hrows, Hadded. by rewrite <- app_assoc.
Qed.

Lemma sleep_again user sm force_today today frd now (data : list detail) :
  forall n flag t,
    forallb detail_ok data = true ->
    (forall x k, x ∈ data -> detail_key x = Some k -> is_Some (rows t !! k)) ->
    for_each (sleep_step user sm true force_today today frd now) data (n, flag, t)
    = Ok (n, flag, {| rows := run_rows detail_key (sleep_upd sm (hk_date now)) data (rows t);
                      added := added t |}).
Proof.
  induction data as [|x l IH]; intros n flag t Hok Hkeys.
  - simpl. by rewrite table_eta.
  - rewrite for_each_cons, sleep_step_forced, run_rows_cons.
    cbn [forallb] in Hok. apply andb_true_iff in Hok as [Hx Hok].
    rewrite detail_ok_alt in Hx. assert (Hkx := Hkeys x).
    destruct (detail_key x) as [k|].
    + destruct (item_date_of (det_day x)) as [idate|]; [|done].
      destruct (bedtime_of (det_bedtime_start x)) as [start|]; [|done].
      destruct (bedtime_of (det_bedtime_end x)) as [finish|]; [|done].
      destruct (Hkx k) as [e Er]; [left | done |]. rewrite Er.
      cbn [mbind result_bind]. rewrite IH; cbn [rows added]; try done.
      intros y k' Hy Hk. apply lookup_insert_is_Some'. right.
      apply (Hkeys y); [by right | done].
    + cbn [mbind result_bind]. apply IH; [done|]. intros y k' Hy. apply Hkeys. by right.
Qed.

Lemma sync_sleep_twice user user' (sleep_data : list item) (data : list detail)
    force_today force_today' today today' frd frd' now now' tbl n1 flag1 t1 tbl1 :
  hk_date now' = hk_date now ->
  _sync_sleep_data user sleep_data data true force_today today frd now tbl
  = Ok (n1, flag1, t1) ->
  flush oura_id t1 = Ok tbl1 ->
  _sync_sleep_data user' sleep_data data true force_today' today' frd' now' tbl1
  = Ok (0, false, {| rows := tbl1; added := [] |}).
Proof.
  unfold _sync_sleep_data. intros Hday Hrun Hflush.
  apply sleep_run in Hrun as (Hok & Hrows & Hadded). cbn [rows added app] in *.
  apply flush_inv in Hflush as [Hnd ->]. rewrite Hrows, Hadded in *.
  destruct (sleep_apply_laws (summary_map_of sleep_data) (hk_date now)) as (L1 & L2 & L3).
  destruct (forced_pass_fixpoint detail_key (sleep_upd (summary_map_of sleep_data) (hk_date now))
              (sleep_mk (summary_map_of sleep_data) user now) oura_id sleep_apply sleep_comp
              (sleep_patch_of (summary_map_of sleep_data) (hk_date now))
              L1 L2 L3 (sleep_mk_key (summary_map_of sleep_data) user now)
              (sleep_upd_mk (summary_map_of sleep_data) user now) data tbl Hnd)
    as [Hfix Hkeys].
  rewrite sleep_again by done. cbn [rows added]. by rewrite Hday, Hfix.
Qed.

(** *** the nine streams and the commit *)

Ltac bind_inv H :=
  match type of H with
  | (?m ≫= _) = Ok _ =>
      let E := fresh "E" in
      destruct m eqn:E; [cbn [mbind result_bind] in H | discriminate H];
      repeat match goal with x : (_ * _)%type |- _ => destruct x end
  end.

Lemma entities_eq db db' :
  entities db = entities db' ->
  oura_sleep db = oura_sleep db' /\ oura_daily_sleep db = oura_daily_sleep db'
  /\ oura_daily_readiness db = oura_daily_readiness db'
  /\ oura_daily_activity db = oura_daily_activity db'
  /\ oura_daily_stress db = oura_daily_stress db'
  /\ oura_daily_spo2 db = oura_daily_spo2 db'
  /\ oura_cardiovascular_age db = oura_cardiovascular_age db'
  /\ oura_resilience db = oura_resilience db'
  /\ oura_vo2_max db = oura_vo2_max db'.
Proof. unfold entities, set_oura_auth. intros [= ]. by repeat split. Qed.

(** After a forced pass that committed, a second forced pass over the same
    answer of the vendor, on the same local day, commits the same nine
    tables and returns [forced_stats]. *)
Lemma reconcile_twice user data force_today force_today' frd frd' now now' db dbx
    stats1 change1 db1 :
  hk_date now' = hk_date now ->
  reconcile user data true force_today frd now db = Ok (stats1, change1, db1) ->
  entities dbx = entities db1 ->
  exists change2 db2,
    reconcile user data true force_today' frd' now' dbx
    = Ok (forced_stats data, change2, db2)
    /\ entities db2 = entities db1.
Proof.
  intros Hday Hrun Hent. unfold reconcile in Hrun.
  do 18 bind_inv Hrun. injection Hrun as _ _ <-.
  apply entities_eq in Hent as (T1 & T2 & T3 & T4 & T5 & T6 & T7 & T8 & T9).
  cbn [oura_sleep oura_daily_sleep oura_daily_readiness oura_daily_activity
       oura_daily_stress oura_daily_spo2 oura_cardiovascular_age oura_resilience
       oura_vo2_max] in *.
  unfold reconcile. rewrite T1, T2, T3, T4, T5, T6, T7, T8, T9.
  erewrite sync_sleep_twice by done. cbn [mbind result_bind].
  edestruct sync_daily_sleep_twice as [flag2 ->]; [done | done |]. cbn [mbind result_bind].
  unfold _sync_readiness_data, _sync_activity_data, _sync_stress_data, _sync_spo2_data,
    _sync_cardiovascular_age_data, _sync_resilience_data, _sync_vo2_max_data in *.
  do 7 (erewrite sync_daily_twice by done; cbn [mbind result_bind]).
  rewrite !flush_nil. cbn [mbind result_bind].
  do 2 eexists. split; [reflexivity|]. reflexivity.
Qed.

End ForcedFacts.

(** ** Two forced passes of [sync_user_data] *)

Section SyncFacts.
Import OuraSync Forced.
Context `{IsoParsers} `{OuraClient}.

Lemma get_access_token_entities user now db :
  entities (get_access_token user now db).2 = entities db.
Proof.
  unfold get_access_token.
  destruct (oura_auth db !! user) as [auth|]; [|done].
  destruct (negb (is_active auth && truthy_str (access_token auth))); [done|].
  destruct (token_expired auth now); [|done].
  destruct (truthy_str (refresh_token auth)); [|done].
  by destruct (refresh_access_token (default "" (refresh_token auth))).
Qed.

Lemma token_expired_later auth now now' :
  now <= now' -> token_expired auth now = true -> token_expired auth now' = true.
Proof.
  unfold token_expired. destruct (token_expires_at auth) as [e|]; [|done].
  rewrite !Z.ltb_lt. lia.
Qed.

(** A pass that found no token leaves a database in which a later pass
    finds none either. *)
Lemma no_token_again user now now' db tok db1 :
  now <= now' ->
  get_access_token user now db = (tok, db1) -> truthy_str tok = false ->
  exists tok', get_access_token user now' db1 = (tok', db1) /\ truthy_str tok' = false.
Proof.
  intros Hle. unfold get_access_token.
  destruct (oura_auth db !! user) as [auth|] eqn:Eauth.
  - destruct (negb (is_active auth && truthy_str (access_token auth))) eqn:Eact.
    + intros [= <- <-] _. exists None. by rewrite Eauth, Eact.
    + destruct (token_expired auth now) eqn:Eexp.
      * destruct (truthy_str (refresh_token auth)) eqn:Eref.
        -- destruct (refresh_access_token (default "" (refresh_token auth))) as [td|] eqn:Etd.
           ++ intros [= <- <-] Hno. exists None. cbn [oura_auth set_oura_auth].
              rewrite lookup_insert_eq. cbn [refreshed_auth is_active access_token].
              by rewrite Hno, andb_false_r.
           ++ intros [= <- <-] _. exists None.
              by rewrite Eauth, Eact, (token_expired_later _ _ _ Hle Eexp), Eref, Etd.
        -- intros [= <- <-] _. exists None.
           by rewrite Eauth, Eact, (token_expired_later _ _ _ Hle Eexp), Eref.
      * intros [= <- <-] Hno. apply negb_false_iff, andb_true_iff in Eact as [_ Eact].
        congruence.
  - intros [= <- <-] _. exists None. by rewrite Eauth.
Qed.

(** C1, as the code has it.  When a forced pass has returned, a second
    forced pass on the same local day, for which the vendor answers the
    same, returns too and leaves the nine entity tables as the first pass
    committed them: no row is added.  Its statistics are empty when it finds
    no token, and otherwise are 0 for every stream but the daily sleep
    scores, whose count is the number of records with an id, which it has
    rewritten. *)
Theorem forced_sync_twice user days force_today force_today' frd frd' now now' db
    stats1 db1 :
  (forall tok tok' s e, get_all_daily_data tok s e = get_all_daily_data tok' s e) ->
  hk_date now' = hk_date now -> now <= now' ->
  sync_user_data user days true force_today frd now db = (Returned stats1, db1) ->
  exists stats2 db2,
    sync_user_data user days true force_today' frd' now' db1 = (Returned stats2, db2)
    /\ entities db2 = entities db1
    /\ (stats2 = ∅
        \/ stats2 = forced_stats
                      (get_all_daily_data "" (hk_date now - (days - 1)) (hk_date now + 1))).
Proof.
  intros Hvendor Hday Hle. unfold sync_user_data.
  destruct (get_access_token user now db) as [tok dbt] eqn:Etok.
  destruct (truthy_str tok) eqn:Htok; cbn [negb].
  - destruct (reconcile user _ true force_today frd now dbt) as [[[stats change] dbr]|] eqn:Erun;
      [|done].
    intros [= <- <-].
    pose proof (get_access_token_entities user now' dbr) as Hent.
    destruct (get_access_token user now' dbr) as [tok2 dbt2]. cbn [snd] in Hent.
    destruct (truthy_str tok2); cbn [negb].
    + rewrite Hday, (Hvendor _ (default "" tok)).
      destruct (reconcile_twice user _ force_today force_today' frd frd' now now' dbt dbt2
                  stats change dbr Hday Erun Hent) as (change2 & db2 & -> & Hent2).
      eexists _, _. split; [reflexivity|]. split; [done|]. right.
      by rewrite (Hvendor _ "").
    + eexists _, _. split; [reflexivity|]. split; [done|]. by left.
  - intros [= <- <-].
    destruct (no_token_again user now now' db tok dbt Hle Etok Htok) as (tok' & -> & ->).
    eexists _, _. split; [reflexivity|]. split; [done|]. by left.
Qed.

End SyncFacts.

(** ** Two forced passes on a concrete day *)

Section SyncExamples.
Import OuraSync Forced Fixtures.

(** The reading of C1 with every count at zero fails: the daily sleep
    stream counts, in the second pass, the row it rewrites. *)
Lemma second_pass_counts_rewritten_scores :
  ~ @ZeroCounts.idempotent_with_zero_counts strict_iso (vendor one_day) 1 3 noon
      (authorised (noon + 86400)).
Proof.
  intros Hall.
  destruct (Hall (list_to_map
                      [("sleep", 1); ("daily_sleep", 1); ("readiness", 1); ("activity", 0);
                       ("stress", 0); ("spo2", 0); ("cardiovascular_age", 0);
                       ("resilience", 0); ("vo2_max", 0)]))
    as (_ & stats2 & Hsecond & Hzero).
  - vm_compute. reflexivity.
  - assert (Hcount : stats2 !! "daily_sleep" = Some 1).
    { vm_compute in Hsecond. injection Hsecond as <-. vm_compute. reflexivity. }
    apply Hzero in Hcount. discriminate.
Qed.

Lemma forced_sync_twice_witness :
  let first := @sync_user_data strict_iso (vendor one_day) 1 3 true false 0 noon
                 (authorised (noon + 86400)) in
  exists stats2 db2,
    @sync_user_data strict_iso (vendor one_day) 1 3 true false 0 (noon + 60) first.2
    = (Returned stats2, db2)
    /\ entities db2 = entities first.2
    /\ (stats2 = ∅
        \/ stats2 = forced_stats
                      (@get_all_daily_data (vendor one_day) "" (hk_date noon - (3 - 1))
                         (hk_date noon + 1))).
Proof.
  intros first.
  apply (@forced_sync_twice strict_iso (vendor one_day) 1 3 false false 0 0 noon (noon + 60)
           (authorised (noon + 86400))
           (list_to_map
              [("sleep", 1); ("daily_sleep", 1); ("readiness", 1); ("activity", 0);
               ("stress", 0); ("spo2", 0); ("cardiovascular_age", 0);
               ("resilience", 0); ("vo2_max", 0)])
           first.2).
  - intros. reflexivity.
  - reflexivity.
  - lia.
  - vm_compute. reflexivity.
Defined.

Example second_forced_pass_statistics :
  let first := @sync_user_data strict_iso (vendor one_day) 1 3 true false 0 noon
                 (authorised (noon + 86400)) in
  (@sync_user_data strict_iso (vendor one_day) 1 3 true false 0 (noon + 60) first.2).1
  = Returned (forced_stats one_day)
  /\ forced_stats one_day !! "daily_sleep" = Some 1
  /\ forced_stats one_day !! "sleep" = Some 0
  /\ forced_stats one_day !! "readiness" = Some 0.
Proof. repeat split; vm_compute; reflexivity. Qed.

End SyncExamples.

(** ** Ranges *)

Section RangeFacts.
Import Range.

Lemma elem_of_Zrange (n : nat) : forall lo z, lo <= z < lo + Z.of_nat n -> z ∈ Zrange lo n.
Proof.
  induction n as [|n IH]; intros lo z Hz; [lia|].
  cbn [Zrange]. destruct (decide (z = lo)) as [->|Hne]; [left|].
  right. apply IH. lia.
Qed.

Lemma forallb_Zrange (f : Z -> bool) (lo : Z) (n : nat) :
  forallb f (Zrange lo n) = true -> forall z, lo <= z < lo + Z.of_nat n -> f z = true.
Proof.
  intros Hall z Hz. rewrite forallb_forall in Hall. apply Hall.
  apply list_elem_of_In, elem_of_Zrange, Hz.
Qed.

End RangeFacts.

(** ** More on the sleep-debt estimator *)

Section SleepMetricsMore.
Import SleepMetrics SleepSummary Range.
Local Open Scope list_scope.
Context `{NumPy}.

Lemma balance_of_table :
  forallb (fun z => (balance_of (z + 1) <=? balance_of z)
                    && (0 <=? balance_of z) && (balance_of z <=? 100))
    (Zrange (-61) 182) = true.
Proof. vm_compute. reflexivity. Qed.

Lemma balance_of_step (z : Z) :
  balance_of (z + 1) <= balance_of z /\ 0 <= balance_of z <= 100.
Proof.
  destruct (decide (-61 <= z < 121)) as [Hin|Hout].
  - pose proof (forallb_Zrange _ _ _ balance_of_table z) as Hz.
    rewrite !andb_true_iff in Hz. destruct Hz as [[H1 H2] H3]; [lia|]. lia.
  - unfold balance_of.
    destruct (decide (z < -61)) as [Hlo|Hhi].
    + replace (z + 1 <=? -60) with true by lia. replace (z <=? -60) with true by lia. lia.
    + replace (z + 1 <=? -60) with false by lia. replace (z <=? -60) with false by lia.
      replace (120 <=? z + 1) with true by lia. replace (120 <=? z) with true by lia. lia.
Qed.

(** X1.  the balance score is between 0 and 100, is 100 from an hour of
    surplus on, 0 from two hours of debt on, 85 without debt, and never
    grows with the debt. *)
Theorem balance_score_range_and_monotone (debt debt' : Z) :
  0 <= balance_of debt <= 100
  /\ (debt <= -60 -> balance_of debt = 100)
  /\ (120 <= debt -> balance_of debt = 0)
  /\ balance_of 0 = 85
  /\ (debt <= debt' -> balance_of debt' <= balance_of debt).
Proof.
  split; [apply balance_of_step|].
  split; [intros Hd; unfold balance_of; replace (debt <=? -60) with true by lia; done|].
  split; [intros Hd; unfold balance_of; replace (debt <=? -60) with false by lia;
          replace (120 <=? debt) with true by lia; done|].
  split; [vm_compute; reflexivity|].
  intros Hle.
  replace debt' with (debt + Z.of_nat (Z.to_nat (debt' - debt))) by lia.
  generalize (Z.to_nat (debt' - debt)) as k. intros k.
  induction k as [|k IH]; [rewrite Z.add_0_r; lia|].
  replace (debt + Z.of_nat (S k)) with (debt + Z.of_nat k + 1) by lia.
  pose proof (balance_of_step (debt + Z.of_nat k)). lia.
Qed.

Lemma filter_filter_implied {A} (f g : A -> bool) (l : list A) :
  (forall x, f x = true -> g x = true) ->
  List.filter f (List.filter g l) = List.filter f l.
Proof.
  intros Himp. induction l as [|x l IH]; [done|].
  cbn [List.filter]. destruct (g x) eqn:Hg.
  - cbn [List.filter]. destruct (f x); by rewrite IH.
  - destruct (f x) eqn:Hf; [|done]. apply Himp in Hf. congruence.
Qed.

(** the rows of [user] in the 90 days that end on [target] *)
Lemma debt_report_locality_aux table user target :
  let window := List.filter (fun r => bool_decide (user_id r = user)
                                      && (target - 89 <=? day r) && (day r <=? target)) table in
  baseline_rows window user target = baseline_rows table user target
  /\ debt_rows window user target = debt_rows table user target.
Proof.
  intros window. unfold baseline_rows, debt_rows, window. split.
  - apply filter_filter_implied. intros x. unfold baseline_where.
    rewrite !andb_true_iff. tauto.
  - f_equal. apply filter_filter_implied. intros x. unfold debt_where.
    rewrite !andb_true_iff. intros [[[? ?%Z.leb_le] ?] ?].
    split; [split; [done|]|done]. apply Z.leb_le. lia.
Qed.

(** X2.  the report depends on the rows of the user in the 90 days that end
    on the target date only: rows of other users, older rows and rows of
    later days change nothing. *)
Theorem sleep_debt_reads_the_user_window_only table user target_date now :
  let target := default (hk_date now) target_date in
  calculate_sleep_debt
    (List.filter (fun r => bool_decide (user_id r = user)
                           && (target - 89 <=? day r) && (day r <=? target)) table)
    user target_date now
  = calculate_sleep_debt table user target_date now.
Proof.
  intros target. unfold calculate_sleep_debt, _calculate_baseline_sleep.
  fold target.
  destruct (debt_report_locality_aux table user target) as [-> ->]. reflexivity.
Qed.

(** X3.  the trend reads the seven most recent nights only, and is "stable"
    with fewer than seven. *)
Theorem trend_reads_seven_nights (sleep_records : list OuraSleep) :
  trend_of sleep_records = trend_of (take 7 sleep_records)
  /\ ((length sleep_records < 7)%nat -> trend_of sleep_records = "stable").
Proof.
  split.
  - unfold trend_of. rewrite length_take.
    destruct (7 <=? length sleep_records)%nat eqn:Hlen.
    + apply Nat.leb_le in Hlen.
      replace (7 <=? 7 `min` length sleep_records)%nat with true
        by (symmetry; apply Nat.leb_le; lia).
      rewrite take_take. replace (3 `min` 7)%nat with 3%nat by lia.
      replace (take 4 (drop 3 (take 7 sleep_records))) with (take 4 (drop 3 sleep_records));
        [done|].
      rewrite (skipn_firstn_comm 3 7 sleep_records). cbn [Nat.sub].
      rewrite take_take. reflexivity.
    + apply Nat.leb_gt in Hlen.
      replace (7 <=? 7 `min` length sleep_records)%nat with false
        by (symmetry; apply Nat.leb_gt; lia).
      reflexivity.
  - intros Hlen. unfold trend_of.
    replace (7 <=? length sleep_records)%nat with false by (symmetry; apply Nat.leb_gt; lia).
    reflexivity.
Qed.

Lemma filter_two {A} (f : A -> bool) (l1 l2 l3 : list A) (a b : A) :
  f a = true -> f b = true ->
  exists x y rest, List.filter f (l1 ++ a :: l2 ++ b :: l3) = x :: y :: rest.
Proof.
  intros Ha Hb. rewrite List.filter_app. cbn [List.filter]. rewrite Ha.
  rewrite List.filter_app. cbn [List.filter]. rewrite Hb.
  destruct (List.filter f l1) as [|x [|y rest]]; cbn [app].
  - destruct (List.filter f l2) as [|y rest]; cbn [app]; eauto.
  - destruct (List.filter f l2) as [|y rest]; cbn [app]; eauto.
  - eauto.
Qed.

(** X4.  the summary of a day needs exactly one row of the user on that day:
    with none it is [None], and with two, as a main sleep and a nap that end
    on the same day, the lookup raises [MultipleResultsFound]. *)
Theorem summary_needs_one_row_of_the_day table user target_date now :
  let target := default (hk_date now) target_date in
  (get_sleep_summary table user target_date now = ReturnsNone
   <-> forall r, r ∈ table -> user_id r = user -> day r <> target)
  /\ (forall l1 l2 l3 a b,
        table = l1 ++ a :: l2 ++ b :: l3 ->
        user_id a = user -> day a = target -> user_id b = user -> day b = target ->
        get_sleep_summary table user target_date now = MultipleResultsFound)
  /\ (forall s, get_sleep_summary table user target_date now = Returns s ->
        ss_date s = target
        /\ ss_sleep_debt s = calculate_sleep_debt table user target_date now
        /\ exists r, r ∈ table /\ user_id r = user /\ day r = target
                     /\ ss_sleep_score s = sleep_score r).
Proof.
  intros target. unfold get_sleep_summary. fold target.
  set (f := fun r : OuraSleep => bool_decide (user_id r = user) && (day r =? target)).
  assert (Hf : forall r, f r = true <-> user_id r = user /\ day r = target).
  { intros r. unfold f. rewrite andb_true_iff, bool_decide_eq_true, Z.eqb_eq. done. }
  split; [|split].
  - split.
    + intros Hnone r Hr Hu Hd.
      assert (Hin : r ∈ List.filter f table).
      { apply list_elem_of_In, filter_In. split; [by apply list_elem_of_In|]. by apply Hf. }
      destruct (List.filter f table) as [|x [|y rest]]; [|done..].
      by apply elem_of_nil in Hin.
    + intros Hnone. destruct (List.filter f table) as [|x rest] eqn:E; [done|].
      assert (Hin : In x (List.filter f table)) by (rewrite E; left; done).
      apply filter_In in Hin as [Hin Hx]. apply Hf in Hx as [Hu Hd].
      exfalso. eapply Hnone; [by apply list_elem_of_In| |]; done.
  - intros l1 l2 l3 a b -> Hua Hda Hub Hdb.
    destruct (filter_two f l1 l2 l3 a b) as (x & y & rest & ->); [by apply Hf..|done].
  - intros s. destruct (List.filter f table) as [|x [|y rest]] eqn:E; [done| |done].
    intros [= <-]. cbn.
    assert (Hin : In x (List.filter f table)) by (rewrite E; left; done).
    apply filter_In in Hin as [Hin Hx]. apply Hf in Hx as [Hu Hd].
    split; [done|]. split.
    + unfold calculate_sleep_debt. cbn [default]. fold target.
      destruct target_date; reflexivity.
    + exists x. split; [by apply list_elem_of_In|done].
Qed.

End SleepMetricsMore.

(** ** The readers of [api/v1/oura.py] *)

Section ReadersFacts.
Import OuraApi OuraReaders Range.
Local Open Scope list_scope.

Lemma sec_to_min_table :
  forallb (fun s => match sec_to_min (Some s) with
                    | Some m => m =? (s + 30) / 60
                    | None => false
                    end) (Zrange 0 (Z.to_nat 86401)) = true.
Proof. vm_compute. reflexivity. Qed.

Lemma sec_to_min_half_up (s : Z) :
  0 <= s <= 86400 ->
  int_of (PrimFloat.add (PrimFloat.div (float_of_Z s) 60%float) 0.5%float) = (s + 30) / 60.
Proof.
  intros Hs. pose proof (forallb_Zrange _ _ _ sec_to_min_table s) as Hz.
  cbn [sec_to_min fmap option_fmap option_map] in Hz.
  apply Z.eqb_eq, Hz. lia.
Qed.

(** X5.  up to a day of seconds, [sec_to_min] is the rounding to the
    nearest minute with halves up, [(s + 30) // 60], and the total of a day
    in the grouped response is rounded in the same way. *)
Theorem minutes_round_half_up (s : Z) (d : date) (group : list OuraSleep) :
  (0 <= s <= 86400 -> sec_to_min (Some s) = Some ((s + 30) / 60))
  /\ sec_to_min None = None
  /\ (0 <= total_duration (daily_response d group) <= 86400 ->
      total_duration_minutes (daily_response d group)
      = (total_duration (daily_response d group) + 30) / 60).
Proof.
  split; [|split; [done|]].
  - intros Hs. cbn [sec_to_min fmap option_fmap option_map]. f_equal.
    by apply sec_to_min_half_up.
  - cbn [daily_response total_duration total_duration_minutes].
    set (total := foldr Z.add 0 _). intros Ht.
    destruct (total =? 0) eqn:E; [apply Z.eqb_eq in E; rewrite E; done|].
    by apply sec_to_min_half_up.
Qed.

(** the sum of the deltas of the segments of day [d] *)
Lemma nap_boost_by_day_sum (sleep_records : list OuraSleep) (d : date) :
  forall m : gmap Z Z,
    default 0 (foldl (fun m s =>
                        if truthy_int (readiness_score_delta s)
                        then <[day s := default 0 (m !! day s)
                                        + default 0 (readiness_score_delta s)]> m
                        else m) m sleep_records !! d)
    = default 0 (m !! d)
      + foldr Z.add 0 ((fun s => default 0 (readiness_score_delta s))
                         <$> List.filter (fun s => day s =? d) sleep_records).
Proof.
  induction sleep_records as [|s l IH]; intros m; [cbn; lia|].
  cbn [foldl List.filter]. rewrite IH.
  destruct (day s =? d) eqn:Hd.
  - apply Z.eqb_eq in Hd. rewrite fmap_cons. cbn [foldr].
    destruct (truthy_int (readiness_score_delta s)) eqn:Ht.
    + rewrite Hd, lookup_insert_eq. cbn [default from_option id]. unfold id. lia.
    + assert (default 0 (readiness_score_delta s) = 0) as ->; [|lia].
      unfold truthy_int in Ht. destruct (readiness_score_delta s) as [n|]; [|done].
      apply negb_false_iff, Z.eqb_eq in Ht. by subst.
  - apply Z.eqb_neq in Hd.
    destruct (truthy_int (readiness_score_delta s)); [|done].
    by rewrite lookup_insert_ne.
Qed.

(** X6.  in the readiness reader the base score of a day is its score minus
    the readiness deltas of all the segments of the user that day; the
    boost is reported when this sum is positive only, so the reported
    members add up to the score exactly when the sum is not negative. *)
Theorem readiness_base_score_and_boost readiness_table sleep_table user days now
    (resp : ReadinessRecordResponse) :
  resp ∈ get_readiness_data readiness_table sleep_table user days now ->
  let deltas :=
    foldr Z.add 0
      ((fun s => default 0 (readiness_score_delta s))
         <$> List.filter (fun s => day s =? rr_day resp)
               (List.filter (fun r => bool_decide (user_id r = user)
                                      && (hk_date now - days <=? day r)) sleep_table)) in
  rr_record resp ∈ readiness_table
  /\ dr_user_id (rr_record resp) = user
  /\ rr_base_score resp = (fun s => s - deltas) <$> rr_score resp
  /\ rr_nap_boost resp = (if 0 <? deltas then Some deltas else None)
  /\ (forall s b, rr_score resp = Some s -> rr_base_score resp = Some b ->
        (s = b + default 0 (rr_nap_boost resp) <-> 0 <= deltas)).
Proof.
  intros Hin deltas. unfold get_readiness_data in Hin.
  apply list_elem_of_fmap in Hin as (r & -> & Hr).
  rewrite sort_by_perm in Hr.
  apply list_elem_of_In, filter_In in Hr as [Hr Hf].
  apply andb_true_iff in Hf as [Hu _]. apply bool_decide_eq_true in Hu.
  cbn [readiness_response rr_record rr_base_score rr_nap_boost rr_score rr_day] in *.
  unfold nap_boost_by_day. rewrite nap_boost_by_day_sum.
  rewrite lookup_empty. cbn [default]. rewrite Z.add_0_l. fold deltas.
  split; [by apply list_elem_of_In|]. split; [done|]. split; [done|]. split; [done|].
  intros s b Hs Hb. rewrite Hs in Hb. cbn in Hb. injection Hb as <-.
  destruct (0 <? deltas) eqn:E; cbn [default from_option id]; unfold id.
  - apply Z.ltb_lt in E. lia.
  - apply Z.ltb_ge in E. lia.
Qed.

End ReadersFacts.

(** ** The weeks of [datetime_helper.py] *)

Section WeekFacts.
Import DatetimeHelper.

(** X7.  the week of a date runs from a Monday to the Sunday six days later,
    contains the date, and is the week of each of its days. *)
Theorem week_runs_monday_to_sunday (dt dt' : date) :
  weekday (get_week_start dt) = 0
  /\ weekday (get_week_end dt) = 6
  /\ get_week_end dt = get_week_start dt + 6
  /\ get_week_start dt <= dt <= get_week_end dt
  /\ (get_week_start dt <= dt' <= get_week_end dt ->
      get_week_start dt' = get_week_start dt /\ get_week_end dt' = get_week_end dt).
Proof.
  unfold get_week_start, get_week_end, weekday.
  pose proof (Z.mod_pos_bound (dt + 3) 7 ltac:(lia)) as Hb.
  pose proof (Z.div_mod (dt + 3) 7 ltac:(lia)) as Hd.
  assert (Hs : (dt - (dt + 3) mod 7 + 3) mod 7 = 0).
  { replace (dt - (dt + 3) mod 7 + 3) with (7 * ((dt + 3) / 7)) by lia.
    rewrite Z.mul_comm. apply Z.mod_mul. lia. }
  split; [done|]. split.
  { replace (dt + (6 - (dt + 3) mod 7) + 3) with (6 + ((dt + 3) / 7) * 7) by lia.
    rewrite Z.mod_add by lia. done. }
  split; [lia|]. split; [lia|].
  intros Hin.
  assert (Hq : (dt' + 3) / 7 = (dt + 3) / 7).
  { symmetry. apply (Z.div_unique (dt' + 3) 7 _ (dt' + 3 - 7 * ((dt + 3) / 7))); lia. }
  pose proof (Z.div_mod (dt' + 3) 7 ltac:(lia)) as Hd'.
  rewrite Hq in Hd'. lia.
Qed.

End WeekFacts.

(** ** The grouped reader, as a whole *)

Section GroupedFacts.
Import OuraApi.
Local Open Scope list_scope.

Lemma Sorted_weaken {A} (R S : A -> A -> Prop) (l : list A) :
  (forall a b, R a b -> S a b) -> Sorted R l -> Sorted S l.
Proof.
  intros HRS. induction 1 as [|a l _ IH Hhd]; constructor; [done|].
  destruct Hhd; constructor. by apply HRS.
Qed.

Lemma sort_by_strongly_sorted {A} (le : A -> A -> bool) (R : A -> A -> Prop) (l : list A) :
  (forall a b, le a b = false -> le b a = true) ->
  (forall a b, le a b = true -> R a b) ->
  (forall a b c, R a b -> R b c -> R a c) ->
  StronglySorted R (Query.sort_by le l).
Proof.
  intros Htotal HR Htrans. apply Sorted_StronglySorted; [exact Htrans|].
  eapply Sorted_weaken; [exact HR|]. by apply sort_by_sorted.
Qed.

Lemma query_order_total (a b : OuraSleep) :
  query_order a b = false -> query_order b a = true.
Proof.
  unfold query_order. destruct (day a =? day b) eqn:E.
  - apply Z.eqb_eq in E. replace (day b =? day a) with true by (symmetry; apply Z.eqb_eq; lia).
    destruct (total_sleep_duration a), (total_sleep_duration b); try done.
    rewrite Z.leb_gt, Z.leb_le. lia.
  - apply Z.eqb_neq in E. replace (day b =? day a) with false by (symmetry; apply Z.eqb_neq; lia).
    rewrite Z.ltb_ge, Z.ltb_lt. lia.
Qed.

Lemma query_order_day (a b : OuraSleep) : query_order a b = true -> day b <= day a.
Proof.
  unfold query_order. destruct (day a =? day b) eqn:E.
  - apply Z.eqb_eq in E. lia.
  - rewrite Z.ltb_lt. lia.
Qed.

Lemma StronglySorted_filter {A} (R : A -> A -> Prop) (f : A -> bool) (l : list A) :
  StronglySorted R l -> StronglySorted R (List.filter f l).
Proof.
  induction 1 as [|a l Hs IH Hall]; [constructor|].
  cbn [List.filter]. destruct (f a); [|done].
  constructor; [done|]. rewrite List.Forall_forall in *.
  intros x Hx. apply filter_In in Hx as [Hx _]. by apply Hall.
Qed.

Lemma elem_of_distinct_days (records : list OuraSleep) (d : date) :
  d ∈ distinct_days records <-> exists r, r ∈ records /\ day r = d.
Proof.
  induction records as [|r l IH]; cbn [distinct_days].
  - split; [by intros ?%elem_of_nil | by intros (? & ?%elem_of_nil & _)].
  - rewrite elem_of_cons, mem_filter, IH.
    rewrite negb_true_iff, Z.eqb_neq. split.
    + intros [->|[(x & Hx & <-) _]];
        [exists r; split; [left|done] |exists x; split; [by right|done]].
    + intros (x & [->|Hx]%elem_of_cons & <-); [by left|].
      destruct (decide (day x = day r)) as [E|E]; [by left|right]. split; [by exists x|done].
Qed.

Lemma distinct_days_descend (records : list OuraSleep) :
  StronglySorted (fun a b => day b <= day a) records ->
  StronglySorted (fun a b => b < a) (distinct_days records).
Proof.
  induction 1 as [|r l Hs IH Hall]; [constructor|].
  cbn [distinct_days]. constructor; [by apply StronglySorted_filter|].
  rewrite List.Forall_forall in *. intros d Hd.
  apply filter_In in Hd as [Hd Hne]. rewrite negb_true_iff, Z.eqb_neq in Hne.
  apply list_elem_of_In, elem_of_distinct_days in Hd as (x & Hx & <-).
  apply list_elem_of_In, Hall in Hx. lia.
Qed.

Lemma sum_perm (l l' : list Z) : l ≡ₚ l' -> foldr Z.add 0 l = foldr Z.add 0 l'.
Proof. induction 1; cbn [foldr]; lia. Qed.

Lemma filter_filter {A} (f g : A -> bool) (l : list A) :
  List.filter f (List.filter g l) = List.filter (fun x => g x && f x) l.
Proof.
  induction l as [|x l IH]; [done|]. cbn [List.filter].
  destruct (g x); cbn [List.filter andb]; [destruct (f x)|]; by rewrite IH.
Qed.

Lemma filter_perm {A} (f : A -> bool) (l l' : list A) :
  l ≡ₚ l' -> List.filter f l ≡ₚ List.filter f l'.
Proof.
  induction 1 as [|x l l' _ IH|x y l|l l' l'' _ IH1 _ IH2]; cbn [List.filter].
  - done.
  - destruct (f x); by rewrite IH.
  - destruct (f x), (f y); (done || apply perm_swap).
  - by rewrite IH1.
Qed.

(** X8.  the days of the grouped response come in strictly descending order,
    each day once, and they are the days on which the user has a row in the
    window. *)
Theorem grouped_days_descend table user days now :
  let resp := get_grouped_sleep_data table user days now in
  StronglySorted (fun a b => b < a) (resp_day <$> resp)
  /\ forall d, d ∈ resp_day <$> resp
               <-> exists r, r ∈ table /\ user_id r = user
                             /\ hk_date now - days <= day r /\ day r = d.
Proof.
  cbn zeta. unfold get_grouped_sleep_data.
  set (records := Query.sort_by query_order _).
  rewrite <-list_fmap_compose.
  rewrite (list_fmap_ext (resp_day ∘ _) id _) by done. rewrite list_fmap_id.
  split.
  - apply distinct_days_descend. unfold records.
    apply sort_by_strongly_sorted;
      [apply query_order_total | apply query_order_day | intros; lia].
  - intros d. rewrite elem_of_distinct_days. unfold records.
    split; intros (r & Hr & Hd); exists r.
    + rewrite sort_by_perm, mem_filter, andb_true_iff, bool_decide_eq_true, Z.leb_le in Hr.
      tauto.
    + rewrite sort_by_perm, mem_filter, andb_true_iff, bool_decide_eq_true, Z.leb_le.
      tauto.
Qed.

Lemma segment_order_total (a b : OuraSleep) :
  segment_order a b = false -> segment_order b a = true.
Proof.
  unfold segment_order. destruct (is_long_sleep a), (is_long_sleep b); cbn; try done.
  all: rewrite Z.leb_gt, Z.leb_le; lia.
Qed.

(** the sort key of [day_records.sort], compared as Python compares tuples *)
Lemma segment_order_key (a b : OuraSleep) :
  segment_order a b = true ->
  (is_long_sleep b = true -> is_long_sleep a = true)
  /\ (is_long_sleep a = is_long_sleep b ->
      default 0 (total_sleep_duration b) <= default 0 (total_sleep_duration a)).
Proof.
  unfold segment_order. destruct (is_long_sleep a), (is_long_sleep b); cbn; try done.
  all: rewrite Z.leb_le; split; [done|intros _; lia].
Qed.

(** X9.  the segments of a day of the grouped response are the rows of the
    user on that day, each one once; there is at least one; the total is the
    sum of their durations, a missing one counting for 0; the main sleeps
    come first, and within a kind the longer segment comes first. *)
Theorem grouped_segments_are_the_rows_of_the_day table user days now
    (resp : DailySleepResponse) :
  resp ∈ get_grouped_sleep_data table user days now ->
  let of_the_day :=
    List.filter (fun r => bool_decide (user_id r = user) && (hk_date now - days <=? day r)
                          && (day r =? resp_day resp)) table in
  seg_record <$> segments resp ≡ₚ of_the_day
  /\ segments_count resp = length of_the_day
  /\ (0 < segments_count resp)%nat
  /\ total_duration resp
     = foldr Z.add 0 ((fun r => default 0 (total_sleep_duration r)) <$> of_the_day)
  /\ StronglySorted
       (fun a b => (is_long_sleep b = true -> is_long_sleep a = true)
                   /\ (is_long_sleep a = is_long_sleep b ->
                       default 0 (total_sleep_duration b)
                       <= default 0 (total_sleep_duration a)))
       (seg_record <$> segments resp).
Proof.
  intros Hin of_the_day. unfold get_grouped_sleep_data in Hin.
  apply list_elem_of_fmap in Hin as (d & -> & Hd).
  set (records := Query.sort_by query_order _) in *.
  cbn [daily_response segments segments_count total_duration resp_day] in *.
  set (group := List.filter (fun r => day r =? d) records).
  assert (Hgroup : group ≡ₚ of_the_day).
  { unfold group, records, of_the_day.
    etrans; [apply filter_perm, sort_by_perm|]. by rewrite filter_filter. }
  assert (Hseg : seg_record <$> (segment_of
            (if truthy_int (find_summary_score (Query.sort_by segment_order group))
             then (fun s => s - total_delta (Query.sort_by segment_order group))
                    <$> find_summary_score (Query.sort_by segment_order group)
             else None) <$> Query.sort_by segment_order group)
          = Query.sort_by segment_order group).
  { rewrite <-list_fmap_compose. rewrite (list_fmap_ext _ id _) by done.
    apply list_fmap_id. }
  rewrite Hseg.
  split; [by rewrite sort_by_perm|].
  split; [by rewrite sort_by_perm, Hgroup|].
  split.
  { rewrite sort_by_perm, Hgroup.
    apply elem_of_distinct_days in Hd as (r & Hr & Hday).
    assert (Hr' : r ∈ of_the_day).
    { rewrite <-Hgroup. unfold group. apply mem_filter. split; [done|]. by apply Z.eqb_eq. }
    destruct of_the_day; [by apply elem_of_nil in Hr'|cbn; lia]. }
  split.
  { apply sum_perm. apply fmap_Permutation. by rewrite sort_by_perm. }
  apply sort_by_strongly_sorted; [apply segment_order_total|apply segment_order_key|].
  intros a b c [H1 H2] [H3 H4]. split; [tauto|].
  intros Hac. destruct (is_long_sleep a) eqn:Ea, (is_long_sleep b) eqn:Eb,
    (is_long_sleep c) eqn:Ec; try done; try (specialize (H2 eq_refl); specialize (H4 eq_refl); lia).
  - by specialize (H3 eq_refl).
  - by specialize (H1 eq_refl).
Qed.

End GroupedFacts.

(** ** The loops of the reconciler under any policy *)

Section LoopFacts.
Import OuraSync Loop.
Local Open Scope list_scope.
Context {Item Row S : Type}.
Variable key : Item -> option string.
Variable rkey : Row -> string.
Variable same : Row -> Row -> Prop.
Variable fresh : Row -> Prop.
Variable body : S -> Item -> result S.
Variable T : S -> table Row.
Hypothesis same_refl : forall e, same e e.
Hypothesis same_trans : forall e1 e2 e3, same e1 e2 -> same e2 e3 -> same e1 e3.
Hypothesis body_turn : forall s x s', body s x = Ok s' -> turn key rkey same fresh (T s) x (T s').

Lemma for_each_snoc_inv (data : list Item) : forall s x s',
  for_each body (data ++ [x]) s = Ok s' ->
  exists s1, for_each body data s = Ok s1 /\ body s1 x = Ok s'.
Proof.
  induction data as [|y l IH]; intros s x s' Hrun; cbn [app for_each] in *.
  - destruct (body s x) as [s1|] eqn:E; [|done]. cbn in Hrun. injection Hrun as <-.
    by exists s.
  - destruct (body s y) as [s1|] eqn:E; [|done]. cbn in Hrun. cbn.
    by apply IH.
Qed.

Lemma new_keys_snoc (m : gmap string Row) (data : list Item) x :
  new_keys key m (data ++ [x])
  = new_keys key m data
    ++ match key x with
       | Some k => match m !! k with Some _ => [] | None => [k] end
       | None => []
       end.
Proof.
  unfold new_keys. rewrite omap_app. f_equal. cbn.
  destruct (key x) as [k|]; [|done]. by destruct (m !! k).
Qed.

(** What a run does to the table. *)
Lemma for_each_turns (data : list Item) : forall s s',
  for_each body data s = Ok s' ->
  (forall k, is_Some (rows (T s') !! k) <-> is_Some (rows (T s) !! k))
  /\ (forall k e, rows (T s) !! k = Some e ->
        exists e', rows (T s') !! k = Some e' /\ same e e')
  /\ (exists news, added (T s') = added (T s) ++ news
                   /\ rkey <$> news = new_keys key (rows (T s)) data
                   /\ Forall fresh news).
Proof.
  induction data as [|x l IH] using rev_ind; intros s s' Hrun.
  - cbn in Hrun. injection Hrun as <-.
    split; [done|]. split; [by eauto|]. exists []. by rewrite app_nil_r.
  - apply for_each_snoc_inv in Hrun as (s1 & Hrun & Hx).
    destruct (IH _ _ Hrun) as (Hdom & Hsame & news & Hadd & Hkeys & Hfresh).
    apply body_turn in Hx. rewrite new_keys_snoc.
    inversion Hx as [Hskip Ht|k e e' Hk He Hee' Ht|k r Hk He Hr Hf Ht].
    + rewrite <-Ht in *. split; [done|]. split; [done|].
      exists news. split; [done|]. split; [|done].
      destruct (key x) as [k|]; [|by rewrite app_nil_r].
      destruct (Hskip k eq_refl) as [e He]. apply mk_is_Some, Hdom in He as [e0 ->].
      by rewrite app_nil_r.
    + cbn [rows added]. split; [|split].
      * intros k'. rewrite <-Hdom. destruct (decide (k' = k)) as [->|Hne].
        -- rewrite lookup_insert_eq, He. split; eauto.
        -- by rewrite lookup_insert_ne.
      * intros k' e0 He0. destruct (Hsame _ _ He0) as (e1 & He1 & Hs1).
        destruct (decide (k' = k)) as [->|Hne].
        -- rewrite lookup_insert_eq. exists e'. split; [done|].
           rewrite He in He1. injection He1 as ->. eauto.
        -- rewrite lookup_insert_ne by done. eauto.
      * exists news. split; [done|]. split; [|done].
        rewrite Hk. apply mk_is_Some, Hdom in He as [e0 ->]. by rewrite app_nil_r.
    + cbn [rows added]. split; [done|]. split; [done|].
      exists (news ++ [r]). split; [by rewrite Hadd, app_assoc|]. split.
      * rewrite fmap_app, Hkeys, Hk. cbn. rewrite Hr.
        destruct (rows (T s) !! k) as [e0|] eqn:E; [|done].
        apply mk_is_Some, Hdom in E as [? E]. congruence.
      * apply Forall_app. split; [done|]. by constructor.
Qed.

End LoopFacts.

(** ** The three loops, record by record *)

Section TurnFacts.
Import OuraSync Loop Forced.
Local Open Scope list_scope.
Context `{IsoParsers}.

Lemma item_key_Some (x : item) k :
  item_key x = Some k <-> item_id x = Some k /\ truthy_str (item_id x) = true.
Proof.
  unfold item_key. destruct (truthy_str (item_id x)) eqn:E; [|split; [done|intros [_ ?]; done]].
  split; [done|]. by intros [? _].
Qed.

Lemma detail_key_Some (d : detail) k :
  detail_key d = Some k <-> det_id d = Some k /\ truthy_str (det_id d) = true.
Proof.
  unfold detail_key. destruct (truthy_str (det_id d)) eqn:E; [|split; [done|intros [_ ?]; done]].
  split; [done|]. by intros [? _].
Qed.

Lemma daily_step_turn columns user force force_today today frd now n t x n' t' :
  daily_step columns user force force_today today frd now (n, t) x = Ok (n', t') ->
  turn item_key dr_oura_id same_daily
    (fun r => dr_user_id r = user /\ dr_created_at r = now /\ dr_raw_json r = x) t x t'
  /\ n' - n = Z.of_nat (length (added t')) - Z.of_nat (length (added t))
  /\ (force = false -> force_today = false -> frd = None -> rows t' = rows t).
Proof.
  unfold daily_step. intros Hstep.
  destruct (truthy_str (item_id x)) eqn:Hid; cbn [negb] in Hstep.
  2:{ injection Hstep as <- <-. split; [|split; [lia|done]].
      apply turn_skip. intros k [_ Hk]%item_key_Some. congruence. }
  destruct (truthy_str_inv _ Hid) as (k & Hk & Hne).
  assert (Hkey : item_key x = Some k) by (by apply item_key_Some; rewrite <-Hk).
  rewrite Hk in Hstep. cbn [default] in Hstep.
  destruct (item_date_of (item_day x)) as [item_date|] eqn:Hday; [|done].
  cbn in Hstep.
  destruct (rows t !! k) as [e|] eqn:Hrow.
  - destruct (should_force force force_today today frd item_date) eqn:Hforce;
      cbn [negb] in Hstep; injection Hstep as <- <-.
    + split; [|split; [cbn; lia|]].
      * eapply turn_update; [done..|]. by repeat split.
      * intros -> -> ->. unfold should_force in Hforce. cbn in Hforce.
        by destruct item_date.
    + split; [|split; [lia|done]].
      apply turn_skip. intros k' Hk'. rewrite Hkey in Hk'. injection Hk' as <-. by eexists.
  - injection Hstep as <- <-. split; [|split; [|done]].
    + by eapply turn_insert.
    + cbn. rewrite length_app. cbn. lia.
Qed.

Lemma daily_sleep_step_turn user force force_today today frd now n flag t x n' flag' t' :
  daily_sleep_step user force force_today today frd now (n, flag, t) x = Ok (n', flag', t') ->
  turn item_key ds_oura_id same_daily_sleep
    (fun r => ds_user_id r = user /\ ds_created_at r = now /\ ds_raw_json r = x) t x t'
  /\ ((n', flag', t') = (n, flag, t)
      \/ (n' = n + 1 /\ (flag = true -> flag' = true)))
  /\ (force = false -> force_today = false -> frd = None -> rows t' = rows t).
Proof.
  unfold daily_sleep_step. intros Hstep.
  destruct (truthy_str (item_id x)) eqn:Hid; cbn [negb] in Hstep.
  2:{ injection Hstep as <- <- <-. split; [|split; [by left|done]].
      apply turn_skip. intros k [_ Hk]%item_key_Some. congruence. }
  destruct (truthy_str_inv _ Hid) as (k & Hk & Hne).
  assert (Hkey : item_key x = Some k) by (by apply item_key_Some; rewrite <-Hk).
  rewrite Hk in Hstep. cbn [default] in Hstep.
  destruct (item_date_of (item_day x)) as [item_date|] eqn:Hday; [|done].
  cbn in Hstep.
  destruct (rows t !! k) as [e|] eqn:Hrow.
  - destruct (should_force force force_today today frd item_date) eqn:Hforce;
      cbn [negb] in Hstep; injection Hstep as <- <- <-.
    + split; [|split].
      * eapply turn_update; [done..|]. by repeat split.
      * right. split; [done|]. by intros ->.
      * intros -> -> ->. unfold should_force in Hforce. cbn in Hforce.
        by destruct item_date.
    + split; [|split; [by left|done]].
      apply turn_skip. intros k' Hk'. rewrite Hkey in Hk'. injection Hk' as <-. by eexists.
  - injection Hstep as <- <- <-. split; [|split; [|done]].
    + by eapply turn_insert.
    + right. done.
Qed.

Lemma sleep_step_turn user sm force force_today today frd now n flag t d n' flag' t' :
  sleep_step user sm force force_today today frd now (n, flag, t) d = Ok (n', flag', t') ->
  turn detail_key oura_id same_sleep
    (fun r => user_id r = user /\ created_at r = now /\ snd (raw_json r) = d) t d t'
  /\ ((n', flag') = (n, flag) \/ (n' = n + 1 /\ (flag = true -> flag' = true)))
  /\ (force = false -> n' = n -> t' = t)
  /\ (added t' <> added t -> n' = n + 1).
Proof.
  unfold sleep_step. intros Hstep.
  destruct (truthy_str (det_id d)) eqn:Hid; cbn [negb] in Hstep.
  2:{ injection Hstep as <- <- <-. split; [|split; [by left|done]].
      apply turn_skip. intros k [_ Hk]%detail_key_Some. congruence. }
  destruct (truthy_str_inv _ Hid) as (k & Hk & Hne).
  assert (Hkey : detail_key d = Some k) by (by apply detail_key_Some; rewrite <-Hk).
  rewrite Hk in Hstep. cbn [default] in Hstep.
  destruct (item_date_of (det_day d)) as [item_date|] eqn:Hday; [|done].
  cbn in Hstep.
  destruct (rows t !! k) as [e|] eqn:Hrow.
  - assert (Hskip : turn detail_key oura_id same_sleep
              (fun r => user_id r = user /\ created_at r = now /\ snd (raw_json r) = d) t d t).
    { apply turn_skip. intros k' Hk'. rewrite Hkey in Hk'. injection Hk' as <-. by eexists. }
    destruct force; cbn in Hstep.
    + destruct (bedtime_of (det_bedtime_start d)) as [start|]; [|done]. cbn in Hstep.
      destruct (bedtime_of (det_bedtime_end d)) as [finish|]; [|done]. cbn in Hstep.
      injection Hstep as <- <- <-.
      split; [|split; [by left|split; [done|]]].
      * eapply turn_update; [done..|]. by repeat split.
      * cbn. done.
    + destruct (change_check force_today today frd item_date (summary_of sm d) d e)
        as [needs_update item_has_change]. destruct needs_update; cbn in Hstep.
      * destruct (bedtime_of (det_bedtime_start d)) as [start|]; [|done]. cbn in Hstep.
        destruct (bedtime_of (det_bedtime_end d)) as [finish|]; [|done]. cbn in Hstep.
        assert (Hupd : forall day', turn detail_key oura_id same_sleep
              (fun r => user_id r = user /\ created_at r = now /\ snd (raw_json r) = d) t d
              {| rows := <[k := update_sleep e d (summary_of sm d) day' start finish]> (rows t);
                 added := added t |}).
        { intros day'. eapply turn_update; [done..|]. by repeat split. }
        destruct item_has_change.
        -- destruct (duration_or_zero d); [|done]. cbn in Hstep.
           injection Hstep as <- <- <-.
           split; [apply Hupd|]. split; [by right|]. split; [intros _ ?; lia|done].
        -- injection Hstep as <- <- <-.
           split; [apply Hupd|]. split; [right; split; [done|by intros ->]|].
           split; [intros _ ?; lia|done].
      * injection Hstep as <- <- <-. split; [done|]. split; [by left|done].
  - cbn in Hstep.
    destruct (bedtime_of (det_bedtime_start d)) as [start|]; [|done]. cbn in Hstep.
    destruct (bedtime_of (det_bedtime_end d)) as [finish|]; [|done]. cbn in Hstep.
    destruct (duration_or_zero d) as [dur|]; [|done]. cbn in Hstep.
    injection Hstep as <- <- <-.
    split; [by eapply turn_insert|]. split; [right; split; [done|by intros ->]|].
    split; [intros _ ?; lia|done].
Qed.

End TurnFacts.

(** ** The three loops under any policy *)

Section ReconcilerInvariants.
Import OuraSync Loop Forced.
Local Open Scope list_scope.
Context `{IsoParsers}.

Lemma for_each_invariant {A S} (body : S -> A -> result S) (P : S -> Prop) (data : list A) :
  (forall s x s', P s -> body s x = Ok s' -> P s') ->
  forall s s', P s -> for_each body data s = Ok s' -> P s'.
Proof.
  intros Hstep. induction data as [|x l IH]; intros s s' HP Hrun; cbn [for_each] in Hrun.
  - by injection Hrun as <-.
  - destruct (body s x) as [s1|] eqn:E; [|done]. cbn in Hrun. eauto.
Qed.

Lemma for_each_count {A S} (body : S -> A -> result S) (c : S -> Z) (data : list A) :
  (forall s x s', body s x = Ok s' -> c s <= c s' <= c s + 1) ->
  forall s s', for_each body data s = Ok s' ->
               c s <= c s' <= c s + Z.of_nat (length data).
Proof.
  intros Hstep. induction data as [|x l IH]; intros s s' Hrun; cbn [for_each] in Hrun.
  - injection Hrun as <-. cbn. lia.
  - destruct (body s x) as [s1|] eqn:E; [|done]. cbn in Hrun.
    apply Hstep in E. apply IH in Hrun. cbn [length]. lia.
Qed.

Lemma for_each_filter {A S} (body : S -> A -> result S) (f : A -> bool) (data : list A) :
  (forall s x, f x = false -> body s x = Ok s) ->
  forall s, for_each body (List.filter f data) s = for_each body data s.
Proof.
  intros Hskip. induction data as [|x l IH]; intros s; [done|].
  cbn [List.filter for_each]. destruct (f x) eqn:E.
  - cbn [for_each]. destruct (body s x); [|done]. cbn. apply IH.
  - rewrite (Hskip _ _ E). cbn. apply IH.
Qed.

(** X10.  a record without id, or with an empty one, is passed over before
    anything of it is read: it changes neither the count nor the table of
    its loop, and it cannot make the loop raise. *)
Theorem records_without_id_are_ignored columns user (sleep_data data : list item)
    (sleep_details : list detail) force force_today today frd now
    (sleeps : gmap string OuraSleep) (daily_sleeps : gmap string OuraDailySleep)
    (dailies : gmap string daily_row) :
  _sync_sleep_data user sleep_data
    (List.filter (fun d => truthy_str (det_id d)) sleep_details)
    force force_today today frd now sleeps
  = _sync_sleep_data user sleep_data sleep_details force force_today today frd now sleeps
  /\ _sync_daily_sleep_data user (List.filter (fun x => truthy_str (item_id x)) data)
       force force_today today frd now daily_sleeps
     = _sync_daily_sleep_data user data force force_today today frd now daily_sleeps
  /\ sync_daily columns user (List.filter (fun x => truthy_str (item_id x)) data)
       force force_today today frd now dailies
     = sync_daily columns user data force force_today today frd now dailies.
Proof.
  split; [|split].
  - apply for_each_filter. intros [[n flag] t] d Hd. unfold sleep_step. by rewrite Hd.
  - apply for_each_filter. intros [[n flag] t] x Hx. unfold daily_sleep_step. by rewrite Hx.
  - apply for_each_filter. intros [n t] x Hx. unfold daily_step. by rewrite Hx.
Qed.

Lemma same_daily_equiv :
  (forall e, same_daily e e)
  /\ (forall e1 e2 e3, same_daily e1 e2 -> same_daily e2 e3 -> same_daily e1 e3).
Proof.
  split; [done|]. intros e1 e2 e3 (? & ? & ?) (? & ? & ?). repeat split; congruence.
Qed.

Lemma same_daily_sleep_equiv :
  (forall e, same_daily_sleep e e)
  /\ (forall e1 e2 e3, same_daily_sleep e1 e2 -> same_daily_sleep e2 e3 ->
        same_daily_sleep e1 e3).
Proof.
  split; [done|]. intros e1 e2 e3 (? & ? & ?) (? & ? & ?). repeat split; congruence.
Qed.

Lemma same_sleep_equiv :
  (forall e, same_sleep e e)
  /\ (forall e1 e2 e3, same_sleep e1 e2 -> same_sleep e2 e3 -> same_sleep e1 e3).
Proof.
  split; [done|]. intros e1 e2 e3 (? & ? & ?) (? & ? & ?). repeat split; congruence.
Qed.

(** The runs of the three loops, as sequences of turns. *)
Lemma sync_daily_turns columns user data force force_today today frd now tbl n t :
  sync_daily columns user data force force_today today frd now tbl = Ok (n, t) ->
  (forall k, is_Some (rows t !! k) <-> is_Some (tbl !! k))
  /\ (forall k e, tbl !! k = Some e -> exists e', rows t !! k = Some e' /\ same_daily e e')
  /\ dr_oura_id <$> added t = new_keys item_key tbl data
  /\ Forall (fun r => dr_user_id r = user /\ dr_created_at r = now) (added t).
Proof.
  intros Hrun. unfold sync_daily in Hrun.
  edestruct (for_each_turns item_key dr_oura_id same_daily
              (fun r => dr_user_id r = user /\ dr_created_at r = now)
              (daily_step columns user force force_today today frd now) snd
              (proj1 same_daily_equiv) (proj2 same_daily_equiv))
    as (Hdom & Hsame & news & Hadd & Hkeys & Hfresh); [|exact Hrun|].
  { intros [n0 t0] x [n1 t1] Hstep. apply daily_step_turn in Hstep as [Hturn _].
    cbn [snd]. inversion Hturn as [?|? ? ? ? ? ? |? ? ? ? ? (? & ? & _)]; subst.
    - by apply turn_skip.
    - by eapply turn_update.
    - by eapply turn_insert. }
  cbn in *. subst. by rewrite Hkeys.
Qed.

Lemma sync_daily_sleep_turns user data force force_today today frd now tbl n flag t :
  _sync_daily_sleep_data user data force force_today today frd now tbl = Ok (n, flag, t) ->
  (forall k, is_Some (rows t !! k) <-> is_Some (tbl !! k))
  /\ (forall k e, tbl !! k = Some e ->
        exists e', rows t !! k = Some e' /\ same_daily_sleep e e')
  /\ ds_oura_id <$> added t = new_keys item_key tbl data
  /\ Forall (fun r => ds_user_id r = user /\ ds_created_at r = now) (added t).
Proof.
  intros Hrun. unfold _sync_daily_sleep_data in Hrun.
  edestruct (for_each_turns item_key ds_oura_id same_daily_sleep
              (fun r => ds_user_id r = user /\ ds_created_at r = now)
              (daily_sleep_step user force force_today today frd now) snd
              (proj1 same_daily_sleep_equiv) (proj2 same_daily_sleep_equiv))
    as (Hdom & Hsame & news & Hadd & Hkeys & Hfresh); [|exact Hrun|].
  { intros [[n0 f0] t0] x [[n1 f1] t1] Hstep.
    apply daily_sleep_step_turn in Hstep as [Hturn _].
    cbn [snd]. inversion Hturn as [?|? ? ? ? ? ? |? ? ? ? ? (? & ? & _)]; subst.
    - by apply turn_skip.
    - by eapply turn_update.
    - by eapply turn_insert. }
  cbn in *. subst. by rewrite Hkeys.
Qed.

Lemma sync_sleep_turns user sleep_data details force force_today today frd now tbl n flag t :
  _sync_sleep_data user sleep_data details force force_today today frd now tbl
  = Ok (n, flag, t) ->
  (forall k, is_Some (rows t !! k) <-> is_Some (tbl !! k))
  /\ (forall k e, tbl !! k = Some e -> exists e', rows t !! k = Some e' /\ same_sleep e e')
  /\ oura_id <$> added t = new_keys detail_key tbl details
  /\ Forall (fun r => user_id r = user /\ created_at r = now) (added t).
Proof.
  intros Hrun. unfold _sync_sleep_data in Hrun.
  edestruct (for_each_turns detail_key oura_id same_sleep
              (fun r => user_id r = user /\ created_at r = now)
              (sleep_step user (summary_map_of sleep_data) force force_today today frd now) snd
              (proj1 same_sleep_equiv) (proj2 same_sleep_equiv))
    as (Hdom & Hsame & news & Hadd & Hkeys & Hfresh); [|exact Hrun|].
  { intros [[n0 f0] t0] x [[n1 f1] t1] Hstep.
    apply sleep_step_turn in Hstep as [Hturn _].
    cbn [snd]. inversion Hturn as [?|? ? ? ? ? ? |? ? ? ? ? (? & ? & _)]; subst.
    - by apply turn_skip.
    - by eapply turn_update.
    - by eapply turn_insert. }
  cbn in *. subst. by rewrite Hkeys.
Qed.

(** X11.  a loop never drops a row and never moves one: every row of the table
    is still there after the loop, under the same id, for the same user and
    with its creation time, whatever the policy and the records. *)
Theorem stored_rows_keep_their_identity columns user (sleep_data scores data : list item)
    (sleep_details : list detail) force force_today today frd now
    (sleeps : gmap string OuraSleep) (daily_sleeps : gmap string OuraDailySleep)
    (dailies : gmap string daily_row) n1 flag1 t1 n2 flag2 t2 n3 t3 :
  _sync_sleep_data user sleep_data sleep_details force force_today today frd now sleeps
  = Ok (n1, flag1, t1) ->
  _sync_daily_sleep_data user scores force force_today today frd now daily_sleeps
  = Ok (n2, flag2, t2) ->
  sync_daily columns user data force force_today today frd now dailies = Ok (n3, t3) ->
  (forall k e, sleeps !! k = Some e ->
     exists e', rows t1 !! k = Some e'
                /\ user_id e' = user_id e /\ oura_id e' = oura_id e
                /\ created_at e' = created_at e)
  /\ (forall k e, daily_sleeps !! k = Some e ->
        exists e', rows t2 !! k = Some e'
                   /\ ds_user_id e' = ds_user_id e /\ ds_oura_id e' = ds_oura_id e
                   /\ ds_created_at e' = ds_created_at e)
  /\ (forall k e, dailies !! k = Some e ->
        exists e', rows t3 !! k = Some e'
                   /\ dr_user_id e' = dr_user_id e /\ dr_oura_id e' = dr_oura_id e
                   /\ dr_created_at e' = dr_created_at e)
  /\ (forall k, (is_Some (rows t1 !! k) -> is_Some (sleeps !! k))
                /\ (is_Some (rows t2 !! k) -> is_Some (daily_sleeps !! k))
                /\ (is_Some (rows t3 !! k) -> is_Some (dailies !! k))).
Proof.
  intros H1 H2 H3.
  apply sync_sleep_turns in H1 as (Hd1 & Hs1 & _).
  apply sync_daily_sleep_turns in H2 as (Hd2 & Hs2 & _).
  apply sync_daily_turns in H3 as (Hd3 & Hs3 & _).
  split; [exact Hs1|]. split; [exact Hs2|]. split; [exact Hs3|].
  intros k. split; [apply Hd1|]. split; [apply Hd2|apply Hd3].
Qed.

(** X12.  a plain daily stream counts exactly the rows it adds; the added rows
    are those of the records whose id the table lacks, in the order of the
    stream, each for the user and created at the time of the pass; and with
    no policy at all no stored row is touched. *)
Theorem plain_streams_count_their_insertions columns user data force force_today today frd
    now tbl n t :
  sync_daily columns user data force force_today today frd now tbl = Ok (n, t) ->
  n = Z.of_nat (length (added t))
  /\ dr_oura_id <$> added t = new_keys item_key tbl data
  /\ Forall (fun r => dr_user_id r = user /\ dr_created_at r = now) (added t)
  /\ (force = false -> force_today = false -> frd = None -> rows t = tbl).
Proof.
  intros Hrun. pose proof (sync_daily_turns _ _ _ _ _ _ _ _ _ _ _ Hrun) as (_ & _ & Hk & Hf).
  unfold sync_daily in Hrun.
  split; [|split; [done|split; [done|]]].
  - apply (for_each_invariant _ (fun s => s.1 = Z.of_nat (length (added s.2)))) in Hrun;
      [done| |done].
    intros [n0 t0] x [n1 t1] HP Hstep. cbn [fst snd] in *.
    apply daily_step_turn in Hstep as (_ & Hn & _). lia.
  - intros -> -> ->.
    apply (for_each_invariant _ (fun s => rows s.2 = tbl)) in Hrun; [done| |done].
    intros [n0 t0] x [n1 t1] HP Hstep. cbn [fst snd] in *.
    apply daily_step_turn in Hstep as (_ & _ & Hr). by rewrite Hr.
Qed.

End ReconcilerInvariants.

(** ** The commit of a loop *)

Section CommitFacts.
Import OuraSync Loop Forced.
Local Open Scope list_scope.
Context `{IsoParsers}.

Lemma lookup_flushed {R} (rkey : R -> string) (news : list R) :
  forall (m : gmap string R) k,
    is_Some (foldl (fun m r => <[rkey r := r]> m) m news !! k)
    <-> is_Some (m !! k) \/ k ∈ rkey <$> news.
Proof.
  induction news as [|r l IH]; intros m k; cbn [foldl].
  - rewrite fmap_nil, elem_of_nil. tauto.
  - rewrite IH, fmap_cons, elem_of_cons. destruct (decide (k = rkey r)) as [->|Hne].
    + rewrite lookup_insert_eq. split; [by intros _; right; left|intros _; left; by eexists].
    + rewrite lookup_insert_ne by done. tauto.
Qed.

Lemma elem_of_new_keys {Item Row} (key : Item -> option string) (m : gmap string Row)
    (data : list Item) k :
  k ∈ new_keys key m data <-> (exists x, x ∈ data /\ key x = Some k) /\ m !! k = None.
Proof.
  unfold new_keys. rewrite list_elem_of_omap. split.
  - intros (x & Hx & Hk). destruct (key x) as [k'|] eqn:E; [|done].
    destruct (m !! k') eqn:E'; [done|]. injection Hk as <-. eauto.
  - intros [(x & Hx & Hk) Hm]. exists x. split; [done|]. by rewrite Hk, Hm.
Qed.

(** The commit of a table that a loop has left. *)
Lemma flush_after_loop {Item Row} (key : Item -> option string) (rkey : Row -> string)
    (tbl : gmap string Row) (data : list Item) (t : table Row) :
  (forall k, is_Some (rows t !! k) <-> is_Some (tbl !! k)) ->
  rkey <$> added t = new_keys key tbl data ->
  (NoDup (new_keys key tbl data) ->
   exists m, flush rkey t = Ok m
             /\ forall k, is_Some (m !! k)
                          <-> is_Some (tbl !! k) \/ exists x, x ∈ data /\ key x = Some k)
  /\ (~ NoDup (new_keys key tbl data) -> flush rkey t = Raise IntegrityError).
Proof.
  intros Hdom Hkeys. unfold flush. rewrite Hkeys.
  assert (Hfree : Forall (fun k => rows t !! k = None) (new_keys key tbl data)).
  { apply List.Forall_forall. intros k Hk%list_elem_of_In%elem_of_new_keys.
    destruct Hk as [_ Hk]. specialize (Hdom k). rewrite Hk in Hdom.
    destruct (rows t !! k) eqn:E; [|done]. destruct Hdom as [Hd _].
    by destruct Hd. }
  split.
  - intros Hnodup. rewrite bool_decide_eq_true_2 by done. eexists. split; [reflexivity|].
    intros k. rewrite lookup_flushed, Hkeys, elem_of_new_keys, Hdom.
    split.
    + intros [?|[? _]]; [by left|by right].
    + intros [?|Hx]; [by left|]. destruct (tbl !! k) eqn:E; [left; by eexists|by right].
  - intros Hdup. rewrite bool_decide_eq_false_2; [done|]. by intros [? _].
Qed.

(** X13.  the commit of a plain daily stream succeeds exactly when no id that
    the table lacks occurs twice among the records; it then stores a row
    for every record that has an id and keeps every row it had; otherwise
    the unique index on [oura_id] raises [IntegrityError], because the
    second record has not seen the pending row of the first. *)
Theorem commit_needs_distinct_new_ids columns user data force force_today today frd now
    tbl n t :
  sync_daily columns user data force force_today today frd now tbl = Ok (n, t) ->
  (NoDup (new_keys item_key tbl data) ->
   exists m, flush dr_oura_id t = Ok m
             /\ forall k, is_Some (m !! k)
                          <-> is_Some (tbl !! k)
                              \/ exists x, x ∈ data /\ item_id x = Some k /\ k <> "")
  /\ (~ NoDup (new_keys item_key tbl data) -> flush dr_oura_id t = Raise IntegrityError).
Proof.
  intros Hrun. apply sync_daily_turns in Hrun as (Hdom & _ & Hkeys & _).
  destruct (flush_after_loop item_key dr_oura_id tbl data t Hdom Hkeys) as [Hok Hfail].
  split; [|exact Hfail].
  intros Hnodup. destruct (Hok Hnodup) as (m & Hm & Hlook). exists m. split; [done|].
  intros k. rewrite Hlook. split; (intros [?|(x & Hx & Hk)]; [by left|right; exists x]).
  - apply item_key_Some in Hk as [Hid Ht]. split; [done|]. split; [done|].
    intros ->. by rewrite Hid in Ht.
  - destruct Hk as [Hid Hne]. split; [done|]. apply item_key_Some. split; [done|].
    by eapply truthy_str_Some.
Qed.

(** X14.  when the loops of the sleep periods and of the daily sleep scores
    have returned and their commits succeed, every period and every score
    that has an id has a row under that id, and every row that was stored
    is still there. *)
Theorem every_record_gets_a_row user (sleep_data : list item) (sleep_details : list detail)
    force force_today today frd now (sleeps : gmap string OuraSleep)
    (daily_sleeps : gmap string OuraDailySleep) n1 flag1 t1 n2 flag2 t2 m1 m2 :
  _sync_sleep_data user sleep_data sleep_details force force_today today frd now sleeps
  = Ok (n1, flag1, t1) ->
  _sync_daily_sleep_data user sleep_data force force_today today frd now daily_sleeps
  = Ok (n2, flag2, t2) ->
  flush oura_id t1 = Ok m1 -> flush ds_oura_id t2 = Ok m2 ->
  (forall d k, d ∈ sleep_details -> det_id d = Some k -> k <> "" -> is_Some (m1 !! k))
  /\ (forall x k, x ∈ sleep_data -> item_id x = Some k -> k <> "" -> is_Some (m2 !! k))
  /\ (forall k, (is_Some (sleeps !! k) -> is_Some (m1 !! k))
                /\ (is_Some (daily_sleeps !! k) -> is_Some (m2 !! k))).
Proof.
  intros H1 H2 F1 F2.
  apply sync_sleep_turns in H1 as (Hd1 & _ & Hk1 & _).
  apply sync_daily_sleep_turns in H2 as (Hd2 & _ & Hk2 & _).
  destruct (flush_after_loop detail_key oura_id sleeps sleep_details t1 Hd1 Hk1) as [Ok1 No1].
  destruct (flush_after_loop item_key ds_oura_id daily_sleeps sleep_data t2 Hd2 Hk2)
    as [Ok2 No2].
  destruct (decide (NoDup (new_keys detail_key sleeps sleep_details))) as [N1|N1];
    [|rewrite (No1 N1) in F1; discriminate F1].
  destruct (decide (NoDup (new_keys item_key daily_sleeps sleep_data))) as [N2|N2];
    [|rewrite (No2 N2) in F2; discriminate F2].
  destruct (Ok1 N1) as (m1' & E1 & L1). destruct (Ok2 N2) as (m2' & E2 & L2).
  rewrite E1 in F1. rewrite E2 in F2. injection F1 as ->. injection F2 as ->.
  split; [|split].
  - intros d k Hd Hid Hne. apply L1. right. exists d. split; [done|].
    apply detail_key_Some. split; [done|]. by eapply truthy_str_Some.
  - intros x k Hx Hid Hne. apply L2. right. exists x. split; [done|].
    apply item_key_Some. split; [done|]. by eapply truthy_str_Some.
  - intros k. split; [intros ?; apply L1; by left|intros ?; apply L2; by left].
Qed.

(** X15.  the daily sleep loop counts every record it writes, added or
    rewritten: the count lies between 0 and the number of records, a change
    is flagged only when the count is positive, and a count of 0 means that
    the loop has touched nothing. *)
Theorem daily_sleep_count_covers_every_write user data force force_today today frd now
    tbl n flag t :
  _sync_daily_sleep_data user data force force_today today frd now tbl = Ok (n, flag, t) ->
  0 <= n <= Z.of_nat (length data)
  /\ Z.of_nat (length (added t)) <= n
  /\ (flag = true -> 0 < n)
  /\ (n = 0 -> t = {| rows := tbl; added := [] |}).
Proof.
  intros Hrun. unfold _sync_daily_sleep_data in Hrun.
  pose proof (for_each_count _ (fun s => s.1.1) _
                (fun s x s' (Hs : daily_sleep_step user force force_today today frd now s x
                                  = Ok s') =>
                   ltac:(destruct s as [[n0 f0] t0], s' as [[n1 f1] t1];
                         apply daily_sleep_step_turn in Hs as (_ & [[= -> -> ->]|[-> _]] & _);
                         cbn; lia)) _ _ Hrun) as Hcount.
  cbn in Hcount.
  apply (for_each_invariant _
           (fun s => 0 <= s.1.1 /\ Z.of_nat (length (added s.2)) <= s.1.1
                     /\ (s.1.2 = true -> 0 < s.1.1)
                     /\ (s.1.1 = 0 -> s.2 = {| rows := tbl; added := [] |}))) in Hrun.
  - cbn in Hrun. destruct Hrun as (? & ? & ? & ?). split; [lia|]. done.
  - intros [[n0 f0] t0] x [[n1 f1] t1] (Hn & Hlen & Hflag & Hzero) Hstep. cbn [fst snd] in *.
    apply daily_sleep_step_turn in Hstep as (Hturn & [[= -> -> ->]|[-> Hf]] & _); [done|].
    split; [lia|]. split; [|split; [intros _; lia|intros ?; lia]].
    inversion Hturn; subst; cbn [added]; [lia|lia|]. rewrite length_app. cbn. lia.
  - cbn. split; [lia|]. split; [lia|]. done.
Qed.

(** X16.  the loop of the sleep periods counts at most one per record and at
    least the rows it adds; it flags a change only when it has counted
    something; without [force] a count of 0 means that it has touched
    nothing, and under [force] a rewritten row is not counted. *)
Theorem sleep_count_and_flag user sleep_data details force force_today today frd now
    tbl n flag t :
  _sync_sleep_data user sleep_data details force force_today today frd now tbl
  = Ok (n, flag, t) ->
  0 <= n <= Z.of_nat (length details)
  /\ Z.of_nat (length (added t)) <= n
  /\ (flag = true -> 0 < n)
  /\ (force = false -> n = 0 -> t = {| rows := tbl; added := [] |})
  /\ (force = true -> n = Z.of_nat (length (added t))).
Proof.
  intros Hrun. unfold _sync_sleep_data in Hrun.
  set (body := sleep_step user (summary_map_of sleep_data) force force_today today frd now)
    in *.
  assert (Hstep : forall n0 f0 t0 x n1 f1 t1,
            body (n0, f0, t0) x = Ok (n1, f1, t1) ->
            ((n1 = n0 /\ f1 = f0 /\ added t1 = added t0 /\ (force = false -> t1 = t0))
             \/ (n1 = n0 + 1 /\ (f0 = true -> f1 = true)
                 /\ (length (added t1) <= length (added t0) + 1)%nat
                 /\ (force = true -> length (added t1) = S (length (added t0)))))).
  { intros n0 f0 t0 x n1 f1 t1 Hx. unfold body in Hx.
    pose proof Hx as Hx'. apply sleep_step_turn in Hx as (Hturn & Hnf & Hz & Hadd).
    destruct Hnf as [[= -> ->]|[-> Hf]].
    - left. split; [done|]. split; [done|]. split; [|by auto].
      inversion Hturn as [?|k e e' Hk He Hs|k r Hk He Hr Hf']; subst; cbn [added] in *;
        [done|done|].
      exfalso. assert (n0 = n0 + 1); [|lia]. apply Hadd. intros E.
      apply (f_equal length) in E. rewrite length_app in E. cbn in E. lia.
    - right. split; [done|]. split; [done|].
      inversion Hturn as [?|k e e' Hk He Hs|k r Hk He Hr Hf']; subst; cbn [added].
      + split; [lia|]. intros ->. unfold sleep_step in Hx'.
        destruct (truthy_str (det_id x)) eqn:Hid; cbn in Hx'; [|injection Hx'; lia].
        destruct (item_date_of (det_day x)); [|done]. cbn in Hx'.
        destruct (rows t1 !! default "" (det_id x)) eqn:Hrow; cbn in Hx'.
        * destruct (bedtime_of (det_bedtime_start x)); [|done]. cbn in Hx'.
          destruct (bedtime_of (det_bedtime_end x)); [|done]. cbn in Hx'.
          injection Hx'. lia.
        * destruct (bedtime_of (det_bedtime_start x)); [|done]. cbn in Hx'.
          destruct (bedtime_of (det_bedtime_end x)); [|done]. cbn in Hx'.
          destruct (duration_or_zero x); [|done]. cbn in Hx'.
          apply (f_equal (fun r => match r with
                                   | Ok (_, _, t) => length (added t)
                                   | Raise _ => O
                                   end)) in Hx'.
          cbn in Hx'. rewrite length_app in Hx'. cbn in Hx'. lia.
      + split; [lia|]. intros ->. unfold sleep_step in Hx'.
        apply detail_key_Some in Hk as [Hid Htr]. rewrite Htr, Hid in Hx'. cbn in Hx'.
        destruct (item_date_of (det_day x)); [|done]. cbn in Hx'. rewrite He in Hx'.
        cbn in Hx'.
        destruct (bedtime_of (det_bedtime_start x)); [|done]. cbn in Hx'.
        destruct (bedtime_of (det_bedtime_end x)); [|done]. cbn in Hx'.
        injection Hx'. lia.
      + rewrite length_app. cbn. split; lia. }
  pose proof (for_each_count body (fun s => s.1.1) details
                (fun s x s' (Hs : body s x = Ok s') =>
                   ltac:(destruct s as [[n0 f0] t0], s' as [[n1 f1] t1];
                         apply Hstep in Hs as [(-> & _)|(-> & _)]; cbn; lia)) _ _ Hrun)
    as Hcount.
  cbn in Hcount.
  apply (for_each_invariant body
           (fun s => 0 <= s.1.1 /\ Z.of_nat (length (added s.2)) <= s.1.1
                     /\ (s.1.2 = true -> 0 < s.1.1)
                     /\ (force = false -> s.1.1 = 0 -> s.2 = {| rows := tbl; added := [] |})
                     /\ (force = true -> s.1.1 = Z.of_nat (length (added s.2))))) in Hrun.
  - cbn in Hrun. destruct Hrun as (? & ? & ? & ? & ?). split; [lia|]. done.
  - intros [[n0 f0] t0] x [[n1 f1] t1] (Hn & Hlen & Hflag & Hzero & Hforce) Hx.
    cbn [fst snd] in *.
    apply Hstep in Hx as [(-> & -> & Ha & Ht)|(-> & Hf & Hle & Hf')].
    + rewrite Ha. split; [done|]. split; [done|]. split; [done|].
      split; [|done]. intros Hfo Hz. rewrite (Ht Hfo). auto.
    + split; [lia|]. split; [lia|]. split; [intros _; lia|]. split; [intros _ ?; lia|].
      intros Hfo. rewrite (Hf' Hfo), (Hforce Hfo). lia.
  - cbn. split; [lia|]. split; [lia|]. split; [done|]. split; [done|]. done.
Qed.

End CommitFacts.

(** ** When a loop raises *)

Section RaiseFacts.
Import OuraSync Loop Forced.
Local Open Scope list_scope.
Context `{IsoParsers}.

Lemma for_each_returns {A S} (body : S -> A -> result S) (ok : A -> bool) (data : list A) :
  (forall s x, ok x = true -> exists s', body s x = Ok s') ->
  (forall s x s', body s x = Ok s' -> ok x = true) ->
  forall s, (exists s', for_each body data s = Ok s') <-> Forall (fun x => ok x = true) data.
Proof.
  intros Hok Hko. induction data as [|x l IH]; intros s; cbn [for_each].
  - split; [constructor|by eexists].
  - rewrite Forall_cons. split.
    + intros [s' Hrun]. destruct (body s x) as [s1|] eqn:E; [|done]. cbn in Hrun.
      split; [by eapply Hko|]. apply (IH s1). by eexists.
    + intros [Hx Hl]. destruct (Hok s x Hx) as [s1 ->]. cbn. by apply IH.
Qed.

Lemma for_each_raises {A S} (body : S -> A -> result S) (data : list A) :
  forall s e, for_each body data s = Raise e ->
              exists s1 x, x ∈ data /\ body s1 x = Raise e.
Proof.
  induction data as [|x l IH]; intros s e Hrun; cbn [for_each] in Hrun; [done|].
  destruct (body s x) as [s1|e1] eqn:E; cbn in Hrun.
  - destruct (IH _ _ Hrun) as (s2 & y & Hy & Hb). exists s2, y. split; [by right|done].
  - injection Hrun as ->. exists s, x. split; [by left|done].
Qed.

Lemma item_date_of_raises day e : item_date_of day = Raise e -> e = ValueError.
Proof.
  unfold item_date_of, parse. destruct (truthy_str day); [|done].
  destruct (date_fromisoformat (default "" day)); cbn; [done|]. by intros [= <-].
Qed.

Lemma bedtime_of_raises s e : bedtime_of s = Raise e -> e = ValueError.
Proof.
  unfold bedtime_of, parse. destruct (truthy_str s); [|done].
  destruct (datetime_fromisoformat (replace_Z (default "" s))); cbn; [done|]. by intros [= <-].
Qed.

Lemma daily_step_returns columns user force force_today today frd now s x :
  (item_ok x = true ->
   exists s', daily_step columns user force force_today today frd now s x = Ok s')
  /\ (forall s', daily_step columns user force force_today today frd now s x = Ok s' ->
        item_ok x = true)
  /\ (forall e, daily_step columns user force force_today today frd now s x = Raise e ->
        e = ValueError).
Proof.
  destruct s as [n t]. unfold daily_step, item_ok.
  destruct (truthy_str (item_id x)); cbn [negb orb]; [|split; [by eauto|split; done]].
  destruct (item_date_of (item_day x)) as [d|e0] eqn:E; cbn.
  - split; [|split; [done|]].
    + intros _. destruct (rows t !! default "" (item_id x)); [|by eauto].
      destruct (negb _); by eauto.
    + intros e. destruct (rows t !! default "" (item_id x)); [|done]. by destruct (negb _).
  - split; [done|]. split; [done|]. intros e [= <-]. by eapply item_date_of_raises.
Qed.

Lemma daily_sleep_step_returns user force force_today today frd now s x :
  (item_ok x = true ->
   exists s', daily_sleep_step user force force_today today frd now s x = Ok s')
  /\ (forall s', daily_sleep_step user force force_today today frd now s x = Ok s' ->
        item_ok x = true)
  /\ (forall e, daily_sleep_step user force force_today today frd now s x = Raise e ->
        e = ValueError).
Proof.
  destruct s as [[n f] t]. unfold daily_sleep_step, item_ok.
  destruct (truthy_str (item_id x)); cbn [negb orb]; [|split; [by eauto|split; done]].
  destruct (item_date_of (item_day x)) as [d|e0] eqn:E; cbn.
  - split; [|split; [done|]].
    + intros _. destruct (rows t !! default "" (item_id x)); [|by eauto].
      destruct (negb _); by eauto.
    + intros e. destruct (rows t !! default "" (item_id x)); [|done]. by destruct (negb _).
  - split; [done|]. split; [done|]. intros e [= <-]. by eapply item_date_of_raises.
Qed.

Lemma duration_or_zero_returns d :
  det_total_sleep_duration d <> Null -> exists n, duration_or_zero d = Ok n.
Proof. unfold duration_or_zero. destruct (det_total_sleep_duration d); cbn; by eauto. Qed.

Lemma sleep_step_returns user sm force force_today today frd now s d :
  (detail_ok d = true -> det_total_sleep_duration d <> Null ->
   exists s', sleep_step user sm force force_today today frd now s d = Ok s')
  /\ (forall e, sleep_step user sm force force_today today frd now s d = Raise e ->
        (e = ValueError /\ detail_ok d = false)
        \/ (e = TypeError /\ det_total_sleep_duration d = Null)).
Proof.
  destruct s as [[n f] t]. unfold sleep_step, detail_ok.
  destruct (truthy_str (det_id d)); cbn [negb orb]; [|split; [by eauto|done]].
  destruct (item_date_of (det_day d)) as [dt|e0] eqn:Ed; cbn [parses andb].
  2:{ split; [done|]. cbn. intros e [= <-]. left. split; [by eapply item_date_of_raises|done]. }
  cbn [mbind result_bind].
  set (cc := match rows t !! default "" (det_id d) with
             | Some e => if negb force then change_check force_today today frd dt
                                             (summary_of sm d) d e
                         else (false, false)
             | None => (false, false)
             end).
  destruct cc as [needs_update item_has_change].
  destruct (bool_decide (is_Some (rows t !! default "" (det_id d))) && negb force
            && negb needs_update); [split; [by eauto|done]|].
  assert (Hdur : forall e, duration_or_zero d = Raise e ->
                           e = TypeError /\ det_total_sleep_duration d = Null).
  { unfold duration_or_zero. destruct (det_total_sleep_duration d); cbn; try done.
    by intros e [= <-]. }
  destruct (bedtime_of (det_bedtime_start d)) as [st|e1] eqn:Es; cbn [parses andb].
  2:{ split; [done|]. cbn. intros e [= <-]. left. split; [by eapply bedtime_of_raises|done]. }
  destruct (bedtime_of (det_bedtime_end d)) as [fi|e2] eqn:Ef; cbn [parses andb].
  2:{ split; [done|]. cbn. intros e [= <-]. left. split; [by eapply bedtime_of_raises|done]. }
  cbn [mbind result_bind].
  destruct (rows t !! default "" (det_id d)) as [e0|].
  - destruct (force || needs_update); [|split; [by eauto|done]].
    destruct needs_update; [|split; [by eauto|done]].
    destruct item_has_change; [|split; [by eauto|done]].
    destruct (duration_or_zero d) as [dur|e3] eqn:Edur; cbn.
    + split; [by eauto|done].
    + split.
      * intros _ Hn. destruct (duration_or_zero_returns d Hn) as [? ?]. congruence.
      * intros e [= <-]. right. by apply Hdur.
  - destruct (duration_or_zero d) as [dur|e3] eqn:Edur; cbn.
    + split; [by eauto|done].
    + split.
      * intros _ Hn. destruct (duration_or_zero_returns d Hn) as [? ?]. congruence.
      * intros e [= <-]. right. by apply Hdur.
Qed.


End RaiseFacts.

(** ** The pass of one user, as a whole *)

Section PassFacts.
Import OuraSync Loop Forced.
Local Open Scope list_scope.
Context `{IsoParsers} `{OuraClient}.

Ltac unbind H :=
  match type of H with
  | (?m ≫= _) = Ok _ =>
      let E := fresh "E" in
      destruct m eqn:E; [cbn [mbind result_bind] in H | discriminate H];
      repeat match goal with x : (_ * _)%type |- _ => destruct x end
  end.

(** What a pass that has returned is made of. *)
Lemma reconcile_inv user data force force_today force_recent_days now db stats change db' :
  reconcile user data force force_today force_recent_days now db = Ok (stats, change, db') ->
  let today := hk_date now in
  let frd := if 0 <? force_recent_days then Some (today - (force_recent_days - 1)) else None in
  exists n1 f1 t1 n2 f2 t2 n3 t3 n4 t4 n5 t5 n6 t6 n7 t7 n8 t8 n9 t9,
    _sync_sleep_data user (ad_sleep data) (ad_sleep_details data) force force_today today frd
      now (oura_sleep db) = Ok (n1, f1, t1)
    /\ _sync_daily_sleep_data user (ad_sleep data) force force_today today frd now
         (oura_daily_sleep db) = Ok (n2, f2, t2)
    /\ sync_daily readiness_columns_of user (ad_readiness data) force force_today today frd now
         (oura_daily_readiness db) = Ok (n3, t3)
    /\ sync_daily activity_columns_of user (ad_activity data) force force_today today frd now
         (oura_daily_activity db) = Ok (n4, t4)
    /\ sync_daily stress_columns_of user (ad_stress data) force force_today today frd now
         (oura_daily_stress db) = Ok (n5, t5)
    /\ sync_daily spo2_columns_of user (ad_spo2 data) force force_today today frd now
         (oura_daily_spo2 db) = Ok (n6, t6)
    /\ sync_daily cardiovascular_age_columns_of user (ad_cardiovascular_age data) force
         force_today today frd now (oura_cardiovascular_age db) = Ok (n7, t7)
    /\ sync_daily resilience_columns_of user (ad_resilience data) force force_today today frd
         now (oura_resilience db) = Ok (n8, t8)
    /\ sync_daily vo2_max_columns_of user (ad_vo2_max data) force force_today today frd now
         (oura_vo2_max db) = Ok (n9, t9)
    /\ stats = list_to_map
                 [("sleep", n1); ("daily_sleep", n2); ("readiness", n3); ("activity", n4);
                  ("stress", n5); ("spo2", n6); ("cardiovascular_age", n7);
                  ("resilience", n8); ("vo2_max", n9)]
    /\ change = f1 || f2
    /\ flush oura_id t1 = Ok (oura_sleep db')
    /\ flush ds_oura_id t2 = Ok (oura_daily_sleep db')
    /\ flush dr_oura_id t3 = Ok (oura_daily_readiness db')
    /\ flush dr_oura_id t4 = Ok (oura_daily_activity db')
    /\ flush dr_oura_id t5 = Ok (oura_daily_stress db')
    /\ flush dr_oura_id t6 = Ok (oura_daily_spo2 db')
    /\ flush dr_oura_id t7 = Ok (oura_cardiovascular_age db')
    /\ flush dr_oura_id t8 = Ok (oura_resilience db')
    /\ flush dr_oura_id t9 = Ok (oura_vo2_max db')
    /\ oura_auth db' = alter (synced_auth now) user (oura_auth db).
Proof.
  intros Hrun today frd. unfold reconcile in Hrun. fold today in Hrun. fold frd in Hrun.
  unfold _sync_readiness_data, _sync_activity_data, _sync_stress_data, _sync_spo2_data,
    _sync_cardiovascular_age_data, _sync_resilience_data, _sync_vo2_max_data in Hrun.
  do 18 unbind Hrun. injection Hrun as <- <- <-.
  cbn [oura_auth oura_sleep oura_daily_sleep oura_daily_readiness oura_daily_activity
       oura_daily_stress oura_daily_spo2 oura_cardiovascular_age oura_resilience
       oura_vo2_max].
  do 20 eexists. repeat (split; [first [eassumption|reflexivity]|]). reflexivity.
Qed.

Lemma sync_daily_count columns user data force force_today today frd now tbl n t :
  sync_daily columns user data force force_today today frd now tbl = Ok (n, t) ->
  0 <= n <= Z.of_nat (length data).
Proof.
  intros Hrun. unfold sync_daily in Hrun.
  apply (for_each_count _ (fun s => s.1)) in Hrun; [cbn in Hrun; lia|].
  intros [n0 t0] x [n1 t1] Hs. cbn.
  apply daily_step_turn in Hs as (Hturn & Hn & _).
  inversion Hturn; subst; cbn [added] in Hn; [lia|lia|].
  rewrite length_app in Hn. cbn in Hn. lia.
Qed.

Lemma sync_daily_sleep_count user data force force_today today frd now tbl n flag t :
  _sync_daily_sleep_data user data force force_today today frd now tbl = Ok (n, flag, t) ->
  0 <= n <= Z.of_nat (length data).
Proof.
  intros Hrun. unfold _sync_daily_sleep_data in Hrun.
  apply (for_each_count _ (fun s => s.1.1)) in Hrun; [cbn in Hrun; lia|].
  intros [[n0 f0] t0] x [[n1 f1] t1] Hs. cbn.
  apply daily_sleep_step_turn in Hs as (_ & [[= -> -> ->]|[-> _]] & _); lia.
Qed.

Lemma sync_sleep_count user sleep_data details force force_today today frd now tbl n flag t :
  _sync_sleep_data user sleep_data details force force_today today frd now tbl
  = Ok (n, flag, t) ->
  0 <= n <= Z.of_nat (length details).
Proof.
  intros Hrun. unfold _sync_sleep_data in Hrun.
  apply (for_each_count _ (fun s => s.1.1)) in Hrun; [cbn in Hrun; lia|].
  intros [[n0 f0] t0] x [[n1 f1] t1] Hs. cbn.
  apply sleep_step_turn in Hs as (_ & [[= -> ->]|[-> _]] & _); lia.
Qed.

Lemma get_access_token_cases user now db :
  (get_access_token user now db = (None, db))
  \/ (exists auth, oura_auth db !! user = Some auth /\ is_active auth = true
                   /\ truthy_str (access_token auth) = true
                   /\ token_expired auth now = false
                   /\ get_access_token user now db = (access_token auth, db))
  \/ (exists auth td, oura_auth db !! user = Some auth /\ is_active auth = true
                      /\ truthy_str (access_token auth) = true
                      /\ token_expired auth now = true
                      /\ truthy_str (refresh_token auth) = true
                      /\ refresh_access_token (default "" (refresh_token auth)) = Some td
                      /\ get_access_token user now db
                         = (td_access_token td,
                            set_oura_auth db (<[user := refreshed_auth auth td now]>
                                                (oura_auth db)))).
Proof.
  unfold get_access_token.
  destruct (oura_auth db !! user) as [auth|] eqn:Eauth; [|by left].
  destruct (is_active auth && truthy_str (access_token auth)) eqn:Eact; cbn [negb];
    [|by left].
  apply andb_true_iff in Eact as [Ea Et].
  destruct (token_expired auth now) eqn:Eexp.
  - destruct (truthy_str (refresh_token auth)) eqn:Eref; [|by left].
    destruct (refresh_access_token (default "" (refresh_token auth))) as [td|] eqn:Etd;
      [|by left].
    right. right. exists auth, td. by repeat split.
  - right. left. exists auth. by repeat split.
Qed.

Lemma access_token_frame user now db tok db1 :
  get_access_token user now db = (tok, db1) ->
  (forall u, u <> user -> oura_auth db1 !! u = oura_auth db !! u)
  /\ (truthy_str tok = true -> exists auth1, oura_auth db1 !! user = Some auth1).
Proof.
  intros Hget.
  destruct (get_access_token_cases user now db)
    as [Hc|[(auth & Ha & _ & _ & _ & Hc)|(auth & td & Ha & _ & _ & _ & _ & _ & Hc)]];
    rewrite Hc in Hget; injection Hget as <- <-.
  - split; [done|]. done.
  - split; [done|]. by eauto.
  - cbn [oura_auth set_oura_auth]. split; [intros u Hu; by rewrite lookup_insert_ne|].
    intros _. rewrite lookup_insert_eq. by eauto.
Qed.

(** X20.  [get_access_token] changes nothing but the authorisation of the
    user, and that only by a refresh, which happens only for a token whose
    expiry is strictly in the past and stores, as new expiry, the time of
    the call plus [expires_in] (a day when the vendor gives none); the
    entity tables and the other users are left as they are; a token that
    is returned non-empty is the one now stored for the user, whose
    authorisation is active; the last sync time is never changed. *)
Theorem access_token_is_the_stored_one user now db tok db' :
  get_access_token user now db = (tok, db') ->
  entities db' = entities db
  /\ (forall u, u <> user -> oura_auth db' !! u = oura_auth db !! u)
  /\ (truthy_str tok = true ->
      exists auth', oura_auth db' !! user = Some auth' /\ access_token auth' = tok
                    /\ is_active auth' = true)
  /\ (db' <> db ->
      exists auth auth' td,
        oura_auth db !! user = Some auth /\ oura_auth db' !! user = Some auth'
        /\ (exists e, token_expires_at auth = Some e /\ e < now)
        /\ refresh_access_token (default "" (refresh_token auth)) = Some td
        /\ token_expires_at auth' = Some (now + default 86400 (td_expires_in td)))
  /\ (forall auth auth', oura_auth db !! user = Some auth ->
        oura_auth db' !! user = Some auth' ->
        last_sync_at auth' = last_sync_at auth /\ is_active auth' = is_active auth).
Proof.
  intros Hget.
  destruct (get_access_token_cases user now db)
    as [Hc|[(auth & Ha & Hact & Htr & Hexp & Hc)|(auth & td & Ha & Hact & Htr & Hexp & Href
                                                  & Htd & Hc)]];
    rewrite Hc in Hget; injection Hget as <- <-.
  - split; [done|]. split; [done|]. split; [done|]. split; [done|].
    intros auth auth' Ha Ha'. rewrite Ha in Ha'. by injection Ha' as ->.
  - split; [done|]. split; [done|]. split; [by eauto|]. split; [done|].
    intros auth0 auth' Ha0 Ha'. rewrite Ha0 in Ha'. by injection Ha' as ->.
  - cbn [oura_auth set_oura_auth]. split; [done|].
    split; [intros u Hu; by rewrite lookup_insert_ne|].
    split; [intros _; rewrite lookup_insert_eq; by eauto|]. split.
    + intros _. exists auth, (refreshed_auth auth td now), td.
      rewrite lookup_insert_eq. split; [done|]. split; [done|]. split; [|done].
      unfold token_expired in Hexp. destruct (token_expires_at auth) as [e|]; [|done].
      exists e. split; [done|]. by apply Z.ltb_lt.
    + intros auth0 auth' Ha0. rewrite lookup_insert_eq. intros [= <-].
      rewrite Ha in Ha0. by injection Ha0 as ->.
Qed.

(** X21.  a pass that raises commits nothing of the streams: the database is
    the one [get_access_token] has left, so the entity tables are as
    before the pass, the last sync time of every user is unchanged, and a
    refreshed token stays committed. *)
Theorem raised_pass_is_rolled_back user days force force_today force_recent_days now db e
    db' :
  sync_user_data user days force force_today force_recent_days now db = (Raised e, db') ->
  db' = (get_access_token user now db).2
  /\ truthy_str (get_access_token user now db).1 = true
  /\ entities db' = entities db
  /\ (forall u auth', oura_auth db' !! u = Some auth' ->
        exists auth, oura_auth db !! u = Some auth
                     /\ last_sync_at auth' = last_sync_at auth).
Proof.
  unfold sync_user_data.
  destruct (get_access_token user now db) as [tok db1] eqn:Hget. cbn [fst snd].
  destruct (truthy_str tok) eqn:Htok; cbn [negb]; [|done].
  destruct (reconcile _ _ _ _ _ _ _) as [[[stats ch] db2]|e0]; [done|].
  intros [= <- <-]. split; [done|]. split; [done|].
  destruct (get_access_token_cases user now db)
    as [Hc|[(auth & Ha & _ & _ & _ & Hc)|(auth & td & Ha & _ & _ & _ & _ & _ & Hc)]];
    rewrite Hc in Hget; injection Hget as <- <-.
  - split; [done|]. by eauto.
  - split; [done|]. by eauto.
  - split; [done|]. cbn [oura_auth set_oura_auth]. intros u auth'.
    destruct (decide (u = user)) as [->|Hne].
    + rewrite lookup_insert_eq. intros [= <-]. by eauto.
    + rewrite lookup_insert_ne by done. by eauto.
Qed.

(** X22.  a pass that returns gives either the empty dictionary, when no
    usable token was found, and then it has written nothing but a possible
    refresh; or the nine counts, each between 0 and the number of records
    that the vendor gave for its stream, and then the last sync time of the
    user, and of no other user, is the time of the pass. *)
Theorem returned_pass_counts_and_sync_time user days force force_today force_recent_days
    now db stats db' :
  sync_user_data user days force force_today force_recent_days now db
  = (Returned stats, db') ->
  let token := (get_access_token user now db).1 in
  let data := get_all_daily_data (default "" token) (hk_date now - (days - 1))
                (hk_date now + 1) in
  (truthy_str token = false /\ stats = ∅ /\ db' = (get_access_token user now db).2)
  \/ (truthy_str token = true
      /\ (exists n1 n2 n3 n4 n5 n6 n7 n8 n9,
            stats = list_to_map
                      [("sleep", n1); ("daily_sleep", n2); ("readiness", n3);
                       ("activity", n4); ("stress", n5); ("spo2", n6);
                       ("cardiovascular_age", n7); ("resilience", n8); ("vo2_max", n9)]
            /\ 0 <= n1 <= Z.of_nat (length (ad_sleep_details data))
            /\ 0 <= n2 <= Z.of_nat (length (ad_sleep data))
            /\ 0 <= n3 <= Z.of_nat (length (ad_readiness data))
            /\ 0 <= n4 <= Z.of_nat (length (ad_activity data))
            /\ 0 <= n5 <= Z.of_nat (length (ad_stress data))
            /\ 0 <= n6 <= Z.of_nat (length (ad_spo2 data))
            /\ 0 <= n7 <= Z.of_nat (length (ad_cardiovascular_age data))
            /\ 0 <= n8 <= Z.of_nat (length (ad_resilience data))
            /\ 0 <= n9 <= Z.of_nat (length (ad_vo2_max data)))
      /\ (exists auth', oura_auth db' !! user = Some auth'
                        /\ last_sync_at auth' = Some now /\ auth_updated_at auth' = now)
      /\ (forall u, u <> user -> oura_auth db' !! u = oura_auth db !! u)).
Proof.
  unfold sync_user_data.
  destruct (get_access_token user now db) as [tok db1] eqn:Hget. cbn [fst snd].
  destruct (truthy_str tok) eqn:Htok; cbn [negb].
  2:{ intros [= <- <-]. by left. }
  destruct (reconcile _ _ _ _ _ _ _) as [[[stats0 ch] db2]|e0] eqn:Hrec; [|done].
  intros [= <- <-]. right. split; [done|].
  apply reconcile_inv in Hrec
    as (n1 & f1 & t1 & n2 & f2 & t2 & n3 & t3 & n4 & t4 & n5 & t5 & n6 & t6 & n7 & t7 & n8 & t8
        & n9 & t9 & H1 & H2 & H3 & H4 & H5 & H6 & H7 & H8 & H9 & -> & _ & _ & _ & _ & _ & _
        & _ & _ & _ & _ & Hauth).
  split.
  { exists n1, n2, n3, n4, n5, n6, n7, n8, n9. split; [done|].
    apply sync_sleep_count in H1. apply sync_daily_sleep_count in H2.
    apply sync_daily_count in H3. apply sync_daily_count in H4.
    apply sync_daily_count in H5. apply sync_daily_count in H6.
    apply sync_daily_count in H7. apply sync_daily_count in H8.
    apply sync_daily_count in H9. done. }
  rewrite Hauth.
  destruct (access_token_frame user now db tok db1 Hget) as (Hother & Hsome).
  destruct (Hsome Htok) as (auth1 & Ha1).
  split.
  - exists (synced_auth now auth1). rewrite lookup_alter_eq, Ha1. done.
  - intros u Hu. rewrite lookup_alter_ne by done. by apply Hother.
Qed.

End PassFacts.

(** ** Passes that return, users in a row, the client and the endpoint *)

Section WholeFacts.
Import OuraSync Loop Forced WellFormed.
Local Open Scope list_scope.
Context `{IsoParsers}.

Lemma sync_sleep_returns user sleep_data details force force_today today frd now tbl :
  Forall (fun d => detail_ok d = true /\ det_total_sleep_duration d <> Null) details ->
  exists r, _sync_sleep_data user sleep_data details force force_today today frd now tbl
            = Ok r.
Proof.
  unfold _sync_sleep_data. generalize (0, false, {| rows := tbl; added := @nil OuraSleep |}).
  induction details as [|d l IH]; intros s Hall; cbn [for_each]; [by eauto|].
  apply Forall_cons in Hall as [[Hd Hn] Hl].
  destruct (sleep_step_returns user (summary_map_of sleep_data) force force_today today frd
              now s d) as [Hok _].
  destruct (Hok Hd Hn) as [s1 ->]. cbn. by apply IH.
Qed.

Lemma stream_commits columns user data force force_today today frd now
    (tbl : gmap string daily_row) :
  stream_ok tbl data ->
  exists n t m, sync_daily columns user data force force_today today frd now tbl = Ok (n, t)
                /\ flush dr_oura_id t = Ok m.
Proof.
  intros [Hok Hnd].
  destruct (proj2 (for_each_returns
                     (daily_step columns user force force_today today frd now) item_ok data
                     (fun s x => proj1 (daily_step_returns columns user force force_today
                                          today frd now s x))
                     (fun s x => proj1 (proj2 (daily_step_returns columns user force
                                                 force_today today frd now s x)))
                     (0, {| rows := tbl; added := [] |})) Hok) as [[n t] Hrun].
  exists n, t. pose proof (sync_daily_turns _ _ _ _ _ _ _ _ _ _ _ Hrun) as (Hdom & _ & Hk & _).
  destruct (flush_after_loop item_key dr_oura_id tbl data t Hdom Hk) as [Hflush _].
  destruct (Hflush Hnd) as (m & Hm & _). by exists m.
Qed.

Lemma daily_sleep_commits user data force force_today today frd now
    (tbl : gmap string OuraDailySleep) :
  stream_ok tbl data ->
  exists n f t m,
    _sync_daily_sleep_data user data force force_today today frd now tbl = Ok (n, f, t)
    /\ flush ds_oura_id t = Ok m.
Proof.
  intros [Hok Hnd].
  destruct (proj2 (for_each_returns
                     (daily_sleep_step user force force_today today frd now) item_ok data
                     (fun s x => proj1 (daily_sleep_step_returns user force force_today
                                          today frd now s x))
                     (fun s x => proj1 (proj2 (daily_sleep_step_returns user force
                                                 force_today today frd now s x)))
                     (0, false, {| rows := tbl; added := [] |})) Hok) as [[[n f] t] Hrun].
  exists n, f, t.
  pose proof (sync_daily_sleep_turns _ _ _ _ _ _ _ _ _ _ _ Hrun) as (Hdom & _ & Hk & _).
  destruct (flush_after_loop item_key ds_oura_id tbl data t Hdom Hk) as [Hflush _].
  destruct (Hflush Hnd) as (m & Hm & _). by exists m.
Qed.

Lemma periods_commit user sleep_data details force force_today today frd now
    (tbl : gmap string OuraSleep) :
  periods_ok tbl details ->
  exists n f t m,
    _sync_sleep_data user sleep_data details force force_today today frd now tbl
    = Ok (n, f, t)
    /\ flush oura_id t = Ok m.
Proof.
  intros [Hok Hnd].
  destruct (sync_sleep_returns user sleep_data details force force_today today frd now tbl Hok)
    as [[[n f] t] Hrun].
  exists n, f, t.
  pose proof (sync_sleep_turns _ _ _ _ _ _ _ _ _ _ _ _ Hrun) as (Hdom & _ & Hk & _).
  destruct (flush_after_loop detail_key oura_id tbl details t Hdom Hk) as [Hflush _].
  destruct (Hflush Hnd) as (m & Hm & _). by exists m.
Qed.

Lemma well_formed_reconcile user data force force_today force_recent_days now db :
  well_formed data db ->
  exists r, reconcile user data force force_today force_recent_days now db = Ok r.
Proof.
  intros (W1 & W2 & W3 & W4 & W5 & W6 & W7 & W8 & W9). unfold reconcile.
  unfold _sync_readiness_data, _sync_activity_data, _sync_stress_data, _sync_spo2_data,
    _sync_cardiovascular_age_data, _sync_resilience_data, _sync_vo2_max_data.
  set (today := hk_date now).
  set (frd := if 0 <? force_recent_days then Some (today - (force_recent_days - 1)) else None).
  destruct (periods_commit user (ad_sleep data) _ force force_today today frd now _ W1)
    as (n1 & f1 & t1 & m1 & -> & F1).
  destruct (daily_sleep_commits user _ force force_today today frd now _ W2)
    as (n2 & f2 & t2 & m2 & -> & F2).
  destruct (stream_commits readiness_columns_of user _ force force_today today frd now _ W3)
    as (n3 & t3 & m3 & -> & F3).
  destruct (stream_commits activity_columns_of user _ force force_today today frd now _ W4)
    as (n4 & t4 & m4 & -> & F4).
  destruct (stream_commits stress_columns_of user _ force force_today today frd now _ W5)
    as (n5 & t5 & m5 & -> & F5).
  destruct (stream_commits spo2_columns_of user _ force force_today today frd now _ W6)
    as (n6 & t6 & m6 & -> & F6).
  destruct (stream_commits cardiovascular_age_columns_of user _ force force_today today frd
              now _ W7) as (n7 & t7 & m7 & -> & F7).
  destruct (stream_commits resilience_columns_of user _ force force_today today frd now _ W8)
    as (n8 & t8 & m8 & -> & F8).
  destruct (stream_commits vo2_max_columns_of user _ force force_today today frd now _ W9)
    as (n9 & t9 & m9 & -> & F9).
  cbn [mbind result_bind]. rewrite F1, F2, F3, F4, F5, F6, F7, F8, F9.
  cbn [mbind result_bind]. by eexists.
Qed.

Lemma well_formed_entities data db db1 :
  entities db1 = entities db -> well_formed data db -> well_formed data db1.
Proof.
  intros Hent. apply entities_eq in Hent as (T1 & T2 & T3 & T4 & T5 & T6 & T7 & T8 & T9).
  unfold well_formed. by rewrite T1, T2, T3, T4, T5, T6, T7, T8, T9.
Qed.

Section WithClient.
Context `{OuraClient}.

Lemma sync_user_data_frame user days force force_today force_recent_days now db u :
  u <> user ->
  oura_auth (sync_user_data user days force force_today force_recent_days now db).2 !! u
  = oura_auth db !! u.
Proof.
  intros Hu. unfold sync_user_data.
  destruct (get_access_token user now db) as [tok db1] eqn:Hget.
  destruct (access_token_frame user now db tok db1 Hget) as [Hother _].
  destruct (truthy_str tok); cbn [negb snd]; [|by apply Hother].
  destruct (reconcile _ _ _ _ _ _ _) as [[[stats ch] db2]|e] eqn:Hrec; cbn [snd];
    [|by apply Hother].
  apply reconcile_inv in Hrec. cbn zeta in Hrec.
  destruct Hrec as (? & ? & ? & ? & ? & ? & ? & ? & ? & ? & ? & ? & ? & ? & ? & ? & ? & ?
                    & ? & ? & Hrest).
  do 20 (destruct Hrest as [_ Hrest]). rewrite Hrest, lookup_alter_ne by done. by apply Hother.
Qed.

End WithClient.

End WholeFacts.

(** ** The loops on payloads with a null [contributors] *)

Section NullableFacts.
Import OuraSync Loop Forced.
Local Open Scope list_scope.
Context `{IsoParsers}.

Lemma for_each_fmap {A B S} (body : S -> B -> result S) (f : A -> B) (data : list A) :
  forall s, for_each body (f <$> data) s = for_each (fun s x => body s (f x)) data s.
Proof.
  induction data as [|x l IH]; intros s; cbn [fmap list_fmap for_each]; [done|].
  destruct (body s (f x)); cbn; [apply IH|done].
Qed.

Lemma for_each_agree {A S} (body body' : S -> A -> result S) (P : A -> Prop) (data : list A) :
  (forall s x, P x -> body' s x = body s x) ->
  Forall P data -> forall s, for_each body' data s = for_each body data s.
Proof.
  intros Hb. induction 1 as [|x l Hx _ IH]; intros s; cbn [for_each]; [done|].
  rewrite (Hb s x Hx). destruct (body s x); cbn; [apply IH|done].
Qed.

Lemma contributors_read_present c :
  Nullable.is_null c = false -> exists m, Nullable.contributors_read c = Ok m.
Proof. destruct c; cbn; by eauto. Qed.

Lemma contributors_read_null c :
  Nullable.is_null c = true -> Nullable.contributors_read c = Raise AttributeError.
Proof. by destruct c. Qed.

(** A turn of the loop on such a payload is the turn of [OuraSync] on the
    payload it stands for, unless the record is written and its
    [contributors] is null. *)
Lemma daily_step_cases columns user force force_today today frd now s x :
  Nullable.daily_step_raw columns user force force_today today frd now s x
  = daily_step columns user force force_today today frd now s (Nullable.item_of x)
  \/ (Nullable.daily_step_raw columns user force force_today today frd now s x
      = Raise AttributeError
      /\ Nullable.null_item x = true).
Proof.
  destruct s as [n t]. unfold Nullable.daily_step_raw, daily_step, Nullable.null_item.
  cbn [Nullable.item_of item_id item_day].
  destruct (truthy_str (Nullable.raw_id x)); cbn [negb andb]; [|by left].
  destruct (item_date_of (Nullable.raw_day x)) as [d|e0]; cbn [mbind result_bind]; [|by left].
  destruct (Nullable.is_null (Nullable.raw_contributors x)) eqn:En.
  - rewrite (contributors_read_null _ En).
    destruct (rows t !! default "" (Nullable.raw_id x)); [|by right].
    destruct (negb _); [by left|by right].
  - destruct (contributors_read_present _ En) as [m ->]. by left.
Qed.

Lemma daily_step_present columns user force force_today today frd now s x :
  Nullable.null_item x = false ->
  Nullable.daily_step_raw columns user force force_today today frd now s x
  = daily_step columns user force force_today today frd now s (Nullable.item_of x).
Proof.
  intros Hn.
  destruct (daily_step_cases columns user force force_today today frd now s x)
    as [?|[_ ?]]; [done|congruence].
Qed.

Lemma daily_step_raw_forced columns user force_today today frd now s x s' :
  Nullable.daily_step_raw columns user true force_today today frd now s x = Ok s' ->
  Nullable.null_item x = false.
Proof.
  destruct s as [n t]. unfold Nullable.daily_step_raw, Nullable.null_item.
  destruct (truthy_str (Nullable.raw_id x)); cbn [negb andb]; [|done].
  destruct (item_date_of (Nullable.raw_day x)) as [d|e0]; cbn [mbind result_bind]; [|done].
  destruct (Nullable.is_null (Nullable.raw_contributors x)) eqn:En; [|done].
  rewrite (contributors_read_null _ En). cbn [should_force orb negb].
  by destruct (rows t !! default "" (Nullable.raw_id x)).
Qed.

Lemma daily_sleep_step_cases user force force_today today frd now s x :
  Nullable.daily_sleep_step_raw user force force_today today frd now s x
  = daily_sleep_step user force force_today today frd now s (Nullable.item_of x)
  \/ (Nullable.daily_sleep_step_raw user force force_today today frd now s x
      = Raise AttributeError
      /\ Nullable.null_item x = true).
Proof.
  destruct s as [[n f] t].
  unfold Nullable.daily_sleep_step_raw, daily_sleep_step, Nullable.null_item.
  cbn [Nullable.item_of item_id item_day item_score].
  destruct (truthy_str (Nullable.raw_id x)); cbn [negb andb]; [|by left].
  destruct (item_date_of (Nullable.raw_day x)) as [d|e0]; cbn [mbind result_bind]; [|by left].
  destruct (Nullable.is_null (Nullable.raw_contributors x)) eqn:En.
  - rewrite (contributors_read_null _ En).
    destruct (rows t !! default "" (Nullable.raw_id x)); [|by right].
    destruct (negb _); [by left|by right].
  - destruct (contributors_read_present _ En) as [m ->]. by left.
Qed.

Lemma daily_sleep_step_present user force force_today today frd now s x :
  Nullable.null_item x = false ->
  Nullable.daily_sleep_step_raw user force force_today today frd now s x
  = daily_sleep_step user force force_today today frd now s (Nullable.item_of x).
Proof.
  intros Hn.
  destruct (daily_sleep_step_cases user force force_today today frd now s x)
    as [?|[_ ?]]; [done|congruence].
Qed.

Lemma daily_sleep_step_raw_forced user force_today today frd now s x s' :
  Nullable.daily_sleep_step_raw user true force_today today frd now s x = Ok s' ->
  Nullable.null_item x = false.
Proof.
  destruct s as [[n f] t]. unfold Nullable.daily_sleep_step_raw, Nullable.null_item.
  destruct (truthy_str (Nullable.raw_id x)); cbn [negb andb]; [|done].
  destruct (item_date_of (Nullable.raw_day x)) as [d|e0]; cbn [mbind result_bind]; [|done].
  destruct (Nullable.is_null (Nullable.raw_contributors x)) eqn:En; [|done].
  rewrite (contributors_read_null _ En). cbn [should_force orb negb].
  by destruct (rows t !! default "" (Nullable.raw_id x)).
Qed.

(** What a loop of such turns does, from what its turns do. *)
Lemma for_each_cases {A B S} (body' : S -> A -> result S) (body : S -> B -> result S)
    (f : A -> B) (ok : B -> bool) (null : A -> bool) (data : list A) :
  (forall s x, body' s x = body s (f x) \/ (body' s x = Raise AttributeError /\ null x = true)) ->
  (forall s x, ok x = true -> exists s', body s x = Ok s') ->
  (forall s x s', body s x = Ok s' -> ok x = true) ->
  forall s,
    (Forall (fun x => ok (f x) = true /\ null x = false) data ->
     exists s', for_each body' data s = Ok s')
    /\ ((exists s', for_each body' data s = Ok s') -> Forall (fun x => ok (f x) = true) data)
    /\ (forall e, for_each body' data s = Raise e ->
          (exists s1 x, x ∈ data /\ body s1 (f x) = Raise e)
          \/ (e = AttributeError /\ exists x, x ∈ data /\ null x = true)).
Proof.
  intros Hcases Hok Hko. induction data as [|x l IH]; intros s; cbn [for_each].
  - split; [by eauto|]. split; [constructor|done].
  - split; [|split].
    + intros [[Hx Hn] Hl]%Forall_cons.
      destruct (Hcases s x) as [->|[_ ?]]; [|congruence].
      destruct (Hok s (f x) Hx) as [s1 ->]. cbn. by apply IH.
    + intros [s' Hrun]. destruct (Hcases s x) as [E|[E _]]; rewrite E in Hrun; [|done].
      destruct (body s (f x)) as [s1|] eqn:Eb; [|done]. cbn in Hrun.
      constructor; [by eapply Hko|]. apply (IH s1). by eexists.
    + intros e Hrun. destruct (Hcases s x) as [E|[E Hn]]; rewrite E in Hrun.
      * destruct (body s (f x)) as [s1|e1] eqn:Eb; cbn in Hrun.
        -- destruct (IH s1) as (_ & _ & Hr).
           destruct (Hr e Hrun) as [(s2 & y & Hy & Hb)|[-> (y & Hy & Hb)]].
           ++ left. exists s2, y. split; [by right|done].
           ++ right. split; [done|]. exists y. split; [by right|done].
        -- injection Hrun as ->. left. exists s, x. split; [by left|done].
      * injection Hrun as <-. right. split; [done|]. exists x. split; [by left|done].
Qed.

Lemma for_each_forced {A S} (body' : S -> A -> result S) (null : A -> bool) (data : list A) :
  (forall s x s', body' s x = Ok s' -> null x = false) ->
  forall s, (exists s', for_each body' data s = Ok s') -> Forall (fun x => null x = false) data.
Proof.
  intros Hb. induction data as [|x l IH]; intros s [s' Hrun]; cbn [for_each] in Hrun;
    [constructor|].
  destruct (body' s x) as [s1|] eqn:E; [|done]. cbn in Hrun.
  constructor; [by eapply Hb|]. apply (IH s1). by eexists.
Qed.

Lemma plain_loop_returns columns user items force force_today today frd now
    (dailies : gmap string daily_row) :
  ((exists r, sync_daily columns user items force force_today today frd now dailies = Ok r)
   <-> Forall (fun x => item_ok x = true) items)
  /\ (forall e, sync_daily columns user items force force_today today frd now dailies = Raise e ->
        e = ValueError).
Proof.
  split.
  - apply for_each_returns.
    + intros s x. apply daily_step_returns.
    + intros s x. apply daily_step_returns.
  - intros e Hr. apply for_each_raises in Hr as (s & x & _ & Hx).
    by eapply daily_step_returns.
Qed.

Lemma item_ok_false_raises columns user force force_today today frd now s x e :
  daily_step columns user force force_today today frd now s x = Raise e ->
  e = ValueError /\ item_ok x = false.
Proof.
  intros Hr. split; [by eapply daily_step_returns|].
  destruct (item_ok x) eqn:E; [|done].
  destruct (proj1 (daily_step_returns columns user force force_today today frd now s x) E)
    as [s' Hs]. congruence.
Qed.

Lemma item_ok_false_raises_score user force force_today today frd now s x e :
  daily_sleep_step user force force_today today frd now s x = Raise e ->
  e = ValueError /\ item_ok x = false.
Proof.
  intros Hr. split; [by eapply daily_sleep_step_returns|].
  destruct (item_ok x) eqn:E; [|done].
  destruct (proj1 (daily_sleep_step_returns user force force_today today frd now s x) E)
    as [s' Hs]. congruence.
Qed.

(** X17.  the loops of the daily streams.  The four that read no
    [contributors] (stress, SpO2, cardiovascular age, VO2 max) return
    exactly when the day of every record that has an id parses, and raise
    nothing but [ValueError].  The three plain loops that read it and the
    loop of the daily sleep scores return when moreover no record with an
    id has a null [contributors]; they do not return unless the days parse
    nor, under [force], unless no such [contributors] is null; and they
    raise nothing but [ValueError], for a malformed day, and
    [AttributeError], for a null [contributors]. *)
Theorem daily_loops_returns_and_exceptions columns user (data : list Nullable.raw_item)
    (items : list item) force force_today today frd now
    (dailies : gmap string daily_row) (daily_sleeps : gmap string OuraDailySleep) :
  let plain := Nullable.sync_daily_raw columns user data force force_today today frd now dailies in
  let scores :=
    Nullable._sync_daily_sleep_data_raw user data force force_today today frd now daily_sleeps in
  (forall loop,
      loop ∈ [_sync_stress_data; _sync_spo2_data; _sync_cardiovascular_age_data;
              _sync_vo2_max_data] ->
      ((exists r, loop user items force force_today today frd now dailies = Ok r)
       <-> Forall (fun x => item_ok x = true) items)
      /\ (forall e, loop user items force force_today today frd now dailies = Raise e ->
            e = ValueError))
  /\ (Forall (fun x => item_ok (Nullable.item_of x) = true /\ Nullable.null_item x = false) data ->
      (exists r, plain = Ok r) /\ (exists r, scores = Ok r))
  /\ ((exists r, plain = Ok r) \/ (exists r, scores = Ok r) ->
      Forall (fun x => item_ok (Nullable.item_of x) = true) data)
  /\ (force = true -> (exists r, plain = Ok r) \/ (exists r, scores = Ok r) ->
      Forall (fun x => Nullable.null_item x = false) data)
  /\ (forall e, plain = Raise e \/ scores = Raise e ->
        (e = ValueError /\ exists x, x ∈ data /\ item_ok (Nullable.item_of x) = false)
        \/ (e = AttributeError /\ exists x, x ∈ data /\ Nullable.null_item x = true)).
Proof.
  intros plain scores.
  pose proof (for_each_cases
                (Nullable.daily_step_raw columns user force force_today today frd now)
                (daily_step columns user force force_today today frd now)
                Nullable.item_of item_ok Nullable.null_item data
                (daily_step_cases columns user force force_today today frd now)
                (fun s x => proj1 (daily_step_returns columns user force force_today today
                                     frd now s x))
                (fun s x => proj1 (proj2 (daily_step_returns columns user force force_today
                                            today frd now s x)))
                (0, {| rows := dailies; added := [] |})) as (P1 & P2 & P3).
  pose proof (for_each_cases
                (Nullable.daily_sleep_step_raw user force force_today today frd now)
                (daily_sleep_step user force force_today today frd now)
                Nullable.item_of item_ok Nullable.null_item data
                (daily_sleep_step_cases user force force_today today frd now)
                (fun s x => proj1 (daily_sleep_step_returns user force force_today today
                                     frd now s x))
                (fun s x => proj1 (proj2 (daily_sleep_step_returns user force force_today
                                            today frd now s x)))
                (0, false, {| rows := daily_sleeps; added := [] |})) as (S1 & S2 & S3).
  split; [|split; [|split; [|split]]].
  - intros loop Hloop. repeat (apply elem_of_cons in Hloop as [->|Hloop]);
      [apply plain_loop_returns..|by apply elem_of_nil in Hloop].
  - intros Hall. split; [by apply P1|by apply S1].
  - intros [Hr|Hr]; [by apply P2|by apply S2].
  - intros -> [Hr|Hr].
    + eapply for_each_forced; [|exact Hr]. intros s x s'. apply daily_step_raw_forced.
    + eapply for_each_forced; [|exact Hr]. intros s x s'. apply daily_sleep_step_raw_forced.
  - intros e [Hr|Hr].
    + destruct (P3 e Hr) as [(s1 & x & Hx & Hb)|?]; [left|by right].
      apply item_ok_false_raises in Hb as [-> ?]. by eauto.
    + destruct (S3 e Hr) as [(s1 & x & Hx & Hb)|?]; [left|by right].
      apply item_ok_false_raises_score in Hb as [-> ?]. by eauto.
Qed.

End NullableFacts.

(** ** The sleep periods with a null [contributors] *)

Section NullablePeriods.
Import OuraSync Loop Forced.
Local Open Scope list_scope.
Context `{IsoParsers}.

Lemma summary_map_of_item_of (sleep_data : list Nullable.raw_item) :
  summary_map_of (Nullable.item_of <$> sleep_data)
  = Nullable.item_of <$> Nullable.summary_map_of_raw sleep_data.
Proof.
  unfold summary_map_of, Nullable.summary_map_of_raw.
  rewrite <- (fmap_empty Nullable.item_of) at 1.
  generalize (∅ : gmap string Nullable.raw_item).
  induction sleep_data as [|x l IH]; intros m; cbn [fmap list_fmap foldl]; [done|].
  cbn [Nullable.item_of item_day].
  destruct (truthy_str (Nullable.raw_day x)); [|apply IH].
  rewrite <- IH. by rewrite fmap_insert.
Qed.

Lemma summary_of_item_of (sm : gmap string Nullable.raw_item) (x : Nullable.raw_detail) :
  summary_of (Nullable.item_of <$> sm) (Nullable.detail_of x)
  = Nullable.item_of <$> Nullable.summary_of_raw sm x.
Proof.
  unfold summary_of, Nullable.summary_of_raw. cbn [Nullable.detail_of det_type det_day].
  destruct (is_long_sleep (Nullable.rdet_type x)); [|done].
  destruct (Nullable.rdet_day x) as [k|]; cbn; [|done]. by rewrite lookup_fmap.
Qed.

(** the summary of a period is one of the daily sleep scores *)
Lemma summary_of_elem (sleep_data : list Nullable.raw_item) (x : Nullable.raw_detail) s0 :
  Nullable.summary_of_raw (Nullable.summary_map_of_raw sleep_data) x = Some s0 -> s0 ∈ sleep_data.
Proof.
  unfold Nullable.summary_of_raw. destruct (is_long_sleep _); [|done].
  destruct (Nullable.rdet_day x) as [k|]; cbn; [|done].
  unfold Nullable.summary_map_of_raw.
  assert (Hgen : forall (l : list Nullable.raw_item) (m : gmap string Nullable.raw_item),
             foldl (fun m x => if truthy_str (Nullable.raw_day x)
                               then <[default "" (Nullable.raw_day x) := x]> m else m) m l
             !! k = Some s0 -> s0 ∈ l \/ m !! k = Some s0).
  { induction l as [|y l IH]; intros m Hm; cbn [foldl] in Hm; [by right|].
    apply IH in Hm as [?|Hm]; [left; by right|].
    destruct (truthy_str (Nullable.raw_day y)); [|by right].
    destruct (decide (default "" (Nullable.raw_day y) = k)) as [<-|Hne].
    - rewrite lookup_insert_eq in Hm. injection Hm as ->. left. by left.
    - rewrite lookup_insert_ne in Hm by done. by right. }
  intros Hm. apply Hgen in Hm as [?|Hm]; [done|]. by rewrite lookup_empty in Hm.
Qed.

Lemma summary_contributors_read_cases sm x :
  (Nullable.null_summary_of sm x = false
   /\ exists m, Nullable.summary_contributors_read (Nullable.summary_of_raw sm x) = Ok m)
  \/ (Nullable.null_summary_of sm x = true
      /\ Nullable.summary_contributors_read (Nullable.summary_of_raw sm x) = Raise AttributeError).
Proof.
  unfold Nullable.null_summary_of, Nullable.summary_contributors_read, Nullable.null_summary.
  destruct (Nullable.summary_of_raw sm x) as [s0|]; [|left; by eauto].
  destruct (Nullable.is_null (Nullable.raw_contributors s0)) eqn:En.
  - right. split; [done|]. by apply contributors_read_null.
  - left. split; [done|]. by apply contributors_read_present.
Qed.

Lemma readiness_contributors_read_cases x :
  (Nullable.null_readiness_of x = false
   /\ exists m, Nullable.readiness_contributors_read (Nullable.rdet_readiness x) = Ok m)
  \/ (Nullable.null_readiness_of x = true
      /\ Nullable.readiness_contributors_read (Nullable.rdet_readiness x)
         = Raise AttributeError).
Proof.
  unfold Nullable.null_readiness_of, Nullable.readiness_contributors_read.
  destruct (Nullable.rdet_readiness x) as [r|]; [|left; by eauto].
  destruct (Nullable.is_null (Nullable.rr_contributors r)) eqn:En.
  - right. split; [done|]. by apply contributors_read_null.
  - left. split; [done|]. by apply contributors_read_present.
Qed.

(** A turn of the loop of the periods is the turn of [OuraSync] on the
    period it stands for, unless the row is written and one of the two
    [contributors] is null. *)
Lemma sleep_step_cases user sm force force_today today frd now s x :
  Nullable.sleep_step_raw user sm force force_today today frd now s x
  = sleep_step user (Nullable.item_of <$> sm) force force_today today frd now s
      (Nullable.detail_of x)
  \/ (Nullable.sleep_step_raw user sm force force_today today frd now s x = Raise AttributeError
      /\ truthy_str (Nullable.rdet_id x) = true
      /\ (Nullable.null_summary_of sm x = true \/ Nullable.null_readiness_of x = true)).
Proof.
  destruct s as [[n f] t]. unfold Nullable.sleep_step_raw, sleep_step.
  rewrite summary_of_item_of.
  cbn [Nullable.detail_of det_id det_day det_bedtime_start det_bedtime_end].
  destruct (truthy_str (Nullable.rdet_id x)); cbn [negb]; [|by left].
  destruct (item_date_of (Nullable.rdet_day x)) as [dt|e0]; cbn [mbind result_bind];
    [|by left].
  set (cc := match rows t !! default "" (Nullable.rdet_id x) with
             | Some e => if negb force
                         then change_check force_today today frd dt
                                (Nullable.item_of <$> Nullable.summary_of_raw sm x)
                                (Nullable.detail_of x) e
                         else (false, false)
             | None => (false, false)
             end).
  destruct cc as [needs_update item_has_change].
  destruct (bool_decide (is_Some (rows t !! default "" (Nullable.rdet_id x))) && negb force
            && negb needs_update); [by left|].
  destruct (bedtime_of (Nullable.rdet_bedtime_start x)) as [st|e1]; cbn [mbind result_bind];
    [|by left].
  destruct (bedtime_of (Nullable.rdet_bedtime_end x)) as [fi|e2]; cbn [mbind result_bind];
    [|by left].
  destruct (summary_contributors_read_cases sm x) as [[Hs [m1 E1]]|[Hs E1]];
    destruct (readiness_contributors_read_cases x) as [[Hr [m2 E2]]|[Hr E2]];
    rewrite E1, ?E2; cbn [mbind result_bind].
  - by left.
  - destruct (rows t !! default "" (Nullable.rdet_id x)); [|right; by eauto].
    destruct (force || needs_update); [right; by eauto|by left].
  - destruct (rows t !! default "" (Nullable.rdet_id x)); [|right; by eauto].
    destruct (force || needs_update); [right; by eauto|by left].
  - destruct (rows t !! default "" (Nullable.rdet_id x)); [|right; by eauto].
    destruct (force || needs_update); [right; by eauto|by left].
Qed.

Lemma null_readiness_of_false x :
  Nullable.null_readiness x = false -> truthy_str (Nullable.rdet_id x) = true ->
  Nullable.null_readiness_of x = false.
Proof.
  unfold Nullable.null_readiness, Nullable.null_readiness_of. intros H1 H2. by rewrite H2 in H1.
Qed.

Lemma null_summary_of_false sleep_data x :
  Forall (fun s0 => Nullable.null_summary s0 = false) sleep_data ->
  Nullable.null_summary_of (Nullable.summary_map_of_raw sleep_data) x = false.
Proof.
  intros Hall. unfold Nullable.null_summary_of.
  destruct (Nullable.summary_of_raw _ x) as [s0|] eqn:E; [|done].
  apply summary_of_elem in E. rewrite Forall_forall in Hall. by apply Hall.
Qed.

Lemma sleep_step_present user sleep_data force force_today today frd now s x :
  Forall (fun s0 => Nullable.null_summary s0 = false) sleep_data ->
  Nullable.null_readiness x = false ->
  Nullable.sleep_step_raw user (Nullable.summary_map_of_raw sleep_data) force force_today today frd
    now s x
  = sleep_step user (summary_map_of (Nullable.item_of <$> sleep_data)) force force_today today
      frd now s (Nullable.detail_of x).
Proof.
  intros Hs Hr. rewrite summary_map_of_item_of.
  destruct (sleep_step_cases user (Nullable.summary_map_of_raw sleep_data) force force_today
              today frd now s x) as [?|(_ & Hid & [Hn|Hn])]; [done| |].
  - by rewrite null_summary_of_false in Hn.
  - by rewrite null_readiness_of_false in Hn.
Qed.

Lemma sleep_step_raw_forced user sm force_today today frd now s x s' :
  Nullable.sleep_step_raw user sm true force_today today frd now s x = Ok s' ->
  Nullable.null_readiness x = false.
Proof.
  destruct s as [[n f] t]. unfold Nullable.sleep_step_raw, Nullable.null_readiness.
  destruct (truthy_str (Nullable.rdet_id x)); cbn [negb andb]; [|done].
  destruct (item_date_of (Nullable.rdet_day x)) as [dt|e0]; cbn [mbind result_bind]; [|done].
  rewrite andb_false_r. cbn [andb].
  replace (match rows t !! default "" (Nullable.rdet_id x) with
           | Some _ => (false, false)
           | None => (false, false)
           end) with (false, false) by (by destruct (rows t !! _)).
  destruct (bedtime_of (Nullable.rdet_bedtime_start x)) as [st|e1]; cbn [mbind result_bind];
    [|done].
  destruct (bedtime_of (Nullable.rdet_bedtime_end x)) as [fi|e2]; cbn [mbind result_bind];
    [|done].
  intros Hrun.
  destruct (readiness_contributors_read_cases x) as [[Hr _]|[Hr E2]]; [exact Hr|].
  rewrite E2 in Hrun. cbn [orb] in Hrun.
  destruct (Nullable.summary_contributors_read _); cbn in Hrun;
    by destruct (rows t !! default "" (Nullable.rdet_id x)).
Qed.

(** X18.  the loop of the sleep periods returns when, for every period with
    an id, the day and the two bedtimes parse, the duration is not null and
    the [contributors] of its readiness is not null, and no daily sleep
    score has a null [contributors]; under [force] it does not return when
    the readiness of a period with an id has a null [contributors].  It
    raises nothing but [ValueError], for a period with a malformed date,
    [TypeError], for a period whose duration is null, and [AttributeError],
    for a null [contributors] in the readiness of a period or in a daily
    sleep score. *)
Theorem sleep_loop_returns_and_exceptions user sleep_data details force force_today today frd
    now tbl :
  let run :=
    Nullable._sync_sleep_data_raw user sleep_data details force force_today today frd now tbl in
  (Forall (fun x => detail_ok (Nullable.detail_of x) = true
                    /\ Nullable.rdet_total_sleep_duration x <> Null
                    /\ Nullable.null_readiness x = false) details ->
   Forall (fun s0 => Nullable.null_summary s0 = false) sleep_data ->
   exists r, run = Ok r)
  /\ (force = true -> (exists r, run = Ok r) ->
      Forall (fun x => Nullable.null_readiness x = false) details)
  /\ (forall e, run = Raise e ->
        (e = ValueError /\ exists x, x ∈ details /\ detail_ok (Nullable.detail_of x) = false)
        \/ (e = TypeError
            /\ exists x, x ∈ details /\ Nullable.rdet_total_sleep_duration x = Null)
        \/ (e = AttributeError
            /\ ((exists x, x ∈ details /\ Nullable.null_readiness x = true)
                \/ (exists s0, s0 ∈ sleep_data /\ Nullable.null_summary s0 = true)))).
Proof.
  intros run. subst run. unfold Nullable._sync_sleep_data_raw. split; [|split].
  - intros Hall Hsum.
    generalize (0, false, {| rows := tbl; added := @nil OuraSleep |}).
    induction Hall as [|x l (Hd & Hn & Hr) _ IH]; intros s; cbn [for_each]; [by eauto|].
    rewrite (sleep_step_present user sleep_data force force_today today frd now s x Hsum Hr).
    destruct (sleep_step_returns user (summary_map_of (Nullable.item_of <$> sleep_data))
                force force_today today frd now s (Nullable.detail_of x)) as [Hok _].
    destruct (Hok Hd Hn) as [s1 ->]. cbn. apply IH.
  - intros -> Hr. eapply for_each_forced; [|exact Hr]. intros s x s'. apply sleep_step_raw_forced.
  - intros e Hr. apply for_each_raises in Hr as (s & x & Hx & Hb).
    destruct (sleep_step_cases user (Nullable.summary_map_of_raw sleep_data) force force_today
                today frd now s x) as [E|(E & Hid & Hn)]; rewrite E in Hb.
    + apply sleep_step_returns in Hb as [[-> ?]|[-> ?]]; [left|right; left]; by eauto.
    + injection Hb as <-. right. right. split; [done|]. destruct Hn as [Hn|Hn].
      * right. unfold Nullable.null_summary_of in Hn.
        destruct (Nullable.summary_of_raw _ x) as [s0|] eqn:Es; [|done].
        exists s0. split; [by eapply summary_of_elem|done].
      * left. exists x. split; [done|]. unfold Nullable.null_readiness.
        rewrite Hid. exact Hn.
Qed.

End NullablePeriods.

(** ** The pass on payloads with a null [contributors] *)

Section NullablePass.
Import OuraSync Loop Forced WellFormed.
Local Open Scope list_scope.
Context `{IsoParsers}.

Lemma null_item_summary (data : list Nullable.raw_item) :
  Forall (fun x => Nullable.null_summary x = false) data ->
  Forall (fun x => Nullable.null_item x = false) data.
Proof.
  intros Hall. eapply Forall_impl; [exact Hall|]. intros x Hx.
  unfold Nullable.null_item, Nullable.null_summary in *. rewrite Hx. apply andb_false_r.
Qed.

Lemma sync_daily_present columns user data force force_today today frd now tbl :
  Forall (fun x => Nullable.null_item x = false) data ->
  Nullable.sync_daily_raw columns user data force force_today today frd now tbl
  = sync_daily columns user (Nullable.item_of <$> data) force force_today today frd now tbl.
Proof.
  intros Hall. unfold Nullable.sync_daily_raw, sync_daily. rewrite for_each_fmap.
  apply (for_each_agree _ _ (fun x => Nullable.null_item x = false)); [|done].
  intros s x. apply daily_step_present.
Qed.

Lemma sync_daily_sleep_present user data force force_today today frd now tbl :
  Forall (fun x => Nullable.null_item x = false) data ->
  Nullable._sync_daily_sleep_data_raw user data force force_today today frd now tbl
  = _sync_daily_sleep_data user (Nullable.item_of <$> data) force force_today today frd now
      tbl.
Proof.
  intros Hall. unfold Nullable._sync_daily_sleep_data_raw, _sync_daily_sleep_data.
  rewrite for_each_fmap.
  apply (for_each_agree _ _ (fun x => Nullable.null_item x = false)); [|done].
  intros s x. apply daily_sleep_step_present.
Qed.

Lemma sync_sleep_present user sleep_data details force force_today today frd now tbl :
  Forall (fun s0 => Nullable.null_summary s0 = false) sleep_data ->
  Forall (fun x => Nullable.null_readiness x = false) details ->
  Nullable._sync_sleep_data_raw user sleep_data details force force_today today frd now tbl
  = _sync_sleep_data user (Nullable.item_of <$> sleep_data) (Nullable.detail_of <$> details)
      force force_today today frd now tbl.
Proof.
  intros Hs Hall. unfold Nullable._sync_sleep_data_raw, _sync_sleep_data. rewrite for_each_fmap.
  apply (for_each_agree _ _ (fun x => Nullable.null_readiness x = false)); [|done].
  intros s x. by apply sleep_step_present.
Qed.

(** Without a null [contributors] the pass is the pass of [OuraSync] on
    the answer it stands for. *)
Lemma reconcile_present user a force force_today force_recent_days now db :
  Nullable.objects_present a ->
  Nullable.reconcile_raw user a force force_today force_recent_days now db
  = reconcile user (Nullable.data_of a) force force_today force_recent_days now db.
Proof.
  intros (O1 & O2 & O3 & O4 & O5). unfold Nullable.reconcile_raw, reconcile.
  unfold Nullable._sync_readiness_data_raw, Nullable._sync_activity_data_raw,
    Nullable._sync_resilience_data_raw, _sync_readiness_data, _sync_activity_data,
    _sync_resilience_data.
  cbn [Nullable.data_of ad_sleep ad_sleep_details ad_readiness ad_activity ad_stress ad_spo2
       ad_cardiovascular_age ad_resilience ad_vo2_max].
  rewrite (sync_sleep_present _ _ _ _ _ _ _ _ _ O1 O2).
  rewrite (sync_daily_sleep_present _ _ _ _ _ _ _ _ (null_item_summary _ O1)).
  rewrite (sync_daily_present readiness_columns_of _ _ _ _ _ _ _ _ O3).
  rewrite (sync_daily_present activity_columns_of _ _ _ _ _ _ _ _ O4).
  rewrite (sync_daily_present resilience_columns_of _ _ _ _ _ _ _ _ O5).
  reflexivity.
Qed.

(** X23.  a pass cannot raise on a well-formed answer.  When, in what the
    vendor gives for the pass, no [contributors] is null, every date that
    is read parses, no duration of a sleep period is null and no id that
    its table lacks comes twice in a stream, [sync_user_data] returns,
    whatever the policy; it is then the pass of [OuraSync] on the same
    answer. *)
Theorem well_formed_answer_is_committed (v : Nullable.raw_vendor) user days force force_today
    force_recent_days now db :
  let token := (@get_access_token (Nullable.client_of v) user now db).1 in
  let answer := Nullable.data_answer v (default "" token) (hk_date now - (days - 1))
                  (hk_date now + 1) in
  Nullable.objects_present answer ->
  well_formed (Nullable.data_of answer) db ->
  exists stats db',
    Nullable.sync_user_data_raw v user days force force_today force_recent_days now db
    = (Returned stats, db')
    /\ @sync_user_data _ (Nullable.client_of v) user days force force_today force_recent_days
         now db
       = (Returned stats, db').
Proof.
  intros token answer Hobj Hwf. unfold Nullable.sync_user_data_raw, sync_user_data.
  pose proof (@get_access_token_entities (Nullable.client_of v) user now db) as Hent.
  subst answer token.
  destruct (@get_access_token (Nullable.client_of v) user now db) as [tok db1].
  cbn [fst snd] in *.
  destruct (truthy_str tok); cbn [negb]; [|by eauto].
  rewrite (reconcile_present _ _ _ _ _ _ _ Hobj).
  cbn [get_all_daily_data Nullable.client_of].
  destruct (well_formed_reconcile user _ force force_today force_recent_days now db1
              (well_formed_entities _ _ _ Hent Hwf)) as [[[stats ch] db2] ->].
  by eauto.
Qed.

End NullablePass.

(** ** The users in a row *)

Section BatchFacts.
Import OuraSync OuraSyncAll.
Local Open Scope list_scope.
Context `{IsoParsers} `{OuraClient}.

Lemma elem_of_active_users db u :
  u ∈ active_users db <-> exists auth, oura_auth db !! u = Some auth /\ is_active auth = true.
Proof.
  unfold active_users. rewrite list_elem_of_fmap. split.
  - intros ([u' auth] & -> & Hin). apply mem_filter in Hin as [Hin Hact].
    apply elem_of_map_to_list in Hin. by exists auth.
  - intros (auth & Ha & Hact). exists (u, auth). split; [done|].
    apply mem_filter. split; [by apply elem_of_map_to_list|done].
Qed.

Lemma NoDup_filter_fst {A B} (f : A * B -> bool) (l : list (A * B)) :
  NoDup l.*1 -> NoDup (List.filter f l).*1.
Proof.
  induction l as [|x l IH]; cbn [List.filter fmap list_fmap]; [done|].
  intros [Hx Hl]%NoDup_cons. destruct (f x); cbn [fmap list_fmap]; [|by apply IH].
  apply NoDup_cons. split; [|by apply IH].
  intros Hin. apply Hx. apply list_elem_of_fmap in Hin as (y & -> & Hy).
  apply list_elem_of_fmap. exists y. split; [done|].
  apply mem_filter in Hy. tauto.
Qed.

Lemma NoDup_active_users db : NoDup (active_users db).
Proof. apply NoDup_filter_fst, NoDup_fst_map_to_list. Qed.

(** The loop over a list of users: it returns when every pass returns, with
    one entry for each user; it raises at the first pass that raises, with
    the database as that pass left it. *)
Lemma sync_users_run days clock (users : list N) :
  forall (acc : gmap N (gmap string Z)) db,
    (forall stats db', sync_users days clock users acc db = (Ok stats, db') ->
       (forall u, is_Some (stats !! u) <-> is_Some (acc !! u) \/ u ∈ users)
       /\ (forall u, u ∉ users -> oura_auth db' !! u = oura_auth db !! u))
    /\ (forall e db', sync_users days clock users acc db = (Raise e, db') ->
          e = MissingGreenlet
          /\ exists before user after stats dbu cause,
               users = before ++ user :: after
               /\ sync_users days clock before acc db = (Ok stats, dbu)
               /\ sync_user_data user days false false 0 (clock user) dbu = (Raised cause, db')
               /\ (forall u, u ∉ before ++ [user] -> oura_auth db' !! u = oura_auth db !! u)).
Proof.
  induction users as [|v l IH]; intros acc db; cbn [sync_users].
  - split.
    + intros stats db' [= <- <-]. split; [intros u; rewrite elem_of_nil; tauto|done].
    + intros e db' [=].
  - pose proof (fun u => sync_user_data_frame v days false false 0 (clock v) db u) as Hframe.
    destruct (sync_user_data v days false false 0 (clock v) db) as [[stats1|cause] db1] eqn:Ev;
      cbn [snd] in Hframe.
    + destruct (IH (<[v := stats1]> acc) db1) as [Hok Hraise]. split.
      * intros stats db' Hrun. destruct (Hok _ _ Hrun) as [Hdom Hauth]. split.
        -- intros u. rewrite Hdom, elem_of_cons. destruct (decide (u = v)) as [->|Hne].
           ++ rewrite lookup_insert_eq. split; [intros _; right; by left|].
              intros _. left. by eexists.
           ++ rewrite lookup_insert_ne by done. tauto.
        -- intros u Hu. apply not_elem_of_cons in Hu as [Hne Hu]. rewrite Hauth by done.
           by apply Hframe.
      * intros e db' Hrun.
        destruct (Hraise _ _ Hrun)
          as (-> & before & user & after & stats & dbu & cause & -> & Hb & Hu & Hrest).
        split; [done|]. exists (v :: before), user, after, stats, dbu, cause.
        split; [done|]. split; [|split; [done|]].
        -- cbn [sync_users]. by rewrite Ev.
        -- intros u Hu'. cbn [app] in Hu'. apply not_elem_of_cons in Hu' as [Hne Hu'].
           rewrite Hrest by done. by apply Hframe.
    + split; [intros stats db' [=]|]. intros e db' [= <- <-]. split; [done|].
      exists [], v, l, acc, db, cause. split; [done|]. split; [done|]. split; [done|].
      intros u Hu. cbn [app] in Hu. apply not_elem_of_cons in Hu as [Hne _]. by apply Hframe.
Qed.

(** X24.  [sync_all_active_users] returns when the pass of every active
    user returns, and then reports every user whose authorisation is active
    and no other user.  A pass that raises ends the batch: the function
    raises [MissingGreenlet], the passes of the users before it stay
    committed and the users after it are not synchronised.  The
    authorisations that are not active are left as they are in both cases. *)
Theorem batch_stops_at_the_first_raising_pass days clock db :
  let out := sync_all_active_users days clock db in
  (forall stats, out.1 = Ok stats ->
     forall u, is_Some (stats !! u)
               <-> exists auth, oura_auth db !! u = Some auth /\ is_active auth = true)
  /\ (forall e, out.1 = Raise e ->
        e = MissingGreenlet
        /\ exists before user after stats dbu cause,
             active_users db = before ++ user :: after
             /\ sync_users days clock before ∅ db = (Ok stats, dbu)
             /\ sync_user_data user days false false 0 (clock user) dbu = (Raised cause, out.2)
             /\ forall u, u ∈ after -> oura_auth out.2 !! u = oura_auth db !! u)
  /\ (forall u auth, oura_auth db !! u = Some auth -> is_active auth = false ->
        oura_auth out.2 !! u = Some auth).
Proof.
  cbn zeta. unfold sync_all_active_users.
  destruct (sync_users_run days clock (active_users db) ∅ db) as [Hok Hraise].
  destruct (sync_users days clock (active_users db) ∅ db) as [[stats|e] db'] eqn:Erun;
    cbn [fst snd].
  - destruct (Hok _ _ eq_refl) as [Hdom Hauth]. split; [|split; [done|]].
    + intros stats' [= <-] u. rewrite Hdom, lookup_empty, elem_of_active_users.
      split; [intros [[? ?]|?]; done|by right].
    + intros u auth Ha Hact. rewrite Hauth; [done|].
      rewrite elem_of_active_users. intros (auth' & Ha' & Hact'). congruence.
  - destruct (Hraise _ _ eq_refl)
      as (-> & before & user & after & stats & dbu & cause & Hsplit & Hb & Hu & Hrest).
    split; [done|]. split.
    + intros e' [= <-]. split; [done|]. exists before, user, after, stats, dbu, cause.
      split; [done|]. split; [done|]. split; [done|].
      intros u Hu'. apply Hrest. pose proof (NoDup_active_users db) as Hnd.
      rewrite Hsplit in Hnd. replace (before ++ user :: after) with ((before ++ [user]) ++ after)
        in Hnd by (by rewrite <- app_assoc).
      apply NoDup_app in Hnd as (_ & Hdisj & _). intros Hin. by apply (Hdisj u).
    + intros u auth Ha Hact. rewrite Hrest; [done|]. intros Hin.
      assert (Hact' : u ∈ active_users db).
      { rewrite Hsplit. replace (before ++ user :: after) with ((before ++ [user]) ++ after)
          by (by rewrite <- app_assoc). apply elem_of_app. by left. }
      apply elem_of_active_users in Hact' as (auth' & Ha' & ?). congruence.
Qed.

End BatchFacts.

(** ** The client and the sync endpoint *)

Section EndpointFacts.
Import OuraSync Forced OuraReaders.
Local Open Scope list_scope.
Context `{IsoParsers}.

Lemma sync_daily_nil columns user force force_today today frd now tbl :
  sync_daily columns user [] force force_today today frd now tbl
  = Ok (0, {| rows := tbl; added := [] |}).
Proof. reflexivity. Qed.

(** X25.  an endpoint of the vendor that fails is silent.  When the readiness
    collection, or the collection of the sleep periods, cannot be fetched,
    the client gives an empty list for it, and a pass that returns the nine
    counts reports 0 for that stream and leaves its table as it was. *)
Theorem failed_endpoint_is_silent (e : OuraHttp.endpoints)
    (refresh : string -> option token_data) user days force force_today force_recent_days
    now db stats db' :
  @sync_user_data _ (OuraHttp.client e refresh) user days force force_today
    force_recent_days now db = (Returned stats, db') ->
  stats <> ∅ ->
  ((forall token s f, OuraHttp.ep_daily_readiness e token s f = None) ->
   stats !! "readiness" = Some 0 /\ oura_daily_readiness db' = oura_daily_readiness db)
  /\ ((forall token s f, OuraHttp.ep_sleep e token s f = None) ->
      stats !! "sleep" = Some 0 /\ oura_sleep db' = oura_sleep db).
Proof.
  unfold sync_user_data.
  pose proof (@get_access_token_entities (OuraHttp.client e refresh) user now db) as Hent.
  destruct (@get_access_token (OuraHttp.client e refresh) user now db) as [tok db1].
  cbn [snd] in Hent.
  apply entities_eq in Hent as (T1 & _ & T3 & _).
  destruct (truthy_str tok); cbn [negb]; [|by intros [= <- <-]].
  destruct (reconcile _ _ _ _ _ _ _) as [[[stats0 ch] db2]|e0] eqn:Hrec; [|done].
  intros [= <- <-] _.
  apply reconcile_inv in Hrec
    as (n1 & f1 & t1 & n2 & f2 & t2 & n3 & t3 & n4 & t4 & n5 & t5 & n6 & t6 & n7 & t7 & n8 & t8
        & n9 & t9 & H1 & _ & H3 & _ & _ & _ & _ & _ & _ & -> & _ & F1 & _ & F3 & _).
  cbn [get_all_daily_data OuraHttp.client OuraHttp.get_all_daily_data ad_readiness
       ad_sleep_details ad_sleep] in H1, H3.
  split.
  - intros Hfail.
    unfold OuraHttp.get_daily_readiness, OuraHttp.or_empty in H3. rewrite Hfail in H3.
    cbn [default] in H3. rewrite sync_daily_nil in H3. injection H3 as <- <-.
    rewrite flush_nil in F3. injection F3 as <-. split; [reflexivity|done].
  - intros Hfail.
    unfold OuraHttp.get_sleep_details, OuraHttp.or_empty in H1. rewrite Hfail in H1.
    cbn [default] in H1. unfold _sync_sleep_data in H1. cbn [for_each] in H1.
    injection H1 as <- <- <-.
    rewrite flush_nil in F1. injection F1 as <-. split; [reflexivity|done].
Qed.

Lemma total_of_counts (counts : list (string * Z)) :
  NoDup counts.*1 ->
  map_fold (fun (_ : string) n total => total + n) 0 (list_to_map counts)
  = foldr Z.add 0 counts.*2.
Proof.
  induction counts as [|[k n] l IH]; intros Hnd; [apply map_fold_empty|].
  cbn [fmap list_fmap fst snd] in Hnd. apply NoDup_cons in Hnd as [Hk Hl].
  cbn [list_to_map foldr fmap list_fmap snd].
  rewrite map_fold_insert_L.
  - rewrite (IH Hl). cbn. lia.
  - intros. lia.
  - by apply not_elem_of_list_to_map_1.
Qed.

Section WithClient.
Context `{OuraClient}.

Lemma returned_counts user days force force_today force_recent_days now db stats db' :
  sync_user_data user days force force_today force_recent_days now db
  = (Returned stats, db') ->
  exists counts : list (string * Z),
    stats = list_to_map counts /\ NoDup counts.*1 /\ Forall (fun c => 0 <= c.2) counts
    /\ (truthy_str (get_access_token user now db).1 = false -> counts = []).
Proof.
  unfold sync_user_data.
  destruct (get_access_token user now db) as [tok db1]. cbn [fst].
  destruct (truthy_str tok); cbn [negb].
  2:{ intros [= <- <-]. exists []. split; [done|]. split; [constructor|]. done. }
  destruct (reconcile _ _ _ _ _ _ _) as [[[stats0 ch] db2]|e0] eqn:Hrec; [|done].
  intros [= <- <-].
  apply reconcile_inv in Hrec
    as (n1 & f1 & t1 & n2 & f2 & t2 & n3 & t3 & n4 & t4 & n5 & t5 & n6 & t6 & n7 & t7 & n8 & t8
        & n9 & t9 & H1 & H2 & H3 & H4 & H5 & H6 & H7 & H8 & H9 & -> & _).
  eexists. split; [reflexivity|]. split.
  { apply (bool_decide_unpack _). vm_compute. exact I. }
  split; [|done].
  apply sync_sleep_count in H1. apply sync_daily_sleep_count in H2.
  apply sync_daily_count in H3. apply sync_daily_count in H4.
  apply sync_daily_count in H5. apply sync_daily_count in H6.
  apply sync_daily_count in H7. apply sync_daily_count in H8.
  apply sync_daily_count in H9.
  repeat constructor; cbn [snd]; lia.
Qed.

(** X26.  the sync endpoint answers 422 for a number of days outside 1..30,
    without running a pass; 500 when the pass raises, and then no entity
    table has changed; and otherwise a success whose total is the sum of
    the counts, which is not negative.  A user without a usable token gets
    a success with no count and a total of 0. *)
Theorem sync_endpoint_outcomes days force user now db :
  let out := sync_oura_data days force user now db in
  (~ 1 <= days <= 30 -> out = (HTTPException 422, db))
  /\ (1 <= days <= 30 -> truthy_str (get_access_token user now db).1 = false ->
      out.1 = Response {| success := true; sync_stats := ∅; total_new := 0 |})
  /\ (forall status, out.1 = HTTPException status ->
        (status = 422 \/ status = 500) /\ entities out.2 = entities db)
  /\ (forall r, out.1 = Response r ->
        success r = true
        /\ exists counts : list (string * Z),
             sync_stats r = list_to_map counts
             /\ total_new r = foldr Z.add 0 counts.*2
             /\ Forall (fun c => 0 <= c.2) counts).
Proof.
  cbn zeta. unfold sync_oura_data.
  destruct ((1 <=? days) && (days <=? 30)) eqn:Hdays; cbn [negb].
  - apply andb_true_iff in Hdays as [?%Z.leb_le ?%Z.leb_le].
    pose proof (returned_counts user days force false 0 now db) as Hcounts.
    assert (Hraise : forall e0 db1,
              sync_user_data user days force false 0 now db = (Raised e0, db1) ->
              entities db1 = entities db).
    { unfold sync_user_data. intros e0 db1.
      pose proof (get_access_token_entities user now db) as Hent.
      destruct (get_access_token user now db) as [tok db0]. cbn [snd] in Hent.
      destruct (truthy_str tok); cbn [negb]; [|done].
      destruct (reconcile _ _ _ _ _ _ _) as [[[? ?] ?]|?]; [done|]. by intros [= _ <-]. }
    assert (Hnone : truthy_str (get_access_token user now db).1 = false ->
                    exists db1, sync_user_data user days force false 0 now db
                                = (Returned ∅, db1)).
    { unfold sync_user_data. destruct (get_access_token user now db) as [tok db0].
      cbn [fst]. intros ->. by eexists. }
    destruct (sync_user_data user days force false 0 now db) as [[stats|e0] db1].
    + clear Hnone. destruct (Hcounts stats db1 eq_refl) as (counts & -> & Hnd & Hpos & Hempty).
      cbn [fst snd]. split; [lia|]. split; [|split; [done|]].
      * intros _ Htok. rewrite (Hempty Htok). reflexivity.
      * intros r [= <-]. cbn. split; [done|]. exists counts. split; [done|].
        split; [by apply total_of_counts|done].
    + cbn [fst snd]. split; [lia|]. split; [|split; [|done]].
      * intros _ Htok. by destruct (Hnone Htok) as [? ?].
      * intros status [= <-]. split; [by right|]. by eapply Hraise.
  - apply andb_false_iff in Hdays.
    split; [done|]. split; [|split; [|done]].
    + intros Hd. exfalso. destruct Hdays as [?%Z.leb_gt|?%Z.leb_gt]; lia.
    + intros status [= <-]. split; [by left|done].
Qed.

End WithClient.

End EndpointFacts.

(** ** A pass without policy after a pass *)

Section QuietFacts.
Import OuraSync Loop Forced Quiet.
Local Open Scope list_scope.
Context `{IsoParsers}.

Lemma flush_Ok_inv {R} (rkey : R -> string) (t : table R) m :
  flush rkey t = Ok m ->
  NoDup (rkey <$> added t)
  /\ (forall r, r ∈ added t -> rows t !! rkey r = None)
  /\ m = Upsert.commit rkey (rows t) (added t).
Proof.
  unfold flush. case_bool_decide as Hd; [|done]. intros [= <-]. destruct Hd as [Hnd Hall].
  split; [done|]. split; [|done]. intros r Hr. rewrite List.Forall_forall in Hall.
  apply Hall, list_elem_of_In, list_elem_of_fmap. by exists r.
Qed.

Lemma lookup_flushed_row {R} (rkey : R -> string) (t : table R) m k :
  flush rkey t = Ok m ->
  (forall r, rows t !! k = Some r -> m !! k = Some r)
  /\ (forall r, r ∈ added t -> rkey r = k -> m !! k = Some r).
Proof.
  intros (Hnd & Hfree & ->)%flush_Ok_inv. split.
  - intros r Hr. rewrite (lookup_commit_other rkey (added t)); [done|].
    intros r' Hr' <-. rewrite (Hfree _ Hr') in Hr. done.
  - intros r Hr <-. by apply (lookup_commit_added rkey).
Qed.

(** *** the daily streams *)

Lemma daily_loop_quiet columns user data today now (m : gmap string daily_row) :
  Forall (fun x => item_ok x = true) data ->
  (forall x k, x ∈ data -> item_key x = Some k -> is_Some (m !! k)) ->
  sync_daily columns user data false false today None now m
  = Ok (0, {| rows := m; added := [] |}).
Proof.
  unfold sync_daily. generalize 0. induction data as [|x l IH]; intros n Hok Hrow; [done|].
  apply Forall_cons in Hok as [Hx Hl]. cbn [for_each].
  assert (Hstep : daily_step columns user false false today None now
                    (n, {| rows := m; added := [] |}) x
                  = Ok (n, {| rows := m; added := [] |})).
  { unfold daily_step. unfold item_ok in Hx.
    destruct (truthy_str (item_id x)) eqn:Hid; cbn [negb orb] in *; [|done].
    destruct (truthy_str_inv _ Hid) as (k & Hk & Hne).
    rewrite Hk. cbn [default from_option id rows].
    destruct (Hrow x k) as [e ->]; [by left|by apply item_key_Some; rewrite <-Hk|].
    destruct (item_date_of (item_day x)) as [d|]; [|done]. cbn.
    by destruct d. }
  rewrite Hstep. cbn. apply IH; [done|]. intros y k Hy. apply Hrow. by right.
Qed.

Lemma daily_sleep_loop_quiet user data today now (m : gmap string OuraDailySleep) :
  Forall (fun x => item_ok x = true) data ->
  (forall x k, x ∈ data -> item_key x = Some k -> is_Some (m !! k)) ->
  forall n f,
    for_each (daily_sleep_step user false false today None now) data
      (n, f, {| rows := m; added := [] |})
    = Ok (n, f, {| rows := m; added := [] |}).
Proof.
  induction data as [|x l IH]; intros Hok Hrow n f; [done|].
  apply Forall_cons in Hok as [Hx Hl]. cbn [for_each].
  assert (Hstep : daily_sleep_step user false false today None now
                    (n, f, {| rows := m; added := [] |}) x
                  = Ok (n, f, {| rows := m; added := [] |})).
  { unfold daily_sleep_step. unfold item_ok in Hx.
    destruct (truthy_str (item_id x)) eqn:Hid; cbn [negb orb] in *; [|done].
    destruct (truthy_str_inv _ Hid) as (k & Hk & Hne).
    rewrite Hk. cbn [default from_option id rows].
    destruct (Hrow x k) as [e ->]; [by left|by apply item_key_Some; rewrite <-Hk|].
    destruct (item_date_of (item_day x)) as [d|]; [|done]. cbn.
    by destruct d. }
  rewrite Hstep. cbn. apply IH; [done|]. intros y k Hy. apply Hrow. by right.
Qed.

Lemma daily_stream_settles columns user data force force_today today frd now tbl n t m
    today' now' :
  sync_daily columns user data force force_today today frd now tbl = Ok (n, t) ->
  flush dr_oura_id t = Ok m ->
  sync_daily columns user data false false today' None now' m
  = Ok (0, {| rows := m; added := [] |}).
Proof.
  intros Hrun Hflush. apply daily_loop_quiet.
  - apply (for_each_returns (daily_step columns user force force_today today frd now) item_ok
             data
             (fun s x => proj1 (daily_step_returns columns user force force_today today frd
                                  now s x))
             (fun s x => proj1 (proj2 (daily_step_returns columns user force force_today
                                         today frd now s x)))
             (0, {| rows := tbl; added := [] |})).
    by eexists.
  - apply sync_daily_turns in Hrun as (Hdom & _ & Hkeys & _).
    destruct (flush_after_loop item_key dr_oura_id tbl data t Hdom Hkeys) as [Hok Hfail].
    destruct (decide (NoDup (new_keys item_key tbl data))) as [Hnd|Hnd];
      [|rewrite (Hfail Hnd) in Hflush; discriminate Hflush].
    destruct (Hok Hnd) as (m' & Hm' & Hlook). rewrite Hm' in Hflush. injection Hflush as ->.
    intros x k Hx Hk. apply Hlook. destruct (tbl !! k) eqn:E; [left; by eexists|right].
    by exists x.
Qed.

Lemma daily_sleep_stream_settles user data force force_today today frd now tbl n f t m
    today' now' :
  _sync_daily_sleep_data user data force force_today today frd now tbl = Ok (n, f, t) ->
  flush ds_oura_id t = Ok m ->
  _sync_daily_sleep_data user data false false today' None now' m
  = Ok (0, false, {| rows := m; added := [] |}).
Proof.
  intros Hrun Hflush. unfold _sync_daily_sleep_data at 1. apply daily_sleep_loop_quiet.
  - apply (for_each_returns (daily_sleep_step user force force_today today frd now) item_ok
             data
             (fun s x => proj1 (daily_sleep_step_returns user force force_today today frd
                                  now s x))
             (fun s x => proj1 (proj2 (daily_sleep_step_returns user force force_today
                                         today frd now s x)))
             (0, false, {| rows := tbl; added := [] |})).
    by eexists.
  - apply sync_daily_sleep_turns in Hrun as (Hdom & _ & Hkeys & _).
    destruct (flush_after_loop item_key ds_oura_id tbl data t Hdom Hkeys) as [Hok Hfail].
    destruct (decide (NoDup (new_keys item_key tbl data))) as [Hnd|Hnd];
      [|rewrite (Hfail Hnd) in Hflush; discriminate Hflush].
    destruct (Hok Hnd) as (m' & Hm' & Hlook). rewrite Hm' in Hflush. injection Hflush as ->.
    intros x k Hx Hk. apply Hlook. destruct (tbl !! k) eqn:E; [left; by eexists|right].
    by exists x.
Qed.

(** *** the sleep periods *)

(** the change detection, without policy *)
Lemma change_check_no_policy today item_date summary d r :
  change_check false today None item_date summary d r
  = change_check false 0 None None summary d r.
Proof. unfold change_check. destruct (total_sleep_duration r); [|done]. by destruct item_date. Qed.

Lemma written_row_is_settled (d : detail) (summary : option item) (r : OuraSleep) dur keep :
  det_total_sleep_duration d = Val dur ->
  total_sleep_duration r = jget (det_total_sleep_duration d) ->
  sleep_score r = pick_sleep_score d summary keep ->
  sleep_score_delta r = det_sleep_score_delta d ->
  change_check false 0 None None summary d r = (false, false).
Proof.
  intros Hdur Htotal Hscore Hdelta. unfold change_check. rewrite Htotal, Hdur. cbn [jget].
  cbn [andb orb is_recent default]. rewrite Z.sub_diag. cbn [Z.abs].
  replace (300 <=? 0) with false by done. rewrite !andb_false_r. cbn [orb].
  rewrite Hscore, Hdelta. unfold pick_sleep_score.
  destruct (is_long_sleep (det_type d)); cbn [andb].
  - destruct (truthy_int (summary_score summary)) eqn:E; cbn [andb]; [|done].
    rewrite bool_decide_eq_true_2 by done. by rewrite andb_false_r.
  - destruct (det_sleep_score_delta d) as [z|]; [|done]. by rewrite Z.eqb_refl.
Qed.

Lemma skipped_row_is_settled force_today today frd item_date summary d e item_has_change :
  change_check force_today today frd item_date summary d e = (false, item_has_change) ->
  change_check false 0 None None summary d e = (false, false).
Proof.
  unfold change_check. destruct (total_sleep_duration e) as [old|]; [|done].
  cbv zeta. intros Hcc.
  match type of Hcc with
  | (?p || ?dc || ?sc, _) = _ => destruct dc; [by destruct p|]; destruct sc; [by destruct p|]
  end.
  reflexivity.
Qed.

(** What a turn of the first pass leaves for its record. *)
Lemma sleep_step_settles user sm force force_today today frd now n f t d n' f' t' k :
  sleep_step user sm force force_today today frd now (n, f, t) d = Ok (n', f', t') ->
  detail_key d = Some k ->
  (exists dur, det_total_sleep_duration d = Val dur) ->
  (exists item_date, item_date_of (det_day d) = Ok item_date)
  /\ exists r, change_check false 0 None None (summary_of sm d) d r = (false, false)
               /\ (rows t' !! k = Some r
                   \/ (r ∈ added t' /\ oura_id r = k)).
Proof.
  intros Hstep Hkey [dur Hdur]. apply detail_key_Some in Hkey as [Hid Htr].
  unfold sleep_step in Hstep. rewrite Htr, Hid in Hstep. cbn [negb default] in Hstep.
  destruct (item_date_of (det_day d)) as [item_date|] eqn:Hday; [|done].
  split; [by eexists|]. cbn in Hstep.
  destruct (rows t !! k) as [e|] eqn:Hrow.
  - destruct force; cbn in Hstep.
    + destruct (bedtime_of (det_bedtime_start d)) as [start|]; [|done]. cbn in Hstep.
      destruct (bedtime_of (det_bedtime_end d)) as [finish|]; [|done]. cbn in Hstep.
      injection Hstep as <- <- <-. eexists. split; [|left; apply lookup_insert_eq].
      by eapply written_row_is_settled.
    + destruct (change_check force_today today frd item_date (summary_of sm d) d e)
        as [needs_update item_has_change] eqn:Hcc. destruct needs_update; cbn in Hstep.
      * destruct (bedtime_of (det_bedtime_start d)) as [start|]; [|done]. cbn in Hstep.
        destruct (bedtime_of (det_bedtime_end d)) as [finish|]; [|done]. cbn in Hstep.
        assert (Hw : change_check false 0 None None (summary_of sm d) d
                       (update_sleep e d (summary_of sm d)
                          match finish with
                          | Some e0 => hk_date e0
                          | None => default (hk_date now) item_date
                          end start finish) = (false, false))
          by (by eapply written_row_is_settled).
        destruct item_has_change.
        -- destruct (duration_or_zero d); [|done]. cbn in Hstep. injection Hstep as <- <- <-.
           eexists. split; [exact Hw|left; apply lookup_insert_eq].
        -- injection Hstep as <- <- <-.
           eexists. split; [exact Hw|left; apply lookup_insert_eq].
      * injection Hstep as <- <- <-. exists e. split; [|by left].
        by eapply skipped_row_is_settled.
  - cbn in Hstep.
    destruct (bedtime_of (det_bedtime_start d)) as [start|]; [|done]. cbn in Hstep.
    destruct (bedtime_of (det_bedtime_end d)) as [finish|]; [|done]. cbn in Hstep.
    destruct (duration_or_zero d); [|done]. cbn in Hstep. injection Hstep as <- <- <-.
    eexists. split; [|right; split; [apply elem_of_app; right; apply list_elem_of_here|]].
    + by eapply written_row_is_settled.
    + reflexivity.
Qed.

(** What a turn keeps of the rows of the other ids. *)
Lemma sleep_step_others user sm force force_today today frd now n f t d n' f' t' :
  sleep_step user sm force force_today today frd now (n, f, t) d = Ok (n', f', t') ->
  (forall k, detail_key d <> Some k -> rows t' !! k = rows t !! k)
  /\ (forall r, r ∈ added t -> r ∈ added t').
Proof.
  intros Hstep. apply sleep_step_turn in Hstep as (Hturn & _).
  inversion Hturn as [?|k0 e e' Hk He Hs|k0 r0 Hk He Hr Hf]; subst; cbn [rows added].
  - done.
  - split; [|done]. intros k Hne. rewrite lookup_insert_ne; [done|]. congruence.
  - split; [done|]. intros r Hr. apply elem_of_app. by left.
Qed.

Lemma sleep_loop_settles user sm force force_today today frd now (details : list detail) :
  forall s s',
    for_each (sleep_step user sm force force_today today frd now) details s = Ok s' ->
    NoDup (omap detail_key details) ->
    Forall (fun d => truthy_str (det_id d) = true ->
                     exists dur, det_total_sleep_duration d = Val dur) details ->
    (forall k, k ∉ omap detail_key details -> rows s'.2 !! k = rows s.2 !! k)
    /\ (forall r, r ∈ added s.2 -> r ∈ added s'.2)
    /\ forall d k, d ∈ details -> detail_key d = Some k ->
         (exists item_date, item_date_of (det_day d) = Ok item_date)
         /\ exists r, change_check false 0 None None (summary_of sm d) d r = (false, false)
                      /\ (rows s'.2 !! k = Some r \/ (r ∈ added s'.2 /\ oura_id r = k)).
Proof.
  induction details as [|x l IH]; intros s s' Hrun Hnd Hall; cbn [for_each] in Hrun.
  - injection Hrun as <-. split; [done|]. split; [done|]. by intros d k ?%elem_of_nil.
  - destruct (sleep_step _ _ _ _ _ _ _ s x) as [s1|] eqn:Hx; [|done]. cbn in Hrun.
    apply Forall_cons in Hall as [Hdx Hl].
    destruct s as [[n f] t], s1 as [[n1 f1] t1].
    pose proof (sleep_step_others _ _ _ _ _ _ _ _ _ _ _ _ _ _ Hx) as [Hoth Hadd].
    assert (Hnd' : NoDup (omap detail_key l)).
    { cbn [omap list_omap] in Hnd.
      destruct (detail_key x); [by apply NoDup_cons in Hnd as [_ ?]|done]. }
    destruct (IH _ _ Hrun Hnd' Hl) as (Hrows & Hadded & Hset). cbn [snd] in *.
    split; [|split].
    + intros k Hk. cbn [omap list_omap] in Hk. rewrite Hrows.
      * apply Hoth. intros E. rewrite E in Hk. apply Hk. by left.
      * intros Hin. apply Hk. destruct (detail_key x); [by right|done].
    + intros r Hr. by apply Hadded, Hadd.
    + intros d k [->|Hd]%elem_of_cons Hk; [|by eapply Hset].
      assert (Hdur : exists dur, det_total_sleep_duration x = Val dur).
      { apply Hdx. by apply detail_key_Some in Hk as [_ ?]. }
      destruct (sleep_step_settles _ _ _ _ _ _ _ _ _ _ _ _ _ _ _ Hx Hk Hdur)
        as (Hday & r & Hq & Hr).
      split; [done|]. exists r. split; [done|].
      assert (Hfresh : k ∉ omap detail_key l).
      { cbn [omap list_omap] in Hnd. rewrite Hk in Hnd. by apply NoDup_cons in Hnd as [? _]. }
      destruct Hr as [Hr|[Hr Hid]].
      * left. by rewrite Hrows.
      * right. split; [by apply Hadded|done].
Qed.

Lemma sleep_loop_quiet user sm today now (details : list detail) (m : gmap string OuraSleep) :
  (forall d k, d ∈ details -> detail_key d = Some k ->
     (exists item_date, item_date_of (det_day d) = Ok item_date)
     /\ exists r, change_check false 0 None None (summary_of sm d) d r = (false, false)
                  /\ m !! k = Some r) ->
  forall n f,
    for_each (sleep_step user sm false false today None now) details
      (n, f, {| rows := m; added := [] |})
    = Ok (n, f, {| rows := m; added := [] |}).
Proof.
  induction details as [|x l IH]; intros Hq n f; [done|]. cbn [for_each].
  assert (Hstep : sleep_step user sm false false today None now
                    (n, f, {| rows := m; added := [] |}) x
                  = Ok (n, f, {| rows := m; added := [] |})).
  { unfold sleep_step. destruct (truthy_str (det_id x)) eqn:Hid; cbn [negb]; [|done].
    destruct (truthy_str_inv _ Hid) as (k & Hk & Hne).
    destruct (Hq x k) as ([item_date Hday] & r & Hcc & Hr);
      [by left|by apply detail_key_Some; rewrite <-Hk|].
    rewrite Hk. cbn [default from_option id rows]. rewrite Hr, Hday. cbn.
    rewrite change_check_no_policy, Hcc. reflexivity. }
  rewrite Hstep. cbn. apply IH. intros d k Hd. apply Hq. by right.
Qed.

Lemma sleep_stream_settles user sleep_data details force force_today today frd now tbl n f t
    m today' now' :
  periods_settle details ->
  _sync_sleep_data user sleep_data details force force_today today frd now tbl
  = Ok (n, f, t) ->
  flush oura_id t = Ok m ->
  _sync_sleep_data user sleep_data details false false today' None now' m
  = Ok (0, false, {| rows := m; added := [] |}).
Proof.
  intros [Hnd Hdur] Hrun Hflush. unfold _sync_sleep_data in *.
  apply sleep_loop_quiet. intros d k Hd Hk.
  destruct (sleep_loop_settles _ _ _ _ _ _ _ _ _ _ Hrun Hnd Hdur) as (_ & _ & Hset).
  destruct (Hset d k Hd Hk) as (Hday & r & Hq & Hr). split; [done|]. exists r. split; [done|].
  cbn [snd] in Hr. destruct (lookup_flushed_row oura_id t m k Hflush) as [Hrow Hadd].
  destruct Hr as [Hr|[Hr Hid]]; [by apply Hrow|by apply Hadd].
Qed.

(** *** the nine streams *)

Lemma reconcile_settles user data force force_today force_recent_days now now' db dbx
    stats1 change1 db1 :
  periods_settle (ad_sleep_details data) ->
  reconcile user data force force_today force_recent_days now db = Ok (stats1, change1, db1) ->
  entities dbx = entities db1 ->
  exists db2, reconcile user data false false 0 now' dbx = Ok (quiet_stats, false, db2)
              /\ entities db2 = entities db1.
Proof.
  intros Hper Hrun Hent.
  apply reconcile_inv in Hrun
    as (n1 & f1 & t1 & n2 & f2 & t2 & n3 & t3 & n4 & t4 & n5 & t5 & n6 & t6 & n7 & t7 & n8 & t8
        & n9 & t9 & H1 & H2 & H3 & H4 & H5 & H6 & H7 & H8 & H9 & _ & _ & F1 & F2 & F3 & F4
        & F5 & F6 & F7 & F8 & F9 & _).
  apply entities_eq in Hent as (T1 & T2 & T3 & T4 & T5 & T6 & T7 & T8 & T9).
  unfold reconcile. rewrite T1, T2, T3, T4, T5, T6, T7, T8, T9.
  cbv zeta. change (0 <? 0) with false. cbv iota. change (@None Z) with (@None date).
  rewrite (sleep_stream_settles _ _ _ _ _ _ _ _ _ _ _ _ _ (hk_date now') now' Hper H1 F1).
  cbn [mbind result_bind].
  rewrite (daily_sleep_stream_settles _ _ _ _ _ _ _ _ _ _ _ _ (hk_date now') now' H2 F2).
  cbn [mbind result_bind].
  unfold _sync_readiness_data, _sync_activity_data, _sync_stress_data, _sync_spo2_data,
    _sync_cardiovascular_age_data, _sync_resilience_data, _sync_vo2_max_data.
  rewrite (daily_stream_settles _ _ _ _ _ _ _ _ _ _ _ _ (hk_date now') now' H3 F3).
  cbn [mbind result_bind].
  rewrite (daily_stream_settles _ _ _ _ _ _ _ _ _ _ _ _ (hk_date now') now' H4 F4).
  cbn [mbind result_bind].
  rewrite (daily_stream_settles _ _ _ _ _ _ _ _ _ _ _ _ (hk_date now') now' H5 F5).
  cbn [mbind result_bind].
  rewrite (daily_stream_settles _ _ _ _ _ _ _ _ _ _ _ _ (hk_date now') now' H6 F6).
  cbn [mbind result_bind].
  rewrite (daily_stream_settles _ _ _ _ _ _ _ _ _ _ _ _ (hk_date now') now' H7 F7).
  cbn [mbind result_bind].
  rewrite (daily_stream_settles _ _ _ _ _ _ _ _ _ _ _ _ (hk_date now') now' H8 F8).
  cbn [mbind result_bind].
  rewrite (daily_stream_settles _ _ _ _ _ _ _ _ _ _ _ _ (hk_date now') now' H9 F9).
  cbn [mbind result_bind].
  rewrite !flush_nil. cbn [mbind result_bind].
  eexists. split; [reflexivity|]. reflexivity.
Qed.

Section WithClient.
Context `{OuraClient}.

(** X27.  a pass without policy after a pass finds nothing to do.  When a
    pass, under any policy, has returned, a later pass on the same local
    day with [force], [force_today] and [force_recent_days] all off, for
    which the vendor answers the same, returns too, leaves the nine entity
    tables as they are and reports 0 for every stream (or nothing, when it
    finds no token), provided that the sleep periods of the answer have
    distinct ids and a duration each. *)
Theorem quiet_pass_after_a_pass user days force force_today force_recent_days now now' db
    stats1 db1 :
  (forall tok tok' s e, get_all_daily_data tok s e = get_all_daily_data tok' s e) ->
  hk_date now' = hk_date now -> now <= now' ->
  periods_settle
    (ad_sleep_details (get_all_daily_data "" (hk_date now - (days - 1)) (hk_date now + 1))) ->
  sync_user_data user days force force_today force_recent_days now db
  = (Returned stats1, db1) ->
  exists stats2 db2,
    sync_user_data user days false false 0 now' db1 = (Returned stats2, db2)
    /\ entities db2 = entities db1
    /\ (stats2 = ∅ \/ stats2 = quiet_stats).
Proof.
  intros Hvendor Hday Hle Hper. unfold sync_user_data.
  destruct (get_access_token user now db) as [tok dbt] eqn:Etok.
  destruct (truthy_str tok) eqn:Htok; cbn [negb].
  - destruct (reconcile user _ force force_today force_recent_days now dbt)
      as [[[stats change] dbr]|] eqn:Erun; [|done].
    intros [= <- <-].
    pose proof (get_access_token_entities user now' dbr) as Hent.
    destruct (get_access_token user now' dbr) as [tok2 dbt2]. cbn [snd] in Hent.
    destruct (truthy_str tok2); cbn [negb].
    + rewrite Hday, (Hvendor _ (default "" tok)).
      rewrite (Hvendor _ "") in Erun.
      rewrite (Hvendor _ "").
      destruct (reconcile_settles user _ force force_today force_recent_days now now' dbt dbt2
                  stats change dbr Hper Erun Hent) as (db2 & -> & Hent2).
      eexists _, _. split; [reflexivity|]. split; [done|]. by right.
    + eexists _, _. split; [reflexivity|]. split; [done|]. by left.
  - intros [= <- <-].
    destruct (no_token_again user now now' db tok dbt Hle Etok Htok) as (tok' & -> & ->).
    eexists _, _. split; [reflexivity|]. split; [done|]. by left.
Qed.

End WithClient.

End QuietFacts.

(** ** The daily summaries in the loop of the sleep periods *)

Section SummaryMapFacts.
Import OuraSync Forced.
Local Open Scope list_scope.
Context `{IsoParsers}.

Lemma summary_map_of_snoc (l : list item) (x : item) :
  summary_map_of (l ++ [x])
  = if truthy_str (item_day x) then <[default "" (item_day x) := x]> (summary_map_of l)
    else summary_map_of l.
Proof. unfold summary_map_of. by rewrite foldl_app. Qed.

Lemma summary_map_last_wins (sleep_data : list item) (k : string) :
  k <> "" ->
  summary_map_of sleep_data !! k
  = last (List.filter (fun x => bool_decide (item_day x = Some k)) sleep_data).
Proof.
  intros Hk. induction sleep_data as [|x l IH] using rev_ind; [done|].
  rewrite summary_map_of_snoc, List.filter_app. cbn [List.filter].
  case_bool_decide as Hday.
  - rewrite Hday. cbn [default from_option id]. rewrite (truthy_str_Some _ _ eq_refl Hk).
    by rewrite lookup_insert_eq, last_snoc.
  - rewrite app_nil_r. destruct (truthy_str (item_day x)) eqn:Ht; [|done].
    destruct (truthy_str_inv _ Ht) as (k' & Hk' & _). rewrite Hk'. cbn [default from_option id].
    rewrite lookup_insert_ne; [done|]. intros ->. by apply Hday.
Qed.

Lemma sleep_step_nap user sm sm' force force_today today frd now s d :
  det_type d <> Some "long_sleep" ->
  sleep_step user sm force force_today today frd now s d
  = sleep_step user sm' force force_today today frd now s d.
Proof.
  intros Hnap. destruct s as [[n f] t]. unfold sleep_step.
  assert (Hs : forall m, summary_of m d = None).
  { intros m. unfold summary_of, is_long_sleep. by rewrite bool_decide_eq_false_2. }
  by rewrite (Hs sm), (Hs sm').
Qed.

(** X28.  the daily summaries reach the main sleeps only.  The rows and the
    counts of a stream of naps do not depend on the daily summaries at all;
    and the summary that a main sleep is linked to is the last one, in the
    order of the answer, that has the day of the period. *)
Theorem summaries_reach_main_sleeps_only user (sleep_data : list item)
    (sleep_details : list detail) force force_today today frd now tbl :
  (Forall (fun d => det_type d <> Some "long_sleep") sleep_details ->
   _sync_sleep_data user sleep_data sleep_details force force_today today frd now tbl
   = _sync_sleep_data user [] sleep_details force force_today today frd now tbl)
  /\ (forall d k, det_type d = Some "long_sleep" -> det_day d = Some k -> k <> "" ->
        summary_of (summary_map_of sleep_data) d
        = last (List.filter (fun x => bool_decide (item_day x = Some k)) sleep_data)).
Proof.
  split.
  - unfold _sync_sleep_data. generalize (0, false, {| rows := tbl; added := @nil OuraSleep |}).
    induction sleep_details as [|d l IH]; intros s Hall; [done|].
    apply Forall_cons in Hall as [Hd Hl]. cbn [for_each].
    rewrite (sleep_step_nap user (summary_map_of sleep_data) (summary_map_of []) _ _ _ _ _ _ _
               Hd).
    destruct (sleep_step _ _ _ _ _ _ _ s d); [|done]. cbn. by apply IH.
  - intros d k Hty Hday Hk. unfold summary_of, is_long_sleep.
    rewrite bool_decide_eq_true_2 by done. rewrite Hday. cbn.
    by apply summary_map_last_wins.
Qed.

End SummaryMapFacts.

(** ** The report of the estimator *)

Section ReportFacts.
Import SleepMetrics.
Context `{NumPy}.

(** X29.  the members of a report agree.  The estimator gives no report
    exactly when the baseline has fewer than 30 nights; in a report the
    debt, the average and the balance score are missing together, exactly
    when fewer than 5 rows lie in the 14 days, and then the quality is
    "insufficient" and the trend "unknown"; otherwise the balance score is
    the score of the debt, between 0 and 100, and the quality is "good" from
    12 rows on, "moderate" from 8 and "limited" below. *)
Theorem report_members_agree table user target_date now :
  let target := default (hk_date now) target_date in
  let rows14 := length (debt_rows table user target) in
  (calculate_sleep_debt table user target_date now = None
   <-> (length (baseline_rows table user target) < 30)%nat)
  /\ forall r, calculate_sleep_debt table user target_date now = Some r ->
       _calculate_baseline_sleep table user target = Some (baseline_sleep_minutes r)
       /\ ((rows14 < 5)%nat ->
           sleep_debt_minutes r = None /\ recent_14d_avg_minutes r = None
           /\ sleep_balance_score r = None /\ data_quality r = "insufficient"
           /\ debt_trend r = "unknown")
       /\ ((5 <= rows14)%nat ->
           exists debt score,
             sleep_debt_minutes r = Some debt /\ sleep_balance_score r = Some score
             /\ score = balance_of debt /\ 0 <= score <= 100
             /\ is_Some (recent_14d_avg_minutes r)
             /\ data_quality r = (if (12 <=? rows14)%nat then "good"
                                  else if (8 <=? rows14)%nat then "moderate" else "limited")
             /\ debt_trend r <> "unknown").
Proof.
  intros target rows14. unfold calculate_sleep_debt. fold target.
  pose proof (baseline_threshold table user target) as Hb.
  destruct (_calculate_baseline_sleep table user target) as [b|] eqn:Eb.
  - split.
    + split; [|intros Hlt; apply Hb in Hlt; done].
      destruct (length _ <? 5)%nat; [done|].
      by destruct (debt_loop b 0 (debt_rows table user target) 0 0).
    + intros r. fold rows14. destruct (rows14 <? 5)%nat eqn:E5.
      * apply Nat.ltb_lt in E5. intros [= <-]. cbn. split; [done|].
        split; [done|]. intros ?. lia.
      * apply Nat.ltb_ge in E5.
        destruct (debt_loop b 0 (debt_rows table user target) 0 0) as [wd tw].
        intros [= <-]. cbn. split; [done|]. split; [intros ?; lia|]. intros _.
        do 2 eexists. split; [reflexivity|]. split; [reflexivity|]. split; [reflexivity|].
        split; [apply balance_of_step|]. split; [by eexists|]. split; [reflexivity|].
        unfold trend_of. repeat case_match; discriminate.
  - split; [|done]. split; [intros _; by apply Hb|done].
Qed.

End ReportFacts.

(** ** Instances *)

Section MoreExamples.
Import OuraSync OuraApi OuraReaders SleepMetrics SleepSummary DatetimeHelper Loop Forced.
Import Fixtures Samples.
Local Open Scope list_scope.

Lemma balance_score_range_and_monotone_witness :
  balance_of (-90) = 100 /\ balance_of 150 = 0 /\ balance_of 150 <= balance_of (-90).
Proof.
  destruct (balance_score_range_and_monotone (-90) 150) as (_ & H1 & _ & _ & H5).
  destruct (balance_score_range_and_monotone 150 150) as (_ & _ & H3 & _).
  split; [apply H1; lia|]. split; [apply H3; lia|apply H5; lia].
Defined.

Lemma trend_reads_seven_nights_witness :
  @trend_of plain_numpy (nights 6 100 25200) = "stable".
Proof.
  apply (@trend_reads_seven_nights plain_numpy (nights 6 100 25200)). simpl. lia.
Defined.

Lemma summary_needs_one_row_of_the_day_witness :
  @get_sleep_summary plain_numpy table_nap 1 (Some 100) 0 = MultipleResultsFound.
Proof.
  destruct (@summary_needs_one_row_of_the_day plain_numpy table_nap 1 (Some 100) 0)
    as (_ & Hmany & _).
  apply (Hmany [] [] (nights 29 99 25200)
           (segment "nap" 100 (Some 1200) "sleep" None (Some 3))
           (segment "night" 100 (Some 25200) "long_sleep" None None)); reflexivity.
Defined.

Lemma minutes_round_half_up_witness :
  sec_to_min (Some 89) = Some ((89 + 30) / 60)
  /\ total_duration_minutes (daily_response 100 day_with_naps)
     = (total_duration (daily_response 100 day_with_naps) + 30) / 60.
Proof.
  destruct (minutes_round_half_up 89 100 day_with_naps) as (H1 & _ & H3).
  split; [apply H1; lia|]. apply H3. vm_compute. split; discriminate.
Defined.

Lemma readiness_base_score_and_boost_witness :
  let readiness := [stored_row "r1" 100 82] in
  let sleeps := [segment "main" 100 (Some 25200) "long_sleep" (Some 85) None;
                 boosting_nap "nap" 100 6] in
  exists resp,
    resp ∈ get_readiness_data readiness sleeps 1 7 (100 * 86400)
    /\ rr_base_score resp = (fun s => s - (0 + (6 + 0))) <$> rr_score resp
    /\ rr_nap_boost resp = Some (0 + (6 + 0)).
Proof.
  intros readiness sleeps.
  assert (Hin : get_readiness_data readiness sleeps 1 7 (100 * 86400)
                = [readiness_response {[ 100 := 6 ]} (stored_row "r1" 100 82)]).
  { vm_compute. reflexivity. }
  eexists. split; [rewrite Hin; apply list_elem_of_here|].
  destruct (readiness_base_score_and_boost readiness sleeps 1 7 (100 * 86400)
              (readiness_response {[ 100 := 6 ]} (stored_row "r1" 100 82)))
    as (_ & _ & Hbase & Hboost & _); [rewrite Hin; apply list_elem_of_here|].
  split; [exact Hbase|exact Hboost].
Defined.

Lemma week_runs_monday_to_sunday_witness :
  get_week_start 19790 = get_week_start 19792 /\ get_week_end 19790 = get_week_end 19792.
Proof.
  apply (week_runs_monday_to_sunday 19792 19790). vm_compute. split; discriminate.
Defined.

Lemma grouped_segments_are_the_rows_of_the_day_witness :
  let resp := daily_response 100 day_with_naps in
  resp ∈ get_grouped_sleep_data day_with_naps 1 7 (100 * 86400)
  /\ segments_count resp = 3%nat
  /\ total_duration resp = 1800 + (25200 + (900 + 0)).
Proof.
  intros resp.
  assert (Hin : get_grouped_sleep_data day_with_naps 1 7 (100 * 86400) = [resp]).
  { vm_compute. reflexivity. }
  assert (Hresp : resp ∈ get_grouped_sleep_data day_with_naps 1 7 (100 * 86400)).
  { rewrite Hin. apply list_elem_of_here. }
  split; [exact Hresp|].
  destruct (grouped_segments_are_the_rows_of_the_day day_with_naps 1 7 (100 * 86400) resp Hresp)
    as (_ & Hcount & _ & Htotal & _).
  split; [exact Hcount|exact Htotal].
Defined.

Lemma stored_rows_keep_their_identity_witness :
  exists r1 r2 r3,
    @_sync_sleep_data strict_iso 1 (ad_sleep one_day) (ad_sleep_details one_day)
      true false 19792 None noon stored_sleeps = Ok r1
    /\ @_sync_daily_sleep_data strict_iso 1 (ad_sleep one_day) true false 19792 None noon
         stored_daily_sleeps = Ok r2
    /\ @sync_daily strict_iso readiness_columns_of 1 (ad_readiness one_day) true false 19792
         None noon stored_dailies = Ok r3
    /\ (exists e', rows r1.2 !! "p1" = Some e' /\ user_id e' = 1%N /\ oura_id e' = "p1"
                   /\ created_at e' = 0)
    /\ (exists e', rows r2.2 !! "d1" = Some e' /\ ds_user_id e' = 1%N /\ ds_oura_id e' = "d1"
                   /\ ds_created_at e' = 0)
    /\ (exists e', rows r3.2 !! "r1" = Some e' /\ dr_user_id e' = 1%N /\ dr_oura_id e' = "r1"
                   /\ dr_created_at e' = 0).
Proof.
  destruct (@_sync_sleep_data strict_iso 1 (ad_sleep one_day) (ad_sleep_details one_day)
              true false 19792 None noon stored_sleeps) as [[[n1 f1] t1]|] eqn:E1;
    [|vm_compute in E1; discriminate E1].
  destruct (@_sync_daily_sleep_data strict_iso 1 (ad_sleep one_day) true false 19792 None noon
              stored_daily_sleeps) as [[[n2 f2] t2]|] eqn:E2;
    [|vm_compute in E2; discriminate E2].
  destruct (@sync_daily strict_iso readiness_columns_of 1 (ad_readiness one_day) true false
              19792 None noon stored_dailies) as [[n3 t3]|] eqn:E3;
    [|vm_compute in E3; discriminate E3].
  destruct (@stored_rows_keep_their_identity strict_iso readiness_columns_of 1
              (ad_sleep one_day) (ad_sleep one_day) (ad_readiness one_day)
              (ad_sleep_details one_day)
              true false 19792 None noon stored_sleeps stored_daily_sleeps stored_dailies
              n1 f1 t1 n2 f2 t2 n3 t3 E1 E2 E3)
    as (H1 & H2 & H3 & _).
  exists (n1, f1, t1), (n2, f2, t2), (n3, t3).
  split; [reflexivity|]. split; [reflexivity|]. split; [reflexivity|].
  split; [|split].
  - apply (H1 "p1" (segment "p1" 19792 (Some 25200) "long_sleep" (Some 70) None)).
    reflexivity.
  - destruct (H2 "d1" _ eq_refl) as (e' & He' & Hrest). exists e'. split; [exact He'|exact Hrest].
  - destruct (H3 "r1" _ eq_refl) as (e' & He' & Hrest). exists e'. split; [exact He'|exact Hrest].
Defined.

Lemma plain_streams_count_their_insertions_witness :
  let data := [daily "r1" "2024-03-10" 75; daily "r2" "2024-03-11" 80] in
  exists n t,
    @sync_daily strict_iso readiness_columns_of 1 data false false 19792 None noon
      stored_dailies = Ok (n, t)
    /\ n = Z.of_nat (length (added t))
    /\ dr_oura_id <$> added t = new_keys item_key stored_dailies data
    /\ rows t = stored_dailies.
Proof.
  intros data.
  destruct (@sync_daily strict_iso readiness_columns_of 1 data false false 19792 None noon
              stored_dailies) as [[n t]|] eqn:E; [|vm_compute in E; discriminate E].
  destruct (@plain_streams_count_their_insertions strict_iso readiness_columns_of 1 data
              false false 19792 None noon stored_dailies n t E) as (Hn & Hk & _ & Hrows).
  exists n, t. split; [reflexivity|]. split; [exact Hn|]. split; [exact Hk|].
  apply Hrows; reflexivity.
Defined.

End MoreExamples.


Section CommitExamples.
Import OuraSync Loop Forced Fixtures Samples.
Local Open Scope list_scope.

Lemma commit_needs_distinct_new_ids_witness :
  let distinct := [daily "r2" "2024-03-10" 75; daily "r3" "2024-03-11" 80] in
  let repeated := [daily "r2" "2024-03-10" 75; daily "r2" "2024-03-10" 76] in
  (exists r m, @sync_daily strict_iso readiness_columns_of 1 distinct false false 19792 None
                 noon stored_dailies = Ok r
               /\ flush dr_oura_id r.2 = Ok m
               /\ is_Some (m !! "r1") /\ is_Some (m !! "r2") /\ is_Some (m !! "r3"))
  /\ (exists r, @sync_daily strict_iso readiness_columns_of 1 repeated false false 19792 None
                  noon stored_dailies = Ok r
                /\ flush dr_oura_id r.2 = Raise IntegrityError).
Proof.
  intros distinct repeated. split.
  - destruct (@sync_daily strict_iso readiness_columns_of 1 distinct false false 19792 None
                noon stored_dailies) as [[n t]|] eqn:E; [|vm_compute in E; discriminate E].
    destruct (@commit_needs_distinct_new_ids strict_iso readiness_columns_of 1 distinct
                false false 19792 None noon stored_dailies n t E) as [Hok _].
    destruct Hok as (m & Hm & Hlook).
    { apply (bool_decide_unpack _). vm_compute. exact I. }
    exists (n, t), m. split; [reflexivity|]. split; [exact Hm|].
    split; [|split]; apply Hlook.
    + left. vm_compute. eexists. reflexivity.
    + right. exists (daily "r2" "2024-03-10" 75).
      split; [apply list_elem_of_here|]. split; [reflexivity|discriminate].
    + right. exists (daily "r3" "2024-03-11" 80).
      split; [apply list_elem_of_further, list_elem_of_here|]. split; [reflexivity|discriminate].
  - destruct (@sync_daily strict_iso readiness_columns_of 1 repeated false false 19792 None
                noon stored_dailies) as [[n t]|] eqn:E; [|vm_compute in E; discriminate E].
    destruct (@commit_needs_distinct_new_ids strict_iso readiness_columns_of 1 repeated
                false false 19792 None noon stored_dailies n t E) as [_ Hfail].
    exists (n, t). split; [reflexivity|]. apply Hfail.
    apply (bool_decide_unpack _). vm_compute. exact I.
Defined.

Lemma every_record_gets_a_row_witness :
  let r1 := got (0, false, no_rows)
              (@_sync_sleep_data strict_iso 1 (ad_sleep one_day) (ad_sleep_details one_day)
                 false false 19792 None noon ∅) in
  let r2 := got (0, false, no_rows)
              (@_sync_daily_sleep_data strict_iso 1 (ad_sleep one_day) false false 19792 None
                 noon ∅) in
  let m1 := got ∅ (flush oura_id r1.2) in
  let m2 := got ∅ (flush ds_oura_id r2.2) in
  flush oura_id r1.2 = Ok m1 /\ flush ds_oura_id r2.2 = Ok m2
  /\ is_Some (m1 !! "p1") /\ is_Some (m2 !! "d1").
Proof.
  intros r1 r2 m1 m2.
  assert (F1 : flush oura_id r1.2 = Ok m1) by (vm_compute; reflexivity).
  assert (F2 : flush ds_oura_id r2.2 = Ok m2) by (vm_compute; reflexivity).
  destruct (@every_record_gets_a_row strict_iso 1 (ad_sleep one_day) (ad_sleep_details one_day)
              false false 19792 None noon ∅ ∅ r1.1.1 r1.1.2 r1.2 r2.1.1 r2.1.2 r2.2 m1 m2)
    as (Hp & Hd & _); [vm_compute; reflexivity|vm_compute; reflexivity|exact F1|exact F2|].
  split; [exact F1|]. split; [exact F2|]. split.
  - apply (Hp (period "p1" "2024-03-10" "long_sleep" 25200 (Some "2024-03-10T07:00:00+08:00"))).
    + apply list_elem_of_here.
    + reflexivity.
    + discriminate.
  - apply (Hd (daily "d1" "2024-03-10" 80)).
    + apply list_elem_of_here.
    + reflexivity.
    + discriminate.
Defined.

Lemma daily_sleep_count_covers_every_write_witness :
  exists n flag t,
    @_sync_daily_sleep_data strict_iso 1 (ad_sleep one_day) true false 19792 None noon
      stored_daily_sleeps = Ok (n, flag, t)
    /\ 0 <= n <= Z.of_nat (length (ad_sleep one_day))
    /\ Z.of_nat (length (added t)) <= n.
Proof.
  destruct (@_sync_daily_sleep_data strict_iso 1 (ad_sleep one_day) true false 19792 None noon
              stored_daily_sleeps) as [[[n flag] t]|] eqn:E; [|vm_compute in E; discriminate E].
  exists n, flag, t. split; [reflexivity|].
  destruct (@daily_sleep_count_covers_every_write strict_iso 1 (ad_sleep one_day) true false
              19792 None noon stored_daily_sleeps n flag t E) as (Hn & Hlen & _).
  split; [exact Hn|exact Hlen].
Defined.

Lemma sleep_count_and_flag_witness :
  exists n flag t,
    @_sync_sleep_data strict_iso 1 (ad_sleep one_day) (ad_sleep_details one_day)
      true false 19792 None noon stored_sleeps = Ok (n, flag, t)
    /\ 0 <= n <= Z.of_nat (length (ad_sleep_details one_day))
    /\ n = Z.of_nat (length (added t)).
Proof.
  destruct (@_sync_sleep_data strict_iso 1 (ad_sleep one_day) (ad_sleep_details one_day)
              true false 19792 None noon stored_sleeps) as [[[n flag] t]|] eqn:E;
    [|vm_compute in E; discriminate E].
  exists n, flag, t. split; [reflexivity|].
  destruct (@sleep_count_and_flag strict_iso 1 (ad_sleep one_day) (ad_sleep_details one_day)
              true false 19792 None noon stored_sleeps n flag t E) as (Hn & _ & _ & _ & Hf).
  split; [exact Hn|]. apply Hf. reflexivity.
Defined.

End CommitExamples.


Section PassExamples.
Import OuraSync Loop Forced WellFormed OuraReaders Fixtures Samples.
Local Open Scope list_scope.


Lemma access_token_is_the_stored_one_witness :
  let r := @get_access_token (vendor no_data) 1 noon (authorised (noon - 60)) in
  entities r.2 = entities (authorised (noon - 60))
  /\ exists auth', oura_auth r.2 !! 1%N = Some auth' /\ access_token auth' = r.1
                   /\ is_active auth' = true.
Proof.
  intros r.
  destruct (@access_token_is_the_stored_one (vendor no_data) 1 noon (authorised (noon - 60))
              r.1 r.2) as (Hent & _ & Hsome & _); [apply surjective_pairing|].
  split; [exact Hent|]. apply Hsome. reflexivity.
Defined.

Lemma raised_pass_is_rolled_back_witness :
  let db := authorised (noon + 86400) in
  let out := @sync_user_data strict_iso
               (vendor (scores [daily "d0" "2024-03-XX" 70; daily "d1" "2024-03-09" 80]))
               1 3 false false 0 noon db in
  out.1 = Raised ValueError /\ entities out.2 = entities db.
Proof.
  intros db out.
  assert (Hout : out = (Raised ValueError, out.2)) by (vm_compute; reflexivity).
  split; [by rewrite Hout|].
  apply (@raised_pass_is_rolled_back strict_iso
           (vendor (scores [daily "d0" "2024-03-XX" 70; daily "d1" "2024-03-09" 80]))
           1 3 false false 0 noon db ValueError out.2 Hout).
Defined.

Lemma returned_pass_counts_and_sync_time_witness :
  let db := authorised (noon + 86400) in
  let out := @sync_user_data strict_iso (vendor one_day) 1 3 false false 0 noon db in
  exists stats, out.1 = Returned stats
    /\ exists auth', oura_auth out.2 !! 1%N = Some auth' /\ last_sync_at auth' = Some noon
                     /\ auth_updated_at auth' = noon.
Proof.
  intros db out.
  set (stats := list_to_map
                  [("sleep", 1); ("daily_sleep", 1); ("readiness", 1); ("activity", 0);
                   ("stress", 0); ("spo2", 0); ("cardiovascular_age", 0);
                   ("resilience", 0); ("vo2_max", 0)] : gmap string Z).
  assert (Hout : out = (Returned stats, out.2)) by (vm_compute; reflexivity).
  exists stats. split; [by rewrite Hout|].
  destruct (@returned_pass_counts_and_sync_time strict_iso (vendor one_day) 1 3 false false 0
              noon db stats out.2 Hout) as [(Htok & _)|(_ & _ & Hauth & _)].
  - vm_compute in Htok. discriminate Htok.
  - exact Hauth.
Defined.

Lemma failed_endpoint_is_silent_witness :
  let db := authorised (noon + 86400) in
  let out := @sync_user_data strict_iso (OuraHttp.client without_readiness (fun _ => None))
               1 3 false false 0 noon db in
  exists stats, out.1 = Returned stats /\ stats !! "readiness" = Some 0
                /\ oura_daily_readiness out.2 = oura_daily_readiness db.
Proof.
  intros db out.
  set (stats := list_to_map
                  [("sleep", 1); ("daily_sleep", 1); ("readiness", 0); ("activity", 0);
                   ("stress", 0); ("spo2", 0); ("cardiovascular_age", 0);
                   ("resilience", 0); ("vo2_max", 0)] : gmap string Z).
  assert (Hout : out = (Returned stats, out.2)) by (vm_compute; reflexivity).
  exists stats. split; [by rewrite Hout|].
  destruct (@failed_endpoint_is_silent strict_iso without_readiness (fun _ => None) 1 3 false
              false 0 noon db stats out.2 Hout) as [Hreadiness _].
  - intros E. apply (f_equal (fun m : gmap string Z => m !! "sleep")) in E.
    vm_compute in E. discriminate E.
  - apply Hreadiness. reflexivity.
Defined.

Lemma sync_endpoint_outcomes_witness :
  @sync_oura_data strict_iso (vendor one_day) 31 false 1 noon (authorised (noon + 86400))
  = (HTTPException 422, authorised (noon + 86400))
  /\ (@sync_oura_data strict_iso (vendor one_day) 7 false 3 noon (authorised (noon + 86400))).1
     = Response {| success := true; sync_stats := ∅; total_new := 0 |}.
Proof.
  split.
  - apply (@sync_endpoint_outcomes strict_iso (vendor one_day) 31 false 1 noon
             (authorised (noon + 86400))). lia.
  - apply (@sync_endpoint_outcomes strict_iso (vendor one_day) 7 false 3 noon
             (authorised (noon + 86400))); [lia|reflexivity].
Defined.

End PassExamples.

(** ** Null [contributors] and a batch on concrete payloads *)

Section NullableExamples.
Import OuraSync Loop Forced WellFormed OuraSyncAll Fixtures Samples.
Local Open Scope list_scope.

Lemma daily_loops_returns_and_exceptions_witness :
  @Nullable._sync_readiness_data_raw strict_iso 1 [daily_with "r1" "2024-03-10" 75 Null]
    false false 19792 None noon ∅ = Raise AttributeError
  /\ (exists r, @Nullable._sync_readiness_data_raw strict_iso 1
                  [daily_with "r1" "2024-03-10" 75 (Val balance)] false false 19792 None noon ∅
                = Ok r).
Proof.
  split.
  - destruct (@Nullable._sync_readiness_data_raw strict_iso 1
                [daily_with "r1" "2024-03-10" 75 Null] false false 19792 None noon ∅)
      as [r|e] eqn:E; [vm_compute in E; discriminate E|].
    f_equal.
    destruct (proj2 (proj2 (proj2 (proj2
                (@daily_loops_returns_and_exceptions strict_iso readiness_columns_of 1
                   [daily_with "r1" "2024-03-10" 75 Null] [] false false 19792 None noon
                   ∅ ∅)))) e (or_introl E)) as [[_ (x & Hx & Hbad)]|[He _]]; [|exact He].
    apply elem_of_cons in Hx as [->|Hx]; [|by apply elem_of_nil in Hx].
    vm_compute in Hbad. discriminate Hbad.
  - apply (proj1 (proj2 (@daily_loops_returns_and_exceptions strict_iso readiness_columns_of 1
                           [daily_with "r1" "2024-03-10" 75 (Val balance)] [] false false
                           19792 None noon ∅ ∅))).
    repeat constructor.
Defined.

(** A record with a null [contributors] whose row is stored is skipped by a
    pass without policy, and stops a pass under [force]. *)
Example null_contributors_where_the_record_is_written :
  (exists r, @Nullable._sync_readiness_data_raw strict_iso 1
               [daily_with "r1" "2024-03-10" 75 Null] false false 19793 None noon
               stored_dailies = Ok r)
  /\ @Nullable._sync_readiness_data_raw strict_iso 1 [daily_with "r1" "2024-03-10" 75 Null]
       true false 19793 None noon stored_dailies = Raise AttributeError.
Proof. split; [eexists|]; vm_compute; reflexivity. Qed.

Lemma sleep_loop_returns_and_exceptions_witness :
  (exists r, @Nullable._sync_sleep_data_raw strict_iso 1 [daily_with "d1" "2024-03-10" 80 Missing]
               [period_with "p1" "2024-03-10" 25200 (Val balance)] false false 19792 None noon
               ∅ = Ok r)
  /\ (forall r, @Nullable._sync_sleep_data_raw strict_iso 1
                  [daily_with "d1" "2024-03-10" 80 Missing]
                  [period_with "p1" "2024-03-10" 25200 Null] true false 19792 None noon ∅
                <> Ok r).
Proof.
  split.
  - apply (@sleep_loop_returns_and_exceptions strict_iso 1
             [daily_with "d1" "2024-03-10" 80 Missing]
             [period_with "p1" "2024-03-10" 25200 (Val balance)] false false 19792 None noon ∅).
    + repeat constructor. discriminate.
    + repeat constructor.
  - intros r Hr.
    pose proof (proj1 (proj2 (@sleep_loop_returns_and_exceptions strict_iso 1
                                [daily_with "d1" "2024-03-10" 80 Missing]
                                [period_with "p1" "2024-03-10" 25200 Null] true false 19792
                                None noon ∅)) eq_refl (ex_intro _ r Hr)) as Hall.
    apply Forall_cons in Hall as [Hx _]. vm_compute in Hx. discriminate Hx.
Defined.

(** The two null [contributors] of the loop of the periods: in the
    readiness of a period, and in the daily score of a main sleep. *)
Example null_contributors_of_a_period :
  @Nullable._sync_sleep_data_raw strict_iso 1 [daily_with "d1" "2024-03-10" 80 Missing]
    [period_with "p1" "2024-03-10" 25200 Null] false false 19792 None noon ∅
  = Raise AttributeError
  /\ @Nullable._sync_sleep_data_raw strict_iso 1 [daily_with "d1" "2024-03-10" 80 Null]
       [period_with "p1" "2024-03-10" 25200 (Val balance)] false false 19792 None noon ∅
     = Raise AttributeError.
Proof. split; vm_compute; reflexivity. Qed.

Lemma well_formed_answer_is_committed_witness :
  exists stats db',
    @Nullable.sync_user_data_raw strict_iso (json_vendor (one_day_with (Val balance))) 1 3 false
      false 0 noon (authorised (noon + 86400)) = (Returned stats, db')
    /\ @sync_user_data strict_iso (Nullable.client_of (json_vendor (one_day_with (Val balance))))
         1 3 false false 0 noon (authorised (noon + 86400)) = (Returned stats, db').
Proof.
  apply (@well_formed_answer_is_committed strict_iso (json_vendor (one_day_with (Val balance)))
           1 3 false false 0 noon (authorised (noon + 86400))).
  - repeat split; repeat constructor.
  - repeat split; try (repeat constructor; fail).
    + repeat constructor. discriminate.
    + apply (bool_decide_unpack _). vm_compute. exact I.
    + apply (bool_decide_unpack _). vm_compute. exact I.
    + apply (bool_decide_unpack _). vm_compute. exact I.
Defined.

(** With a null [contributors] in the daily score the same pass raises and
    commits nothing. *)
Example null_contributors_stop_the_pass :
  let out := @Nullable.sync_user_data_raw strict_iso (json_vendor (one_day_with Null)) 1 3 false
               false 0 noon (authorised (noon + 86400)) in
  out.1 = Raised AttributeError /\ entities out.2 = entities (authorised (noon + 86400)).
Proof. split; vm_compute; reflexivity. Qed.

Lemma batch_stops_at_the_first_raising_pass_witness :
  let out := @sync_all_active_users strict_iso vendor_by_token 2 (fun _ => noon) four_users in
  out.1 = Raise MissingGreenlet
  /\ exists before user after stats dbu cause,
       active_users four_users = before ++ user :: after
       /\ @sync_users strict_iso vendor_by_token 2 (fun _ => noon) before ∅ four_users
          = (Ok stats, dbu)
       /\ @sync_user_data strict_iso vendor_by_token user 2 false false 0 noon dbu
          = (Raised cause, out.2)
       /\ forall u, u ∈ after -> oura_auth out.2 !! u = oura_auth four_users !! u.
Proof.
  intros out.
  assert (Hout : out.1 = Raise MissingGreenlet) by (vm_compute; reflexivity).
  split; [exact Hout|].
  exact (proj2 (proj1 (proj2 (@batch_stops_at_the_first_raising_pass strict_iso vendor_by_token
                                2 (fun _ => noon) four_users)) MissingGreenlet Hout)).
Defined.

(** The scan gives the users 2, 3 and 1.  The pass of user 2 is committed,
    the pass of user 3 raises, and user 1 is not synchronised. *)
Example batch_of_four_users :
  let out := @sync_all_active_users strict_iso vendor_by_token 2 (fun _ => noon) four_users in
  active_users four_users = [2%N; 3%N; 1%N]
  /\ (@sync_user_data strict_iso vendor_by_token 3 2 false false 0 noon four_users).1
     = Raised ValueError
  /\ last_sync_at <$> oura_auth out.2 !! 2%N = Some (Some noon)
  /\ last_sync_at <$> oura_auth out.2 !! 3%N = Some None
  /\ last_sync_at <$> oura_auth out.2 !! 1%N = Some None
  /\ is_Some (oura_sleep out.2 !! "p1").
Proof. repeat split; try (vm_compute; reflexivity). vm_compute. by eexists. Qed.

End NullableExamples.


Section QuietExamples.
Import OuraSync Forced Quiet SleepMetrics Fixtures Samples.
Local Open Scope list_scope.

Lemma quiet_pass_after_a_pass_witness :
  let first := @sync_user_data strict_iso (vendor one_day) 1 2 false false 2 noon
                 (authorised (noon + 86400)) in
  exists stats2 db2,
    @sync_user_data strict_iso (vendor one_day) 1 2 false false 0 (noon + 900) first.2
    = (Returned stats2, db2)
    /\ entities db2 = entities first.2
    /\ (stats2 = ∅ \/ stats2 = quiet_stats).
Proof.
  intros first.
  apply (@quiet_pass_after_a_pass strict_iso (vendor one_day) 1 2 false false 2 noon
           (noon + 900) (authorised (noon + 86400))
           (list_to_map
              [("sleep", 1); ("daily_sleep", 1); ("readiness", 1); ("activity", 0);
               ("stress", 0); ("spo2", 0); ("cardiovascular_age", 0);
               ("resilience", 0); ("vo2_max", 0)])
           first.2).
  - intros. reflexivity.
  - reflexivity.
  - lia.
  - split.
    + apply (bool_decide_unpack _). vm_compute. exact I.
    + repeat constructor. intros _. eexists. reflexivity.
  - vm_compute. reflexivity.
Defined.

Lemma summaries_reach_main_sleeps_only_witness :
  let naps := [period "n1" "2024-03-10" "sleep" 1200 None] in
  @_sync_sleep_data strict_iso 1 (ad_sleep one_day) naps false false 19792 None noon ∅
  = @_sync_sleep_data strict_iso 1 [] naps false false 19792 None noon ∅.
Proof.
  intros naps.
  apply (@summaries_reach_main_sleeps_only strict_iso 1 (ad_sleep one_day) naps false false
           19792 None noon ∅).
  repeat constructor. discriminate.
Defined.

Lemma report_members_agree_witness :
  exists r debt score,
    @calculate_sleep_debt plain_numpy (table_recent 5) 1 (Some 100) 0 = Some r
    /\ sleep_debt_minutes r = Some debt /\ sleep_balance_score r = Some score
    /\ score = balance_of debt /\ 0 <= score <= 100.
Proof.
  destruct (@calculate_sleep_debt plain_numpy (table_recent 5) 1 (Some 100) 0) as [r|] eqn:E;
    [|vm_compute in E; discriminate E].
  destruct (@report_members_agree plain_numpy (table_recent 5) 1 (Some 100) 0) as [_ Hr].
  destruct (Hr r E) as (_ & _ & Hfull).
  destruct Hfull as (debt & score & Hd & Hs & Hb & Hrange & _).
  { vm_compute. lia. }
  exists r, debt, score. split; [reflexivity|]. split; [exact Hd|]. split; [exact Hs|].
  split; [exact Hb|exact Hrange].
Defined.

End QuietExamples.
